(** * chemprop: ensemble training driver, one training epoch, Pearson score

    A shallow embedding of
      - [chemprop/train/train.py]        ([train]),
      - [chemprop/train/run_training.py] ([run_training], [morgan_fingerprint],
        the binning of [confidence_visualizations]),
      - [pred_r2.py]                     ([cal_pccs], [cal_rank]),
    with the statements proved about them.

    Python integers are [Z].  In run_training.py floating-point values are
    read as exact rationals ([Q]) where the code only adds, multiplies and
    divides, and as the extended values [fl] where it compares against
    [float('inf')]; in pred_r2.py, where the rounding decides the result,
    they are binary64 numbers ([float]).  Exceptions are the [Raise] branch
    of [outcome].  The neural network, the optimizer, the data loaders,
    RDKit and GPy are opaque collaborators: they are the fields of [Env]. *)

From Stdlib Require Import Floats.
From Stdlib Require Import ZArith QArith Qabs Qround Lia Lqa Bool.
From Stdlib Require Import Permutation.
From stdpp Require Import base option list gmap strings.

Set Default Proof Using "Type".
Local Open Scope Z_scope.

(** ** Exceptions *)

Inductive pyerr : Type :=
  | ZeroDivisionError
  | ValueError
  | IndexError
  | TypeError
  | FileNotFoundError
  | AttributeError
  | AssertionError
  | NameError (var : string).

Inductive outcome (A : Type) : Type :=
  | Return (a : A)
  | Raise (e : pyerr).
Arguments Return {A} a.
Arguments Raise {A} e.

#[export] Instance outcome_ret : MRet outcome := @Return.
#[export] Instance outcome_bind : MBind outcome := fun A B f m =>
  match m with
  | Return a => f a
  | Raise e => Raise e
  end.

(** ** Python integer operations *)

(** [a // b] *)
Definition py_floordiv (a b : Z) : outcome Z :=
  if b =? 0 then Raise ZeroDivisionError else Return (a / b).

(** [a % b] *)
Definition py_mod (a b : Z) : outcome Z :=
  if b =? 0 then Raise ZeroDivisionError else Return (a mod b).

(** [len(range(start, stop, step))] for a nonzero step. *)
Definition range_len (start stop step : Z) : Z :=
  if 0 <? step then
    if start <? stop then (stop - start - 1) / step + 1 else 0
  else
    if stop <? start then (start - stop - 1) / (- step) + 1 else 0.

(** [range(start, stop, step)]; a zero step is a [ValueError]. *)
Definition py_range (start stop step : Z) : outcome (list Z) :=
  if step =? 0 then Raise ValueError
  else Return (map (fun k => start + Z.of_nat k * step)
                   (seq 0 (Z.to_nat (range_len start stop step)))).

(** [len(l)] *)
Definition len {A} (l : list A) : Z := Z.of_nat (length l).

(** A slice bound: negative bounds count from the end, all are clamped. *)
Definition clamp_index (k n : Z) : Z :=
  if k <? 0 then Z.max (k + n) 0 else Z.min k n.

(** [l[i:j]] *)
Definition py_slice {A} (l : list A) (i j : Z) : list A :=
  let lo := clamp_index i (len l) in
  let hi := clamp_index j (len l) in
  take (Z.to_nat (hi - lo)) (drop (Z.to_nat lo) l).

(** [[a for a in l if p(a)]], where the test may raise. *)
Fixpoint filter_by {A} (p : A -> outcome bool) (l : list A)
    : outcome (list A) :=
  match l with
  | [] => Return []
  | a :: l' =>
      match p a with
      | Raise e => Raise e
      | Return b =>
          match filter_by p l' with
          | Raise e => Raise e
          | Return rest => Return (if b then a :: rest else rest)
          end
      end
  end.

(** ** The arguments namespace *)

Inductive dataset_kind : Type := Regression | Classification | Multiclass.

Record Args : Type := {
  data_path : string;
  separate_val_path : option string;
  separate_test_path : option string;
  split_type : string;
  split_sizes : Q * Q * Q;
  seed : Z;
  dataset_type : dataset_kind;
  confidence : option string;
  ensemble_size : nat;
  epochs : nat;
  minimize_score : bool;
  batch_size : Z;
  log_frequency : Z;
  class_balance : bool;
  num_tasks : nat;
  last_hidden_size : nat;
  checkpoint_paths : option (list string);
}.

(** ** train.py *)

Section Train.
(** [D]: a datapoint; [M]: the model together with its optimizer and
    scheduler; [Rng]: the state of the random generator. *)
Context {D M Rng : Type}.
(** [data.shuffle()] *)
Variable shuffle : Rng -> list D -> Rng * list D.
(** Lines 83-126: zero_grad, forward pass, loss, backward, optimizer and
    NoamLR scheduler step on one batch. *)
Variable step : M -> list D -> M.
(** [d.targets] *)
Variable d_targets : D -> list (option Q).

(** [d.targets[0] == v] *)
Definition first_target_is (v : Q) (d : D) : outcome bool :=
  match d_targets d with
  | [] => Raise IndexError
  | Some t :: _ => Return (Qeq_bool t v)
  | None :: _ => Return false
  end.

(** The [while True] loop of lines 59-72.  Every pass that does not break
    takes at least one negative, so [fuel] above [len(neg)] is never used
    up. *)
Fixpoint balance_loop (fuel : nat) (pos neg : list D)
    (iter_size pos_size pos_index neg_index : Z) (new_data : list D)
    : list D :=
  match fuel with
  | O => new_data
  | S fuel' =>
      let new_pos := py_slice pos pos_index (pos_index + pos_size) in
      let new_neg :=
        py_slice neg neg_index (neg_index + iter_size - len new_pos) in
      if (len new_pos =? 0) || (len new_neg =? 0) then new_data
      else
        let new_pos :=
          if len new_pos + len new_neg <? iter_size
          then py_slice pos pos_index (pos_index + iter_size - len new_neg)
          else new_pos in
        balance_loop fuel' pos neg iter_size pos_size
          (pos_index + len new_pos) (neg_index + len new_neg)
          (new_data ++ new_pos ++ new_neg)
  end.

(** Lines 50-74: batches with as many positives as negatives. *)
Definition class_balanced (iter_size : Z) (data : list D)
    : outcome (list D) :=
  match data with
  | [] => Raise IndexError
  | d0 :: _ =>
      if (length (d_targets d0) =? 1)%nat then
        pos ← filter_by (first_target_is 1) data;
        neg ← filter_by (first_target_is 0) data;
        Return (balance_loop (S (length neg)) pos neg iter_size
                  (iter_size / 2) 0 0 [])
      else Raise AssertionError
  end.

Record train_state : Type := {
  ts_model : M;
  ts_n_iter : Z;
  ts_batches : list (list D);   (* ghost: the batches trained on, in order *)
  ts_logged : list Z;           (* ghost: values of n_iter that were logged *)
}.

(** The body of the [for i in trange(0, num_iters, iter_size)] loop. *)
Fixpoint train_loop (args : Args) (data : list D) (idx : list Z)
    (st : train_state) : outcome train_state :=
  match idx with
  | [] => Return st
  | i :: idx' =>
      if len data <? i + batch_size args then Return st (* break *)
      else
        let mol_batch := py_slice data i (i + batch_size args) in
        let model := step (ts_model st) mol_batch in
        let n_iter := ts_n_iter st + len mol_batch in
        q ← py_floordiv n_iter (batch_size args);
        r ← py_mod q (log_frequency args);
        train_loop args data idx'
          {| ts_model := model;
             ts_n_iter := n_iter;
             ts_batches := ts_batches st ++ [mol_batch];
             ts_logged := if r =? 0 then ts_logged st ++ [n_iter]
                          else ts_logged st |}
  end.

Record train_result : Type := {
  tr_model : M;
  tr_n_iter : Z;
  tr_data : list D;             (* the dataset object, shuffled in place *)
  tr_rng : Rng;
  tr_batches : list (list D);
  tr_logged : list Z;
}.

Definition train (model : M) (data : list D) (rng : Rng) (args : Args)
    (n_iter : Z) : outcome train_result :=
  let '(rng', shuffled) := shuffle rng data in
  let iter_size := batch_size args in
  data' ← (if class_balance args then class_balanced iter_size shuffled
           else Return shuffled);
  q ← py_floordiv (len data') (batch_size args);
  let num_iters := q * batch_size args in
  idx ← py_range 0 num_iters iter_size;
  st ← train_loop args data' idx
         {| ts_model := model; ts_n_iter := n_iter;
            ts_batches := []; ts_logged := [] |};
  Return {| tr_model := ts_model st; tr_n_iter := ts_n_iter st;
            tr_data := shuffled; tr_rng := rng';
            tr_batches := ts_batches st; tr_logged := ts_logged st |}.
End Train.

(** ** Floating-point values that are compared *)

(** A float as the code compares it: a finite value, an infinity or NaN. *)
Inductive fl : Type := Fin (q : Q) | PInf | NInf | NaN.

Definition Qltb (x y : Q) : bool := negb (Qle_bool y x).

(** [a < b] on floats: false as soon as one side is NaN. *)
Definition fl_ltb (a b : fl) : bool :=
  match a, b with
  | NaN, _ | _, NaN => false
  | NInf, NInf => false
  | NInf, _ => true
  | _, NInf => false
  | PInf, _ => false
  | Fin _, PInf => true
  | Fin x, Fin y => Qltb x y
  end.

(** [a * k] for a finite positive constant [k]. *)
Definition fl_scale (a : fl) (k : Q) : fl :=
  match a with Fin q => Fin (q * k) | other => other end.

(** [a / b] on numpy floats holding integers: division by zero gives an
    infinity or NaN (and a warning), not an exception. *)
Definition fl_div (a b : Z) : fl :=
  if b =? 0 then (if a =? 0 then NaN else if 0 <? a then PInf else NInf)
  else Fin (inject_Z a / inject_Z b).

(** Whether a confidence value lies in [[lo, hi]]. *)
Definition fl_between (lo hi : Q) (a : fl) : Prop :=
  match a with Fin q => (lo <= q /\ q <= hi)%Q | _ => False end.

(** ** Arrays of floats read as rationals *)

Definition Qsum (l : list Q) : Q := foldr Qplus 0%Q l.
Definition Qmean (l : list Q) : Q := (Qsum l / inject_Z (len l))%Q.
(** [np.var(l)] (population variance, ddof = 0) *)
Definition Qvar (l : list Q) : Q :=
  Qmean (map (fun x => (x - Qmean l) * (x - Qmean l))%Q l).

(** [np.zeros((r, c))] *)
Definition zeros (r c : nat) : list (list Q) := replicate r (replicate c 0%Q).
(** [a + b] on arrays of one shape. *)
Definition mat_add (a b : list (list Q)) : list (list Q) :=
  zip_with (zip_with Qplus) a b.
(** [a / n] *)
Definition mat_div (a : list (list Q)) (n : Q) : list (list Q) :=
  map (map (fun x => x / n)%Q) a.
(** [a[i][j]] *)
Definition entry (a : list (list Q)) (i j : nat) : Q :=
  nth j (nth i a []) 0%Q.

(** ** Datasets *)

Record Datapoint : Type := { smiles : string; targets : list (option Q) }.

#[export] Instance Datapoint_inhabited : Inhabited Datapoint :=
  populate {| smiles := ""; targets := [] |}.

(** Datapoints are objects: the heap holds them, a dataset is a list of
    references (heap indices), and two datasets may share datapoints. *)
Definition deref (h : list Datapoint) (ds : list nat) : list Datapoint :=
  map (fun r => h !!! r) ds.
(** [ds.smiles()] and [ds.targets()] *)
Definition smiles_of (h : list Datapoint) (ds : list nat) : list string :=
  map smiles (deref h ds).
Definition targets_of (h : list Datapoint) (ds : list nat)
    : list (list (option Q)) :=
  map targets (deref h ds).

(** Modelled from the spec: MoleculeDataset.set_targets (chemprop/data/data.py)
    is not among the sources; it stores the i-th row of targets in the i-th
    datapoint of the dataset. *)
Fixpoint set_targets (h : list Datapoint) (ds : list nat)
    (ts : list (list (option Q))) : list Datapoint :=
  match ds, ts with
  | r :: ds', t :: ts' =>
      set_targets (alter (fun d => {| smiles := smiles d; targets := t |}) r h)
                  ds' ts'
  | _, _ => h
  end.

(** Modelled from the spec: StandardScaler (chemprop/data/scaler.py) is not
    among the sources; run_training.py describes it as subtracting the mean
    and dividing by the standard deviation, per task, a missing target
    staying missing.  How [fit] computes the two vectors is a field of [Env]. *)
Record StandardScaler : Type := { means : list Q; stds : list Q }.

Definition transform_row (sc : StandardScaler) (row : list (option Q))
    : list (option Q) :=
  zip_with (fun ms x => (fun v => (v - fst ms) / snd ms)%Q <$> x)
           (zip (means sc) (stds sc)) row.
Definition transform (sc : StandardScaler) (X : list (list (option Q)))
    : list (list (option Q)) :=
  map (transform_row sc) X.

(** ** The opaque collaborators of run_training.py *)

Record Env : Type := {
  (** a network (weights and flags), an optimizer with its learning-rate
      scheduler, the state of the random generators *)
  Model : Type;
  Optim : Type;
  Rng : Type;
  (** the rows [get_data] parses from the file at a path *)
  read_csv : string -> list Datapoint;
  (** [split_data(data, split_type, sizes, seed)]: the three portions *)
  split_data : list Datapoint -> list nat -> string -> Q * Q * Q -> Z ->
               list nat * list nat * list nat;
  (** [StandardScaler().fit(X)] *)
  fit : list (list (option Q)) -> StandardScaler;
  build_model : Rng -> Rng * Model;
  (** [load_checkpoint] of a file named in [args.checkpoint_paths] *)
  load_pretrained : string -> Model;
  (** [build_optimizer] and [build_lr_scheduler] *)
  build_optimizer : Model -> Optim;
  (** [data.shuffle()] in train.py *)
  data_shuffle : Rng -> list nat -> Rng * list nat;
  (** one optimisation step on a batch (train.py, lines 83-126) *)
  sgd_step : Model * Optim -> list Datapoint -> Model * Optim;
  (** [scheduler.step()] when the scheduler is an ExponentialLR *)
  exponential_lr_step : Optim -> Optim;
  (** [np.nanmean(evaluate(model, val_data, ...))] *)
  avg_val_score : Model -> option StandardScaler -> list Datapoint -> fl;
  (** [predict(model, data, batch_size, scaler)] *)
  predict : Model -> option StandardScaler -> list Datapoint -> list (list Q);
  (** [predict] once [model.use_last_hidden] is cleared *)
  predict_last_hidden :
    Model -> option StandardScaler -> list Datapoint -> list (list Q);
  evaluate_predictions : list (list Q) -> list (list (option Q)) -> list fl;
  (** lines 344-368 and 396-427: GPy regression on the averaged hidden
      states, then the shift, scale and log of the predicted variance and
      the absolute errors, with whatever GPy and numpy raise on the way (a
      missing test target, an empty test set): the pair [(x, y)] *)
  gaussian_confidence :
    list (list Q) -> list (list (option Q)) -> list (list Q) ->
    list (list (option Q)) -> option StandardScaler ->
    outcome (list Q * list Q);
  (** RDKit: [Chem.MolToSmiles(Chem.MolFromSmiles(s))] and the Morgan
      bit vector of [morgan_fingerprint], as the numpy array of 0s and 1s *)
  canonical_smiles : string -> string;
  morgan_fingerprint : string -> list Z;
}.

(** ** run_training.py: loading and splitting (lines 76-103) *)

Section RunTraining.
Context (E : Env).

(** A path argument counts when it is neither [None] nor empty. *)
Definition path_of (o : option string) : option string :=
  match o with
  | Some s => if String.eqb s "" then None else Some s
  | None => None
  end.

(** [get_data(path)] creates one new datapoint object per row. *)
Definition get_data (path : string) (h : list Datapoint)
    : list Datapoint * list nat :=
  let rows := read_csv E path in
  (h ++ rows, seq (length h) (length rows)).

Record splits : Type := {
  sp_heap : list Datapoint;
  sp_data : list nat;
  sp_train : list nat;
  sp_val : list nat;
  sp_test : list nat;
}.

(** Lines 76-103.  The class sizes, the optional CSV files of the splits
    and the scaling of the features (lines 105-149) touch neither the
    targets nor the membership of the three sets and are left out. *)
Definition load_and_split (args : Args) : splits :=
  let '(h0, data) := get_data (data_path args) [] in
  let '(h1, test_loaded) :=
    match path_of (separate_test_path args) with
    | Some p => get_data p h0
    | None => (h0, [])
    end in
  let '(h2, val_loaded) :=
    match path_of (separate_val_path args) with
    | Some p => get_data p h1
    | None => (h1, [])
    end in
  let fixed := ((8 # 10)%Q, (2 # 10)%Q, 0%Q) in
  match path_of (separate_val_path args), path_of (separate_test_path args) with
  | Some _, Some _ =>
      {| sp_heap := h2; sp_data := data;
         sp_train := data; sp_val := val_loaded; sp_test := test_loaded |}
  | Some _, None =>
      let '(train_data, _, test_data) :=
        split_data E h2 data (split_type args) fixed (seed args) in
      {| sp_heap := h2; sp_data := data;
         sp_train := train_data; sp_val := val_loaded; sp_test := test_data |}
  | None, Some _ =>
      let '(train_data, val_data, _) :=
        split_data E h2 data (split_type args) fixed (seed args) in
      {| sp_heap := h2; sp_data := data;
         sp_train := train_data; sp_val := val_data; sp_test := test_loaded |}
  | None, None =>
      let '(train_data, val_data, test_data) :=
        split_data E h2 data (split_type args) (split_sizes args) (seed args) in
      {| sp_heap := h2; sp_data := data;
         sp_train := train_data; sp_val := val_data; sp_test := test_data |}
  end.

(** ** Target scaling (lines 156-164) *)

Record scaled : Type := {
  sc_heap : list Datapoint;
  sc_scaler : option StandardScaler;
  sc_train_smiles : option (list string);   (* bound in regression runs only *)
}.

Definition scale_targets (args : Args) (h : list Datapoint)
    (train_data : list nat) : scaled :=
  match dataset_type args with
  | Regression =>
      let train_smiles := smiles_of h train_data in
      let train_targets := targets_of h train_data in
      let scaler := fit E train_targets in
      let scaled_targets := transform scaler train_targets in
      {| sc_heap := set_targets h train_data scaled_targets;
         sc_scaler := Some scaler;
         sc_train_smiles := Some train_smiles |}
  | _ => {| sc_heap := h; sc_scaler := None; sc_train_smiles := None |}
  end.

(** ** One ensemble member: epochs and early stopping (lines 205-264) *)

(** Checkpoint files: [save_dir/model_<idx>/model.pt] is keyed by [idx]. *)
Record epoch_state : Type := {
  es_model : Model E;
  es_optim : Optim E;
  es_rng : Rng E;
  es_train_data : list nat;       (* train_data, reshuffled by each epoch *)
  es_n_iter : Z;
  es_best_score : fl;
  es_best_epoch : nat;
  es_store : gmap nat (Model E);
}.

(** Lines 260-261. *)
Definition improved (args : Args) (avg_val_score best_score : fl) : bool :=
  minimize_score args && fl_ltb avg_val_score best_score
  || negb (minimize_score args) && fl_ltb best_score avg_val_score.

Definition epoch_step (args : Args) (h : list Datapoint) (val_data : list nat)
    (scaler : option StandardScaler) (model_idx epoch : nat)
    (st : epoch_state) : outcome epoch_state :=
  r ← train (data_shuffle E)
            (fun m batch => sgd_step E m (deref h batch))
            (fun r => targets (h !!! r))
            (es_model st, es_optim st) (es_train_data st) (es_rng st)
            args (es_n_iter st);
  let model := fst (tr_model r) in
  let optim := exponential_lr_step E (snd (tr_model r)) in
  let score := avg_val_score E model scaler (deref h val_data) in
  let saved := improved args score (es_best_score st) in
  Return {| es_model := model;
            es_optim := optim;
            es_rng := tr_rng r;
            es_train_data := tr_data r;
            es_n_iter := tr_n_iter r;
            es_best_score := if saved then score else es_best_score st;
            es_best_epoch := if saved then epoch else es_best_epoch st;
            es_store := if saved then <[model_idx := model]> (es_store st)
                        else es_store st |}.

(** [for epoch in trange(args.epochs)] *)
Fixpoint epoch_loop (args : Args) (h : list Datapoint) (val_data : list nat)
    (scaler : option StandardScaler) (model_idx : nat) (epochs : list nat)
    (st : epoch_state) : outcome epoch_state :=
  match epochs with
  | [] => Return st
  | epoch :: rest =>
      st' ← epoch_step args h val_data scaler model_idx epoch st;
      epoch_loop args h val_data scaler model_idx rest st'
  end.

(** [load_checkpoint(os.path.join(save_dir, 'model.pt'))] *)
Definition load_checkpoint (store : gmap nat (Model E)) (model_idx : nat)
    : outcome (Model E) :=
  match store !! model_idx with
  | Some m => Return m
  | None => Raise FileNotFoundError
  end.

(** ** The ensemble loop (lines 170-323) *)

Record run_state : Type := {
  rs_rng : Rng E;
  rs_train_data : list nat;
  rs_store : gmap nat (Model E);
  rs_sum_test_preds : list (list Q);
  (** [all_test_preds[:, :, k]] is the k-th element *)
  rs_all_test_preds : list (list (list Q));
  (** bound only when [args.confidence == "gaussian"] *)
  rs_sum_last_hidden : option (list (list Q));
  rs_sum_last_hidden_test : option (list (list Q));
  (** ghost: the model each member was evaluated with, and where it stopped *)
  rs_loaded : list (Model E);
  rs_members : list epoch_state;
}.

Definition conf_is (args : Args) (name : string) : bool :=
  match confidence args with
  | Some s => String.eqb s name
  | None => false
  end.

(** Reading a variable that may not have been assigned. *)
Definition read_var {A} (name : string) (v : option A) : outcome A :=
  match v with
  | Some a => Return a
  | None => Raise (NameError name)
  end.

Definition init_member (args : Args) (model_idx : nat) (rng : Rng E)
    : outcome (Rng E * Model E) :=
  match checkpoint_paths args with
  | Some paths =>
      match paths !! model_idx with
      | Some p => Return (rng, load_pretrained E p)
      | None => Raise IndexError
      end
  | None => Return (build_model E rng)
  end.

(** The state a member enters its epoch loop with (lines 205-217): the
    untrained model is saved first, for the evaluation if 0 epochs. *)
Definition member_start (args : Args) (model_idx : nat) (model : Model E)
    (rng : Rng E) (train_data : list nat) (store : gmap nat (Model E))
    : epoch_state :=
  {| es_model := model;
     es_optim := build_optimizer E model;
     es_rng := rng;
     es_train_data := train_data;
     es_n_iter := 0;
     es_best_score := if minimize_score args then PInf else NInf;
     es_best_epoch := 0%nat;
     es_store := <[model_idx := model]> store |}.

(** One pass of the ensemble loop.  The member's own test scores and the
    tensorboard records are only logged and are left out. *)
Definition run_member (args : Args) (h : list Datapoint)
    (val_data test_data : list nat) (scaler : option StandardScaler)
    (model_idx : nat) (st : run_state) : outcome run_state :=
  '(rng, model) ← init_member args model_idx (rs_rng st);
  ep ← epoch_loop args h val_data scaler model_idx (seq 0 (epochs args))
         (member_start args model_idx model rng (rs_train_data st)
            (rs_store st));
  model ← load_checkpoint (es_store ep) model_idx;
  let test_preds := predict E model scaler (deref h test_data) in
  let nonempty := negb (length test_preds =? 0)%nat in
  slh ← (if conf_is args "gaussian" then
           s ← read_var "sum_last_hidden" (rs_sum_last_hidden st);
           Return (Some (mat_add s
                     (predict_last_hidden E model scaler (deref h val_data))))
         else Return (rs_sum_last_hidden st));
  slht ← (if conf_is args "gaussian" then
            s ← read_var "sum_last_hidden_test" (rs_sum_last_hidden_test st);
            Return (Some (mat_add s
                      (predict_last_hidden E model scaler (deref h test_data))))
          else Return (rs_sum_last_hidden_test st));
  Return {| rs_rng := es_rng ep;
            rs_train_data := es_train_data ep;
            rs_store := es_store ep;
            rs_sum_test_preds :=
              if nonempty then mat_add (rs_sum_test_preds st) test_preds
              else rs_sum_test_preds st;
            rs_all_test_preds :=
              if nonempty then <[model_idx := test_preds]> (rs_all_test_preds st)
              else rs_all_test_preds st;
            rs_sum_last_hidden := slh;
            rs_sum_last_hidden_test := slht;
            rs_loaded := rs_loaded st ++ [model];
            rs_members := rs_members st ++ [ep] |}.

(** [for model_idx in range(args.ensemble_size)] *)
Fixpoint ensemble_loop (args : Args) (h : list Datapoint)
    (val_data test_data : list nat) (scaler : option StandardScaler)
    (idxs : list nat) (st : run_state) : outcome run_state :=
  match idxs with
  | [] => Return st
  | model_idx :: rest =>
      st' ← run_member args h val_data test_data scaler model_idx st;
      ensemble_loop args h val_data test_data scaler rest st'
  end.

Definition init_run (args : Args) (h : list Datapoint)
    (train_data val_data test_data : list nat) (rng : Rng E) : run_state :=
  let n_test := length (smiles_of h test_data) in
  let gaussian := conf_is args "gaussian" in
  {| rs_rng := rng;
     rs_train_data := train_data;
     rs_store := ∅;
     rs_sum_test_preds := zeros n_test (num_tasks args);
     rs_all_test_preds :=
       replicate (ensemble_size args) (zeros n_test (num_tasks args));
     rs_sum_last_hidden :=
       if gaussian
       then Some (zeros (length (smiles_of h val_data)) (last_hidden_size args))
       else None;
     rs_sum_last_hidden_test :=
       if gaussian then Some (zeros n_test (last_hidden_size args)) else None;
     rs_loaded := [];
     rs_members := [] |}.

(** ** Confidence diagnostics (lines 342-427) *)

(** The pair [(x, y)] handed to the plots, tagged by the method that made it. *)
Inductive confidence_xy : Type :=
  | GaussianXY (x y : list Q)
  | TanimotoXY (x : list fl) (y : list (list Q))
  | EnsembleXY (x y : list (list Q))
  | ClassificationXY (x y : list Q).

Definition Zsum (l : list Z) : Z := foldr Z.add 0 l.

(** [np.dot(a, b)] on vectors *)
Definition dot (a b : list Z) : outcome Z :=
  if (length a =? length b)%nat then Return (Zsum (zip_with Z.mul a b))
  else Raise ValueError.

(** Lines 379-380. *)
Definition tanimoto (fp sfp : list Z) : outcome fl :=
  d ← dot fp sfp;
  d' ← dot fp sfp;
  Return (fl_div d (Zsum fp + Zsum sfp - d')).

(** [np.abs(avg_test_preds[i] - test_targets[i][0])] *)
Definition abs_error_first (avg_test_preds : list (list Q))
    (test_targets : list (list (option Q))) (i : nat) : outcome (list Q) :=
  match avg_test_preds !! i, test_targets !! i with
  | Some row, Some (Some t :: _) => Return (map (fun p => Qabs (p - t)) row)
  | Some _, Some (None :: _) => Raise TypeError
  | _, _ => Raise IndexError
  end.

(** [max(l, key=lambda x: x[0])]: the first element with the largest key. *)
Definition max_by_key {A} (l : list (fl * A)) : outcome (fl * A) :=
  match l with
  | [] => Raise ValueError
  | p :: rest =>
      Return (fold_left (fun best q => if fl_ltb (fst best) (fst q) then q
                                       else best) rest p)
  end.

(** The body of the loop over the test molecules, lines 375-385. *)
Definition tanimoto_point (avg_test_preds : list (list Q))
    (test_targets : list (list (option Q))) (train_smiles_sfp : list (list Z))
    (i : nat) (test_smile : string) : outcome (fl * list Q) :=
  let fp := morgan_fingerprint E (canonical_smiles E test_smile) in
  morgan_sim ← mapM (fun sfp =>
                  tsim ← tanimoto fp sfp;
                  err ← abs_error_first avg_test_preds test_targets i;
                  Return (tsim, err)) train_smiles_sfp;
  max_by_key morgan_sim.

Definition tanimoto_confidence (avg_test_preds : list (list Q))
    (test_targets : list (list (option Q)))
    (train_smiles test_smiles : list string) : outcome confidence_xy :=
  let train_smiles_sfp := map (morgan_fingerprint E) train_smiles in
  pts ← mapM (fun p => tanimoto_point avg_test_preds test_targets
                         train_smiles_sfp (fst p) (snd p))
             (zip (seq 0 (length test_smiles)) test_smiles);
  Return (TanimotoXY (map (fun p => fl_scale (fst p) 10) pts) (map snd pts)).

(** [np.var(all_test_preds, axis=2) * -1] *)
Definition neg_ensemble_variance (all_test_preds : list (list (list Q)))
    (n_test n_tasks : nat) : list (list Q) :=
  map (fun i => map (fun j =>
         (Qvar (map (fun P => entry P i j) all_test_preds) * - (1))%Q)
       (seq 0 n_tasks)) (seq 0 n_test).

(** [np.abs(avg_test_preds - test_targets)]; a missing target cannot be
    subtracted. *)
Definition abs_error (avg_test_preds : list (list Q))
    (test_targets : list (list (option Q))) : outcome (list (list Q)) :=
  mapM (fun rt =>
          mapM (fun pt => match snd pt with
                          | Some t => Return (Qabs (fst pt - t))
                          | None => Raise TypeError
                          end) (zip (fst rt) (snd rt)))
       (zip avg_test_preds test_targets).

Definition truthy (o : option string) : bool :=
  match path_of o with Some _ => true | None => false end.

(** Lines 342-427 up to the plots: the pair [(x, y)] that line 393 hands to
    [confidence_visualizations] and lines 411 and 426 to [plt.plot].  The
    plots themselves come after it and are no part of it: a run can still
    raise in them. *)
Definition diagnostics (args : Args) (h : list Datapoint)
    (val_data test_data : list nat) (sc : scaled) (st : run_state)
    (avg_test_preds : list (list Q)) : outcome (option confidence_xy) :=
  let n := inject_Z (Z.of_nat (ensemble_size args)) in
  let test_smiles := smiles_of h test_data in
  let test_targets := targets_of h test_data in
  if truthy (confidence args) then
    match dataset_type args with
    | Regression =>
        if conf_is args "gaussian" then
          slh ← read_var "sum_last_hidden" (rs_sum_last_hidden st);
          slht ← read_var "sum_last_hidden_test" (rs_sum_last_hidden_test st);
          scaler ← match sc_scaler sc with
                   | Some s => Return s
                   | None => Raise AttributeError
                   end;
          let transformed_val := transform scaler (targets_of h val_data) in
          xy ← gaussian_confidence E (mat_div slh n) transformed_val
                 (mat_div slht n) test_targets (sc_scaler sc);
          Return (Some (GaussianXY (fst xy) (snd xy)))
        else if conf_is args "tanimoto" then
          train_smiles ← read_var "train_smiles" (sc_train_smiles sc);
          xy ← tanimoto_confidence avg_test_preds test_targets
                 train_smiles test_smiles;
          Return (Some xy)
        else if conf_is args "ensemble" then
          y ← abs_error avg_test_preds test_targets;
          Return (Some (EnsembleXY
                    (neg_ensemble_variance (rs_all_test_preds st)
                       (length test_smiles) (num_tasks args)) y))
        else Raise (NameError "x")
    | Classification =>
        slh ← read_var "sum_last_hidden" (rs_sum_last_hidden st);
        slht ← read_var "sum_last_hidden_test" (rs_sum_last_hidden_test st);
        xy ← gaussian_confidence E (mat_div slh n) (targets_of h val_data)
               (mat_div slht n) test_targets None;
        Return (Some (ClassificationXY (fst xy) (snd xy)))
    | Multiclass => Return None
    end
  else Return None.

(** ** run_training *)

Record run_report : Type := {
  rep_splits : splits;
  rep_scaled : scaled;
  rep_state : run_state;
  rep_avg_test_preds : list (list Q);
  rep_ensemble_scores : list fl;
  rep_confidence : option confidence_xy;
}.

(** The run with everything it computed; [run_training] returns the scores.
    Lines 105-149 (the class sizes, the files of [args.save_smiles_splits],
    the scaling of the features) come between the split and the scaler;
    they log and write files, leave the targets of the three datasets
    alone, and are not modelled: a run can raise there, before any
    training.  What is proved of a run is proved of one that got past
    them. *)
Definition run_training_report (args : Args) (rng : Rng E)
    : outcome run_report :=
  let sp := load_and_split args in
  let sc := scale_targets args (sp_heap sp) (sp_train sp) in
  let h := sc_heap sc in
  let test_targets := targets_of h (sp_test sp) in
  st ← ensemble_loop args h (sp_val sp) (sp_test sp) (sc_scaler sc)
         (seq 0 (ensemble_size args))
         (init_run args h (sp_train sp) (sp_val sp) (sp_test sp) rng);
  let avg_test_preds :=
    mat_div (rs_sum_test_preds st) (inject_Z (Z.of_nat (ensemble_size args))) in
  let ensemble_scores := evaluate_predictions E avg_test_preds test_targets in
  (* line 339: [writer] is bound by the first ensemble member *)
  _ ← (if (ensemble_size args =? 0)%nat then Raise (NameError "writer")
       else Return ());
  xy ← diagnostics args h (sp_val sp) (sp_test sp) sc st avg_test_preds;
  Return {| rep_splits := sp; rep_scaled := sc; rep_state := st;
            rep_avg_test_preds := avg_test_preds;
            rep_ensemble_scores := ensemble_scores;
            rep_confidence := xy |}.

Definition run_training (args : Args) (rng : Rng E) : outcome (list fl) :=
  rep ← run_training_report args rng;
  Return (rep_ensemble_scores rep).

End RunTraining.

(** ** pred_r2.py: cal_pccs *)

(** [np.array(x, dtype=float)] is an array of binary64 numbers, and numpy
    computes on them by the rules of IEEE 754, every result rounded to the
    nearest: the arithmetic of [PrimFloat].  A division by zero and the
    square root of a negative number give an infinity or NaN (and a
    warning), not an exception.  The Python integer [n = len(x)] is
    converted to binary64 where it meets a numpy float. *)
Definition float_of_len (n : nat) : float :=
  of_uint63 (Uint63.of_Z (Z.of_nat n)).

(** The entries added one after the other, from zero. *)
Definition sum_in_order (l : list float) : float :=
  fold_left PrimFloat.add l 0%float.

Section Pearson.
(** [np.sum] of a one-dimensional array.  The order in which numpy adds the
    entries is its own, and with it the rounding of the sum: [np_sum] is a
    parameter.  Of the two nested calls [np.sum(np.sum(a))] the inner one
    gives a number, which the outer one returns. *)
Variable np_sum : list float -> float.

(** [x * y] on one-dimensional arrays: element-wise, a one-element array
    being broadcast, any other mismatch of lengths a [ValueError]. *)
Definition np_mul (x y : list float) : outcome (list float) :=
  if (length x =? length y)%nat then Return (zip_with PrimFloat.mul x y)
  else match x, y with
       | [a], _ => Return (map (fun b => a * b)%float y)
       | _, [b] => Return (map (fun a => a * b)%float x)
       | _, _ => Raise ValueError
       end.

Definition cal_pccs (x y : list float) : outcome float :=
  let n := float_of_len (length x) in
  xy ← np_mul x y;
  let sum_xy := np_sum xy in
  let sum_x := np_sum x in
  let sum_y := np_sum y in
  xx ← np_mul x x;
  let sum_x2 := np_sum xx in
  yy ← np_mul y y;
  let sum_y2 := np_sum yy in
  Return ((n * sum_xy - sum_x * sum_y)
          / sqrt ((n * sum_x2 - sum_x * sum_x)
                  * (n * sum_y2 - sum_y * sum_y)))%float.

(** The textbook, mean-centred Pearson coefficient in the same arithmetic,
    for comparison. *)
Definition np_mean (l : list float) : float :=
  (np_sum l / float_of_len (length l))%float.
Definition centred (l : list float) : list float :=
  map (fun a => a - np_mean l)%float l.
Definition pearson_textbook (x y : list float) : float :=
  (np_sum (zip_with PrimFloat.mul (centred x) (centred y))
   / sqrt (np_sum (map (fun d => d * d) (centred x))
           * np_sum (map (fun d => d * d) (centred y))))%float.
End Pearson.

(** What the statements about concrete arrays rely on from [np.sum]: an
    array of fewer than 8 entries is added up one entry after the other. *)
Definition adds_in_order (np_sum : list float -> float) : Prop :=
  forall l, (length l < 8)%nat -> np_sum l = sum_in_order l.

(** ** A small concrete instance *)

(** Modelled from the spec: split_data (chemprop/data/utils.py) is not among
    the sources; the call sites of run_training.py hand it the fractions
    (train, val, test) and bind the three portions.  Its random split cuts
    the (here: reversed) data at floor(f_train * n) and
    floor((f_train + f_val) * n). *)
Definition random_split (data : list nat) (sizes : Q * Q * Q)
    : list nat * list nat * list nat :=
  let n := inject_Z (len data) in
  let train_size := Z.to_nat (Qfloor (fst (fst sizes) * n)) in
  let train_val_size :=
    Z.to_nat (Qfloor ((fst (fst sizes) + snd (fst sizes)) * n)) in
  let shuffled := rev data in
  (take train_size shuffled,
   take (train_val_size - train_size) (drop train_size shuffled),
   drop train_val_size shuffled).

Definition sample_rows (path : string) : list Datapoint :=
  if String.eqb path "data.csv" then
    map (fun k => {| smiles := if (k <? 3)%nat then "C" else "CC";
                     targets := [Some (inject_Z (Z.of_nat k))] |}) (seq 0 5)
  else
    [ {| smiles := "CO"; targets := [Some 7%Q] |};
      {| smiles := "CN"; targets := [Some 9%Q] |} ].

Definition sample_env : Env := {|
  Model := nat;                 (* the number of optimisation steps taken *)
  Optim := unit;
  Rng := nat;
  read_csv := sample_rows;
  split_data := fun _ data _ sizes _ => random_split data sizes;
  fit := fun _ => {| means := [1%Q]; stds := [2%Q] |};
  build_model := fun r => (S r, r);
  load_pretrained := fun _ => 0%nat;
  build_optimizer := fun _ => ();
  data_shuffle := fun r l => (S r, rev l);
  sgd_step := fun mo _ => (S (fst mo), snd mo);
  exponential_lr_step := fun o => o;
  avg_val_score := fun m _ _ =>
    Fin (inject_Z (Z.abs (Z.of_nat m - 4)));
  predict := fun m _ ds =>
    map (fun d => [inject_Z (Z.of_nat m + Z.of_nat (String.length (smiles d)))])
        ds;
  predict_last_hidden := fun _ _ ds => map (fun _ => [1%Q]) ds;
  evaluate_predictions := fun preds _ => [Fin (Qsum (map Qsum preds))];
  gaussian_confidence := fun _ _ _ _ _ => Return ([], []);
  canonical_smiles := fun s => s;
  morgan_fingerprint := fun s =>
    if String.eqb s "C" then [1; 0; 1; 0] else
    if String.eqb s "CC" then [1; 1; 0; 0] else [0; 1; 1; 1];
|}.

Definition sample_args : Args := {|
  data_path := "data.csv";
  separate_val_path := None;
  separate_test_path := None;
  split_type := "random";
  split_sizes := ((6 # 10)%Q, (2 # 10)%Q, (2 # 10)%Q);
  seed := 0;
  dataset_type := Regression;
  confidence := None;
  ensemble_size := 2;
  epochs := 3;
  minimize_score := true;
  batch_size := 2;
  log_frequency := 10;
  class_balance := false;
  num_tasks := 1;
  last_hidden_size := 1;
  checkpoint_paths := None;
|}.

Definition with_confidence (c : option string) (k : dataset_kind)
    (a : Args) : Args := {|
  data_path := data_path a;
  separate_val_path := separate_val_path a;
  separate_test_path := separate_test_path a;
  split_type := split_type a;
  split_sizes := split_sizes a;
  seed := seed a;
  dataset_type := k;
  confidence := c;
  ensemble_size := ensemble_size a;
  epochs := epochs a;
  minimize_score := minimize_score a;
  batch_size := batch_size a;
  log_frequency := log_frequency a;
  class_balance := class_balance a;
  num_tasks := num_tasks a;
  last_hidden_size := last_hidden_size a;
  checkpoint_paths := checkpoint_paths a;
|}.

Definition with_paths (v t : option string) (a : Args) : Args := {|
  data_path := data_path a;
  separate_val_path := v;
  separate_test_path := t;
  split_type := split_type a;
  split_sizes := split_sizes a;
  seed := seed a;
  dataset_type := dataset_type a;
  confidence := confidence a;
  ensemble_size := ensemble_size a;
  epochs := epochs a;
  minimize_score := minimize_score a;
  batch_size := batch_size a;
  log_frequency := log_frequency a;
  class_balance := class_balance a;
  num_tasks := num_tasks a;
  last_hidden_size := last_hidden_size a;
  checkpoint_paths := checkpoint_paths a;
|}.

Definition with_batches (b lf : Z) (a : Args) : Args := {|
  data_path := data_path a;
  separate_val_path := separate_val_path a;
  separate_test_path := separate_test_path a;
  split_type := split_type a;
  split_sizes := split_sizes a;
  seed := seed a;
  dataset_type := dataset_type a;
  confidence := confidence a;
  ensemble_size := ensemble_size a;
  epochs := epochs a;
  minimize_score := minimize_score a;
  batch_size := b;
  log_frequency := lf;
  class_balance := class_balance a;
  num_tasks := num_tasks a;
  last_hidden_size := last_hidden_size a;
  checkpoint_paths := checkpoint_paths a;
|}.

(** ** Predicates used in the statements *)

(** A fingerprint made of 0s and 1s. *)
Definition is_bitvector (fp : list Z) : Prop :=
  Forall (fun b => b = 0 \/ b = 1) fp.
(** The union of two fingerprints has a set bit. *)
Definition union_nonempty (fp sfp : list Z) : Prop :=
  Exists (fun b => b = 1) fp \/ Exists (fun b => b = 1) sfp.
(** Two fingerprints the Tanimoto similarity is defined on. *)
Definition bit_pair (fp sfp : list Z) : Prop :=
  is_bitvector fp /\ is_bitvector sfp /\ length fp = length sfp
  /\ union_nonempty fp sfp.

(** Fractions a split can honour: non-negative, train and val within 1. *)
Definition valid_fractions (sizes : Q * Q * Q) : Prop :=
  (0 <= fst (fst sizes) /\ 0 <= snd (fst sizes)
   /\ fst (fst sizes) + snd (fst sizes) <= 1)%Q.

(** What run_training.py relies on from [split_data], whatever the kind of
    split: the three portions partition the data. *)
Definition splits_partition (E : Env) : Prop :=
  forall h data ty sizes sd,
    valid_fractions sizes ->
    let parts := split_data E h data ty sizes sd in
    Permutation data (fst (fst parts) ++ snd (fst parts) ++ snd parts).

(** The sizes of a random split: the data are cut at floor(f_train * n)
    and floor((f_train + f_val) * n). *)
Definition honours_fractions (E : Env) : Prop :=
  forall h data sizes sd,
    valid_fractions sizes ->
    let n := inject_Z (len data) in
    let parts := split_data E h data "random" sizes sd in
    len (fst (fst parts)) = Qfloor (fst (fst sizes) * n)
    /\ len (fst (fst parts)) + len (snd (fst parts))
       = Qfloor ((fst (fst sizes) + snd (fst sizes)) * n).

(** What the ensemble loop relies on from [predict]: one row per molecule,
    one column per task. *)
Definition predict_shape (E : Env) (n_tasks : nat) : Prop :=
  forall m s ds,
    length (predict E m s ds) = length ds
    /\ Forall (fun row => length row = n_tasks) (predict E m s ds).

(** [a] is a strictly better score than [b]. *)
Definition better (minimize : bool) (a b : fl) : bool :=
  if minimize then fl_ltb a b else fl_ltb b a.

(** The model an epoch leaves and its average validation score, for the
    epochs a member runs from the state [st0]. *)
Definition epoch_record (E : Env) (args : Args) (h : list Datapoint)
    (val_data : list nat) (scaler : option StandardScaler) (model_idx : nat)
    (st0 : epoch_state E) (epoch : nat) : option (Model E * fl) :=
  match epoch_loop E args h val_data scaler model_idx (seq 0 (S epoch)) st0 with
  | Return st =>
      Some (es_model E st,
            avg_val_score E (es_model E st) scaler (deref h val_data))
  | Raise _ => None
  end.

(** What early stopping keeps after [k] epochs: the untrained model [m0]
    when no epoch beat the initial infinite score; otherwise the model of
    epoch [best_epoch], whose score [best] no epoch beats and which beats
    every earlier score that is a number. *)
Definition selects_best {Mdl : Type} (minimize : bool) (k : nat)
    (record : nat -> option (Mdl * fl)) (m0 ck : Mdl) (best : fl)
    (best_epoch : nat) : Prop :=
  let sentinel := if minimize then PInf else NInf in
  (ck = m0 /\ best = sentinel /\ best_epoch = 0%nat
   /\ forall e m s, (e < k)%nat -> record e = Some (m, s) ->
        better minimize s sentinel = false)
  \/ ((best_epoch < k)%nat
      /\ record best_epoch = Some (ck, best)
      /\ better minimize best sentinel = true
      /\ (forall e m s, (e < k)%nat -> record e = Some (m, s) ->
            better minimize s best = false)
      /\ (forall e m s, (e < best_epoch)%nat -> record e = Some (m, s) ->
            s <> NaN -> better minimize best s = true)).

(** The hidden-state accumulators exist whenever the gaussian method is on. *)
Definition accumulators_bound (E : Env) (args : Args) (st : run_state E)
    : Prop :=
  conf_is args "gaussian" = true ->
  is_Some (rs_sum_last_hidden E st) /\ is_Some (rs_sum_last_hidden_test E st).

(** The effect of a member on the state of the run, in terms of the
    checkpoint [ck] it reloads. *)
Definition member_effect (E : Env) (args : Args) (h : list Datapoint)
    (test_data : list nat) (scaler : option StandardScaler)
    (model_idx : nat) (ck : Model E) (ep : epoch_state E)
    (st st' : run_state E) : Prop :=
  let P := predict E ck scaler (deref h test_data) in
  let nonempty := negb (length P =? 0)%nat in
  rs_loaded E st' = rs_loaded E st ++ [ck]
  /\ rs_members E st' = rs_members E st ++ [ep]
  /\ rs_sum_test_preds E st'
     = (if nonempty then mat_add (rs_sum_test_preds E st) P
        else rs_sum_test_preds E st)
  /\ rs_all_test_preds E st'
     = (if nonempty then <[model_idx := P]> (rs_all_test_preds E st)
        else rs_all_test_preds E st)
  /\ rs_store E st' = es_store E ep
  /\ rs_train_data E st' = es_train_data E ep
  /\ rs_rng E st' = es_rng E ep
  /\ (conf_is args "gaussian" = false ->
        rs_sum_last_hidden E st' = rs_sum_last_hidden E st
        /\ rs_sum_last_hidden_test E st' = rs_sum_last_hidden_test E st)
  /\ (conf_is args "gaussian" = true ->
        is_Some (rs_sum_last_hidden E st')
        /\ is_Some (rs_sum_last_hidden_test E st')).

(** The test predictions of the members evaluated so far. *)
Definition member_preds (E : Env) (h : list Datapoint) (test_data : list nat)
    (scaler : option StandardScaler) (st : run_state E)
    : list (list (list Q)) :=
  map (fun ck => predict E ck scaler (deref h test_data)) (rs_loaded E st).

(** The state of the run once [k] members are done: the slices of
    [all_test_preds] filled so far are the members' predictions, the
    running sum is their sum, and the hidden-state accumulators exist
    exactly when the gaussian method is on. *)
Definition ensemble_inv (E : Env) (args : Args) (h : list Datapoint)
    (test_data : list nat) (scaler : option StandardScaler) (k : nat)
    (st : run_state E) : Prop :=
  let blank := zeros (length test_data) (num_tasks args) in
  length (rs_loaded E st) = k
  /\ rs_all_test_preds E st
     = member_preds E h test_data scaler st
       ++ replicate (ensemble_size args - k) blank
  /\ rs_sum_test_preds E st
     = fold_left mat_add (member_preds E h test_data scaler st) blank
  /\ (conf_is args "gaussian" = false ->
        rs_sum_last_hidden E st = None
        /\ rs_sum_last_hidden_test E st = None)
  /\ accumulators_bound E args st.

(** A configuration under which every epoch loop completes: no epoch at
    all, or whole batches without class balancing and a logging period. *)
Definition epochs_configured (args : Args) : Prop :=
  epochs args = 0%nat
  \/ (class_balance args = false /\ 1 <= batch_size args
      /\ log_frequency args <> 0).

(** An array of [r] rows and [c] columns. *)
Definition has_shape (r c : nat) (a : list (list Q)) : Prop :=
  length a = r /\ Forall (fun row => length row = c) a.

(** ** pred_r2.py: cal_rank *)

(** [x - y] on one-dimensional arrays, with the broadcasting of [np_mul]. *)
Definition np_sub (x y : list Q) : outcome (list Q) :=
  if (length x =? length y)%nat then Return (zip_with Qminus x y)
  else match x, y with
       | [a], _ => Return (map (fun b => a - b)%Q y)
       | _, [b] => Return (map (fun a => a - b)%Q x)
       | _, _ => Raise ValueError
       end.

(** [1 - 6*d2/f]: [6*d2] is a numpy float and [f] a Python integer, so a
    zero [f] gives an infinity or NaN (and a warning), not an exception.
    The entries are finite numbers, read as exact rationals; an infinity or
    NaN among them, the rounding of floats and the wrap-around of 64-bit
    integers are outside this reading. *)
Definition cal_rank (x y : list Q) : outcome fl :=
  let n := len x in
  let f := n * (n ^ 2 - 1) in
  d ← np_sub x y;
  let d2 := Qsum (map (fun v => v * v)%Q d) in
  Return (if f =? 0 then
            if Qeq_bool (6 * d2) 0 then NaN
            else if Qltb 0 (6 * d2) then NInf else PInf
          else Fin (1 - 6 * d2 / inject_Z f)).

(** ** Further sample configurations *)

Definition with_class_balance (cb : bool) (a : Args) : Args := {|
  data_path := data_path a;
  separate_val_path := separate_val_path a;
  separate_test_path := separate_test_path a;
  split_type := split_type a;
  split_sizes := split_sizes a;
  seed := seed a;
  dataset_type := dataset_type a;
  confidence := confidence a;
  ensemble_size := ensemble_size a;
  epochs := epochs a;
  minimize_score := minimize_score a;
  batch_size := batch_size a;
  log_frequency := log_frequency a;
  class_balance := cb;
  num_tasks := num_tasks a;
  last_hidden_size := last_hidden_size a;
  checkpoint_paths := checkpoint_paths a;
|}.

(** Datapoints named by a number, the odd ones positive. *)
Definition parity_targets (k : nat) : list (option Q) :=
  [Some (inject_Z (Z.of_nat k mod 2))].

(** What run_training.py relies on from [data.shuffle()]: the dataset keeps
    its datapoints, in some order. *)
Definition shuffle_permutes (E : Env) : Prop :=
  forall rng l, Permutation l (snd (data_shuffle E rng l)).

(** The sample collaborators with a validation score that is never a
    number (an empty validation set, say). *)
Definition nan_score_env : Env := {|
  Model := Model sample_env;
  Optim := Optim sample_env;
  Rng := Rng sample_env;
  read_csv := read_csv sample_env;
  split_data := split_data sample_env;
  fit := fit sample_env;
  build_model := build_model sample_env;
  load_pretrained := load_pretrained sample_env;
  build_optimizer := build_optimizer sample_env;
  data_shuffle := data_shuffle sample_env;
  sgd_step := sgd_step sample_env;
  exponential_lr_step := exponential_lr_step sample_env;
  avg_val_score := fun _ _ _ => NaN;
  predict := predict sample_env;
  predict_last_hidden := predict_last_hidden sample_env;
  evaluate_predictions := evaluate_predictions sample_env;
  gaussian_confidence := gaussian_confidence sample_env;
  canonical_smiles := canonical_smiles sample_env;
  morgan_fingerprint := morgan_fingerprint sample_env;
|}.

Definition with_ensemble (n : nat) (paths : option (list string))
    (a : Args) : Args := {|
  data_path := data_path a;
  separate_val_path := separate_val_path a;
  separate_test_path := separate_test_path a;
  split_type := split_type a;
  split_sizes := split_sizes a;
  seed := seed a;
  dataset_type := dataset_type a;
  confidence := confidence a;
  ensemble_size := n;
  epochs := epochs a;
  minimize_score := minimize_score a;
  batch_size := batch_size a;
  log_frequency := log_frequency a;
  class_balance := class_balance a;
  num_tasks := num_tasks a;
  last_hidden_size := last_hidden_size a;
  checkpoint_paths := paths;
|}.

(** ** run_training.py: confidence_visualizations (lines 438-571) *)

(** [sorted(l, key=key)] for keys that are finite numbers: the stable sort
    in ascending order. *)
Fixpoint insert_by_key {A} (key : A -> Q) (a : A) (l : list A) : list A :=
  match l with
  | [] => [a]
  | b :: l' =>
      if Qle_bool (key a) (key b) then a :: b :: l'
      else b :: insert_by_key key a l'
  end.

Definition sorted_by_key {A} (key : A -> Q) (l : list A) : list A :=
  foldr (insert_by_key key) [] l.

(** [int(v)]: truncation towards zero. *)
Definition py_int (v : Q) : Z := Z.quot (Qnum v) (Z.pos (Qden v)).

(** The position [l[k]] names in a list of [n] elements: a negative index
    counts from the end, any other one outside is an [IndexError]. *)
Definition py_index (n k : Z) : outcome nat :=
  if (0 <=? k) && (k <? n) then Return (Z.to_nat k)
  else if (- n <=? k) && (k <? 0) then Return (Z.to_nat (k + n))
  else Raise IndexError.

Section Visualizations.
(** [Y]: an error, a number or a row of numbers. *)
Context {Y : Type}.

(** Line 439. *)
Definition pairs_by_confidence (x : list Q) (y : list Y) : list (Q * Y) :=
  sorted_by_key fst (zip x y).

(** The loop of lines 514-518 (and 555-559). *)
Fixpoint bin_errors (pairs : list (Q * Y)) (bins : list (list Y))
    : outcome (list (list Y)) :=
  match pairs with
  | [] => Return bins
  | p :: rest =>
      if Qeq_bool (fst p) 10 then bin_errors rest bins
      else
        match py_index (len bins) (py_int (fst p)) with
        | Return k => bin_errors rest (alter (fun b => b ++ [snd p]) k bins)
        | Raise e => Raise e
        end
  end.

(** [errors_by_confidence] of the joined histogram and the joined boxplot. *)
Definition errors_by_confidence (x : list Q) (y : list Y)
    : outcome (list (list Y)) :=
  bin_errors (pairs_by_confidence x y) (replicate 10 []).
End Visualizations.

(** The points the joined plots cannot place: [int(x)] is no index of the
    ten bins. *)
Definition unplaceable (v : Q) : Prop := (10 < v \/ v <= - (11))%Q.

(** Whether [v] lies in the interval the bin [k] is labelled with. *)
Definition in_bin (k : nat) (v : Q) : bool :=
  Qle_bool (inject_Z (Z.of_nat k)) v && Qltb v (inject_Z (Z.of_nat k + 1)).

(** * Properties *)

(** ** Python integer helpers *)

Lemma range_len_whole (q b : Z) :
  0 < b -> 0 <= q -> range_len 0 (q * b) b = q.
Proof.
  intros Hb Hq. unfold range_len.
  destruct (Z.ltb_spec 0 b) as [_|]; [|lia].
  destruct (Z.ltb_spec 0 (q * b)) as [Hpos|Hz].
  - assert (Hd : (q * b - 0 - 1) / b = q - 1).
    { symmetry. apply (Z.div_unique _ _ _ (b - 1)); [left; lia | ring]. }
    rewrite Hd. lia.
  - assert (q = 0) by nia. lia.
Qed.

Lemma py_range_whole (q b : Z) :
  0 < b -> 0 <= q ->
  py_range 0 (q * b) b =
  Return (map (fun k => 0 + Z.of_nat k * b) (seq 0 (Z.to_nat q))).
Proof.
  intros Hb Hq. unfold py_range.
  destruct (Z.eqb_spec b 0) as [|_]; [lia|].
  by rewrite range_len_whole.
Qed.

(** Inside the list a slice is a [take] of a [drop]. *)
Lemma py_slice_inside {A} (l : list A) (i j : Z) :
  0 <= i -> i <= j -> j <= len l ->
  py_slice l i j = take (Z.to_nat (j - i)) (drop (Z.to_nat i) l).
Proof.
  intros Hi Hij Hj. unfold py_slice, clamp_index.
  destruct (Z.ltb_spec i 0) as [|_]; [lia|].
  destruct (Z.ltb_spec j 0) as [|_]; [lia|].
  by rewrite !Z.min_l by lia.
Qed.

Lemma py_slice_length {A} (l : list A) (i b : Z) :
  0 <= i -> 0 <= b -> i + b <= len l -> len (py_slice l i (i + b)) = b.
Proof.
  intros Hi Hb Hle. rewrite py_slice_inside by lia. unfold len in *.
  rewrite length_take, length_drop. lia.
Qed.

(** Consecutive slices of width [b] tile the front of the list. *)
Lemma concat_slices {A} (l : list A) (b : Z) (m : nat) :
  0 <= b -> Z.of_nat m * b <= len l ->
  concat (map (fun k : nat => py_slice l (0 + Z.of_nat k * b)
                                 (0 + Z.of_nat k * b + b)) (seq 0 m))
  = take (Z.to_nat (Z.of_nat m * b)) l.
Proof.
  intros Hb. induction m as [|m IH]; intros Hle.
  - done.
  - rewrite seq_S, map_app, concat_app, IH by lia. simpl.
    rewrite app_nil_r, py_slice_inside by lia.
    replace (0 + Z.of_nat m * b + b - (0 + Z.of_nat m * b)) with b by lia.
    replace (0 + Z.of_nat m * b) with (Z.of_nat m * b) by lia.
    rewrite take_take_drop. f_equal. lia.
Qed.

(** ** train.py *)

Section TrainFacts.
Context {D M Rng : Type}.
Variable shuffle : Rng -> list D -> Rng * list D.
Variable step : M -> list D -> M.
Variable d_targets : D -> list (option Q).

(** With whole batches ahead and a usable logging period, every iteration
    of the loop trains on one full batch and none breaks out. *)
Lemma train_loop_whole (args : Args) (data : list D) :
  0 < batch_size args -> log_frequency args <> 0 ->
  forall (m k0 : nat) (st : train_state),
    Z.of_nat (k0 + m) * batch_size args <= len data ->
    let bs := map (fun k : nat =>
                     py_slice data (0 + Z.of_nat k * batch_size args)
                           (0 + Z.of_nat k * batch_size args + batch_size args))
                  (seq k0 m) in
    exists lg,
      train_loop step args data
        (map (fun k => 0 + Z.of_nat k * batch_size args) (seq k0 m)) st
      = Return {| ts_model := fold_left step bs (ts_model st);
                  ts_n_iter := ts_n_iter st + Z.of_nat m * batch_size args;
                  ts_batches := ts_batches st ++ bs;
                  ts_logged := lg |}.
Proof.
  intros Hb Hlf. induction m as [|m IH]; intros k0 st Hle bs.
  - exists (ts_logged st). destruct st; simpl. subst bs. simpl.
    rewrite app_nil_r. do 2 f_equal. lia.
  - subst bs. cbn [seq map train_loop].
    set (i := 0 + Z.of_nat k0 * batch_size args).
    destruct (Z.ltb_spec (len data) (i + batch_size args)) as [Hlt|_];
      [subst i; nia|].
    assert (Hlen : len (py_slice data i (i + batch_size args))
                   = batch_size args).
    { apply py_slice_length; subst i; nia. }
    unfold py_floordiv, py_mod.
    destruct (Z.eqb_spec (batch_size args) 0) as [|_]; [lia|].
    destruct (Z.eqb_spec (log_frequency args) 0) as [|_]; [done|].
    cbn [mbind outcome_bind].
    match goal with
    | |- context [train_loop _ _ _ _ ?s] => destruct (IH (S k0) s) as [lg Hlg]
    end; [lia|].
    exists lg. rewrite Hlg. cbn [ts_model ts_n_iter ts_batches fold_left].
    rewrite Hlen, <- app_assoc. do 2 f_equal. lia.
Qed.

(** The sizes of a floor division: what is trained on and what is left. *)
Lemma whole_batches_arith (n b : Z) :
  0 < b -> 0 <= n ->
  0 <= n / b /\ n / b * b <= n /\ n - n / b * b = n mod b.
Proof.
  intros Hb Hn. pose proof (Z.div_mod n b ltac:(lia)).
  pose proof (Z.mod_pos_bound n b Hb).
  pose proof (Z.div_pos n b Hn Hb). lia.
Qed.

(** With class balancing disabled, a positive batch size and a nonzero
    logging period, [train] returns, having trained on the whole batches at
    the front of the shuffled data. *)
Lemma train_returns (args : Args) (model : M) (data : list D)
    (rng : Rng) (n_iter : Z) :
  class_balance args = false ->
  1 <= batch_size args ->
  log_frequency args <> 0 ->
  let b := batch_size args in
  let shuffled := snd (shuffle rng data) in
  exists r,
    train shuffle step d_targets model data rng args n_iter = Return r
    /\ tr_data r = shuffled
    /\ tr_rng r = fst (shuffle rng data)
    /\ concat (tr_batches r) = take (Z.to_nat (len shuffled / b * b)) shuffled
    /\ Forall (fun batch => len batch = b) (tr_batches r)
    /\ len (tr_batches r) = len shuffled / b
    /\ tr_model r = fold_left step (tr_batches r) model
    /\ tr_n_iter r = n_iter + len shuffled / b * b.
Proof.
  intros Hcb Hb Hlf b shuffled. unfold train. subst shuffled.
  destruct (shuffle rng data) as [rng' shuffled] eqn:Hsh. cbn [fst snd].
  rewrite Hcb. cbn [mbind outcome_bind]. unfold py_floordiv.
  destruct (Z.eqb_spec (batch_size args) 0) as [|_]; [lia|].
  cbn [mbind outcome_bind].
  destruct (whole_batches_arith (len shuffled) b) as (Hq & Hle & Hmod);
    [lia | unfold len; lia |].
  rewrite py_range_whole by (fold b; lia).
  cbn [mbind outcome_bind].
  destruct (train_loop_whole args shuffled ltac:(lia) Hlf
              (Z.to_nat (len shuffled / b)) 0%nat
              {| ts_model := model; ts_n_iter := n_iter;
                 ts_batches := []; ts_logged := [] |}) as [lg Hlg].
  { fold b. lia. }
  fold b in Hlg |- *. rewrite Hlg. cbn [mbind outcome_bind].
  eexists. split; [reflexivity|].
  cbn [tr_data tr_rng tr_batches tr_model tr_n_iter ts_model ts_n_iter
       ts_batches app].
  repeat split.
  - rewrite concat_slices by lia. f_equal. lia.
  - apply Forall_forall. intros batch Hin.
    apply list_elem_of_In, in_map_iff in Hin as (k & <- & Hk).
    apply in_seq in Hk. apply py_slice_length; nia.
  - unfold len at 1. rewrite length_map, length_seq. lia.
  - f_equal. lia.
Qed.

(** C7 (amended): with class balancing disabled, a batch size [b >= 1] and a
    nonzero [args.log_frequency], [train] returns; it trains on whole batches
    only, namely on the first [(len(data) // b) * b] examples of the shuffled
    data, [len(data) // b] batches of [b] examples each, skips the trailing
    [len(data) mod b] examples, and returns [n_iter] increased by exactly
    [(len(data) // b) * b]. *)
Theorem train_whole_batches (args : Args) (model : M) (data : list D)
    (rng : Rng) (n_iter : Z) :
  class_balance args = false ->
  1 <= batch_size args ->
  log_frequency args <> 0 ->
  Permutation data (snd (shuffle rng data)) ->
  let b := batch_size args in
  exists r,
    train shuffle step d_targets model data rng args n_iter = Return r
    /\ tr_data r = snd (shuffle rng data)
    /\ concat (tr_batches r) = take (Z.to_nat (len data / b * b)) (tr_data r)
    /\ Forall (fun batch => len batch = b) (tr_batches r)
    /\ len (tr_batches r) = len data / b
    /\ len (tr_data r) - len (concat (tr_batches r)) = len data mod b
    /\ tr_model r = fold_left step (tr_batches r) model
    /\ tr_n_iter r = n_iter + len data / b * b.
Proof.
  intros Hcb Hb Hlf Hperm b.
  destruct (train_returns args model data rng n_iter Hcb Hb Hlf)
    as (r & Hr & Hdata & _ & Hcat & Hall & Hcount & Hmodel & Hiter).
  assert (Hlen : len (snd (shuffle rng data)) = len data).
  { unfold len. by rewrite (Permutation_length Hperm). }
  rewrite Hlen in Hcat, Hcount, Hiter. fold b in Hcat, Hall, Hcount, Hiter.
  destruct (whole_batches_arith (len data) b) as (Hq & Hle & Hmod);
    [lia | unfold len; lia |].
  exists r. rewrite Hdata. repeat split; try done.
  rewrite Hcat. unfold len at 2. rewrite length_take.
  unfold len in *. lia.
Qed.
End TrainFacts.

(** A run of [train] on five examples in batches of two. *)
Lemma train_whole_batches_witness :
  let shuffle := fun (r : unit) (l : list nat) => (r, rev l) in
  let step := fun (m : nat) (batch : list nat) => (m + length batch)%nat in
  let no_targets := fun _ : nat => @nil (option Q) in
  class_balance sample_args = false
  /\ 1 <= batch_size sample_args
  /\ log_frequency sample_args <> 0
  /\ Permutation [1; 2; 3; 4; 5]%nat (snd (shuffle () [1; 2; 3; 4; 5]%nat))
  /\ exists r,
       train shuffle step no_targets 0%nat [1; 2; 3; 4; 5]%nat () sample_args 10
       = Return r
       /\ tr_data r = snd (shuffle () [1; 2; 3; 4; 5]%nat)
       /\ concat (tr_batches r) = take (Z.to_nat (5 / 2 * 2)) (tr_data r)
       /\ Forall (fun batch => len batch = 2) (tr_batches r)
       /\ len (tr_batches r) = 5 / 2
       /\ len (tr_data r) - len (concat (tr_batches r)) = 5 mod 2
       /\ tr_model r = fold_left step (tr_batches r) 0%nat
       /\ tr_n_iter r = 10 + 5 / 2 * 2.
Proof.
  intros shuffle step no_targets.
  assert (Hperm : Permutation [1; 2; 3; 4; 5]%nat
                    (snd (shuffle () [1; 2; 3; 4; 5]%nat))).
  { apply Permutation_rev. }
  split; [reflexivity|]. split; [vm_compute; discriminate|].
  split; [vm_compute; discriminate|]. split; [exact Hperm|].
  apply (train_whole_batches shuffle step no_targets sample_args 0%nat
           [1; 2; 3; 4; 5]%nat () 10).
  - reflexivity.
  - vm_compute; discriminate.
  - vm_compute; discriminate.
  - exact Hperm.
Defined.

(** C7 as stated fails when [args.log_frequency] is 0: the first batch is
    trained on, then line 131 raises and nothing is returned. *)
Lemma train_log_frequency_zero :
  let args := with_batches 1 0 sample_args in
  let shuffle := fun (r : unit) (l : list nat) => (r, l) in
  let step := fun (m : nat) (_ : list nat) => S m in
  let no_targets := fun _ : nat => @nil (option Q) in
  class_balance args = false
  /\ 1 <= batch_size args
  /\ train shuffle step no_targets 0%nat [7%nat] () args 0
     = Raise ZeroDivisionError
  /\ ~ exists r,
        train shuffle step no_targets 0%nat [7%nat] () args 0 = Return r
        /\ tr_n_iter r = 0 + len [7%nat] / 1 * 1.
Proof.
  intros args shuffle step no_targets.
  split; [reflexivity|]. split; [vm_compute; discriminate|].
  split; [reflexivity|]. intros (r & Hr & _). discriminate Hr.
Qed.

(** ** pred_r2.py: the sum formula of cal_pccs *)

(** C9 (the code, where the claim fails): in binary64 the sum formula of
    [cal_pccs] is not the textbook coefficient.  Both inputs are of one
    length [n >= 2] and vary.  For the vector [134217729, 134217730] against
    itself the squares are rounded before the subtraction of line 34 cancels
    their leading digits, and [cal_pccs] returns [-1], where the
    mean-centred formula gives the correlation [1] of a vector with itself;
    for [100000001, 100000002, 100000004] against [3, 1, 2] it returns
    [-0.306] where the mean-centred formula gives [-0.327]. *)
Theorem cal_pccs_cancellation (np_sum : list float -> float) :
  adds_in_order np_sum ->
  let x := [134217729; 134217730]%float in
  let u := [100000001; 100000002; 100000004]%float in
  let v := [3; 1; 2]%float in
  (cal_pccs np_sum x x = Return (-1)%float
   /\ pearson_textbook np_sum x x = 1%float)
  /\ (cal_pccs np_sum u v = Return (-0x1.3988e1409212fp-2)%float
      /\ pearson_textbook np_sum u v = (-0x1.4f2ec413cb52bp-2)%float).
Proof.
  intros Hsum x u v. subst x u v.
  repeat split; vm_compute;
    repeat (rewrite Hsum by (vm_compute; lia); vm_compute); reflexivity.
Qed.

Lemma cal_pccs_cancellation_witness :
  adds_in_order sum_in_order
  /\ cal_pccs sum_in_order [134217729; 134217730]%float
       [134217729; 134217730]%float = Return (-1)%float
  /\ pearson_textbook sum_in_order [134217729; 134217730]%float
       [134217729; 134217730]%float = 1%float.
Proof.
  assert (Hsum : adds_in_order sum_in_order) by (intros l _; reflexivity).
  split; [exact Hsum|].
  destruct (cal_pccs_cancellation sum_in_order Hsum) as ((H1 & H2) & _).
  split; [exact H1 | exact H2].
Defined.

(** ** The exception monad *)

Lemma mapM_Return {A B} (f : A -> outcome B) (l : list A) :
  forall k, mapM f l = Return k -> Forall2 (fun a b => f a = Return b) l k.
Proof.
  induction l as [|a l IH]; intros k Hk.
  - injection Hk as <-. constructor.
  - cbn [mapM] in Hk. destruct (f a) as [b|e] eqn:Hfa; [|discriminate Hk].
    cbn [mbind outcome_bind] in Hk.
    destruct (mapM f l) as [k'|e]; [|discriminate Hk].
    injection Hk as <-. constructor; [exact Hfa | by apply IH].
Qed.

(** ** The Tanimoto similarity of bit vectors *)

Lemma dot_bits_bounds (fp : list Z) :
  forall sfp, is_bitvector fp -> is_bitvector sfp ->
  0 <= Zsum (zip_with Z.mul fp sfp)
  /\ Zsum (zip_with Z.mul fp sfp) <= Zsum fp
  /\ Zsum (zip_with Z.mul fp sfp) <= Zsum sfp
  /\ 0 <= Zsum fp /\ 0 <= Zsum sfp.
Proof.
  unfold is_bitvector.
  induction fp as [|a fp IH]; intros sfp Hfp Hsfp.
  - simpl. induction Hsfp as [|b sfp Hb _ IHs]; simpl; lia.
  - inversion_clear Hfp as [|? ? Ha Hfp'].
    destruct (IH [] Hfp' ltac:(constructor)) as (_ & _ & _ & Hfp0 & _).
    destruct sfp as [|b sfp]; [simpl; lia|].
    inversion_clear Hsfp as [|? ? Hb Hsfp'].
    destruct (IH sfp Hfp' Hsfp') as (? & ? & ? & ? & ?). simpl. nia.
Qed.

Lemma bits_set_sum (fp : list Z) :
  is_bitvector fp -> Exists (fun b => b = 1) fp -> 1 <= Zsum fp.
Proof.
  intros Hfp Hex.
  induction Hfp as [|a fp Ha Hfp IH]; [by inversion Hex|].
  pose proof (dot_bits_bounds fp [] Hfp ltac:(constructor)) as (_&_&_&?&_).
  simpl. inversion_clear Hex as [? ? ->|? ? Hex']; [lia|].
  specialize (IH Hex'). lia.
Qed.

Lemma Qdiv_unit_interval (a b : Z) :
  0 <= a <= b -> 0 < b ->
  (0 <= inject_Z a / inject_Z b /\ inject_Z a / inject_Z b <= 1)%Q.
Proof.
  intros Hab Hb.
  assert (Hb' : (0 < inject_Z b)%Q) by (rewrite (Zlt_Qlt 0 b) in Hb; exact Hb).
  split.
  - apply Qle_shift_div_l; [exact Hb'|]. rewrite Qmult_0_l.
    change (inject_Z 0 <= inject_Z a)%Q. rewrite <- Zle_Qle. lia.
  - apply Qle_shift_div_r; [exact Hb'|]. rewrite Qmult_1_l.
    rewrite <- Zle_Qle. lia.
Qed.

(** The similarity of two bit vectors with a set bit is a finite value in
    the unit interval. *)
Lemma tanimoto_unit_interval (fp sfp : list Z) :
  bit_pair fp sfp ->
  exists q, tanimoto fp sfp = Return (Fin q) /\ (0 <= q /\ q <= 1)%Q.
Proof.
  intros (Hfp & Hsfp & Hlen & Hun).
  unfold tanimoto, dot. apply Nat.eqb_eq in Hlen. rewrite Hlen.
  cbn [mbind outcome_bind].
  destruct (dot_bits_bounds fp sfp Hfp Hsfp) as (Hd0 & Hdf & Hds & Hf & Hs).
  set (d := Zsum (zip_with Z.mul fp sfp)) in *.
  assert (Hden : 1 <= Zsum fp + Zsum sfp - d).
  { destruct Hun as [H|H]; apply bits_set_sum in H; try done; lia. }
  unfold fl_div. destruct (Z.eqb_spec (Zsum fp + Zsum sfp - d) 0); [lia|].
  eexists. split; [reflexivity|]. apply Qdiv_unit_interval; lia.
Qed.

Lemma max_by_key_elem {A} (l : list (fl * A)) (p : fl * A) :
  max_by_key l = Return p -> p ∈ l.
Proof.
  destruct l as [|p0 rest]; [discriminate|]. cbn [max_by_key].
  intros [= <-]. revert p0.
  induction rest as [|q rest IH]; intros p0; simpl.
  - left.
  - destruct (fl_ltb (fst p0) (fst q)).
    + right. apply IH.
    + specialize (IH p0). apply elem_of_cons in IH as [->|IH].
      * left.
      * right. by right.
Qed.

Lemma Forall2_elem_r {A B} (R : A -> B -> Prop) (l : list A) (k : list B) :
  Forall2 R l k -> forall b, b ∈ k -> exists a, a ∈ l /\ R a b.
Proof.
  induction 1 as [|a b l k Hab _ IH]; intros b' Hb'; [by inversion Hb'|].
  apply elem_of_cons in Hb' as [->|Hb'].
  - exists a. split; [left | done].
  - destruct (IH b' Hb') as (a' & Ha' & HR). exists a'. split; [by right | done].
Qed.

Lemma elem_of_zip_snd {A B} (l : list A) :
  forall (k : list B) (p : A * B), p ∈ zip l k -> snd p ∈ k.
Proof.
  induction l as [|a l IH]; intros [|b k] p Hp; try by inversion Hp.
  cbn [zip_with] in Hp. apply elem_of_cons in Hp as [->|Hp].
  - left.
  - right. by apply IH.
Qed.

Section Tanimoto.
Context (E : Env).

(** A point of the plot: the similarity kept by [max] is the similarity to
    one of the training molecules. *)
Lemma tanimoto_point_similarity avg_test_preds test_targets
    (train_smiles_sfp : list (list Z)) (i : nat) (t : string)
    (pt : fl * list Q) :
  tanimoto_point E avg_test_preds test_targets train_smiles_sfp i t = Return pt ->
  exists sfp, sfp ∈ train_smiles_sfp
    /\ tanimoto (morgan_fingerprint E (canonical_smiles E t)) sfp
       = Return (fst pt).
Proof.
  unfold tanimoto_point. intros Hpt.
  destruct (mapM _ train_smiles_sfp) as [morgan_sim|e] eqn:Hsim;
    [|discriminate Hpt].
  cbn [mbind outcome_bind] in Hpt.
  apply max_by_key_elem in Hpt.
  apply mapM_Return in Hsim.
  destruct (Forall2_elem_r _ _ _ Hsim pt Hpt) as (sfp & Hin & Hrun).
  exists sfp. split; [exact Hin|].
  destruct (tanimoto _ sfp) as [tsim|e]; [|discriminate Hrun].
  cbn [mbind outcome_bind] in Hrun.
  destruct (abs_error_first _ _ i); [|discriminate Hrun].
  by injection Hrun as <-.
Qed.

(** C8: the Tanimoto similarity of two 0/1 fingerprints of one length whose
    union has a set bit is a finite value in [[0, 1]]; consequently, when
    the fingerprints of the test and training molecules are such pairs,
    every confidence value the 'tanimoto' method puts in [x] (the largest
    similarity to a training molecule, times 10) lies in [[0, 10]]. *)
Theorem tanimoto_confidence_range :
  (forall fp sfp : list Z, bit_pair fp sfp ->
     exists q, tanimoto fp sfp = Return (Fin q) /\ (0 <= q /\ q <= 1)%Q)
  /\ (forall avg_test_preds test_targets (train_smiles test_smiles : list string)
        (x : list fl) (y : list (list Q)),
        (forall t s, t ∈ test_smiles -> s ∈ train_smiles ->
           bit_pair (morgan_fingerprint E (canonical_smiles E t))
                    (morgan_fingerprint E s)) ->
        tanimoto_confidence E avg_test_preds test_targets
          train_smiles test_smiles = Return (TanimotoXY x y) ->
        Forall (fl_between 0 10) x /\ length x = length test_smiles).
Proof.
  split; [exact tanimoto_unit_interval|].
  intros avg tt train_smiles test_smiles x y Hbits Hrun.
  unfold tanimoto_confidence in Hrun.
  destruct (mapM _ (zip _ test_smiles)) as [pts|e] eqn:Hpts;
    [|discriminate Hrun].
  cbn [mbind outcome_bind] in Hrun. injection Hrun as <- <-.
  apply mapM_Return in Hpts. split.
  - apply Forall_forall. intros v Hv.
    apply list_elem_of_In, in_map_iff in Hv as (pt & <- & Hpt).
    apply list_elem_of_In in Hpt.
    destruct (Forall2_elem_r _ _ _ Hpts pt Hpt) as ([i t] & Hit & Hpoint).
    apply elem_of_zip_snd in Hit. cbn [fst snd] in *.
    apply tanimoto_point_similarity in Hpoint as (sfp & Hsfp & Hsim).
    apply list_elem_of_In, in_map_iff in Hsfp as (s & <- & Hs).
    apply list_elem_of_In in Hs.
    destruct (tanimoto_unit_interval _ _ (Hbits t s Hit Hs))
      as (q & Hq & Hq0 & Hq1).
    rewrite Hq in Hsim. injection Hsim as <-. cbn [fl_scale fl_between].
    split; Lqa.lra.
  - rewrite length_map, <- (Forall2_length _ _ _ Hpts), length_zip_with.
    rewrite length_seq. lia.
Qed.
End Tanimoto.

Ltac by_evaluation :=
  unfold bit_pair, is_bitvector, union_nonempty;
  apply (bool_decide_unpack _); vm_compute; exact I.

(** One test molecule against two training molecules. *)
Lemma tanimoto_confidence_range_witness :
  bit_pair [0; 1; 1; 1] [1; 0; 1; 0]
  /\ (exists q, tanimoto [0; 1; 1; 1] [1; 0; 1; 0] = Return (Fin q)
                /\ (0 <= q /\ q <= 1)%Q)
  /\ (forall t s, t ∈ ["CO"%string] -> s ∈ ["C"%string; "CC"%string] ->
        bit_pair (morgan_fingerprint sample_env (canonical_smiles sample_env t))
                 (morgan_fingerprint sample_env s))
  /\ exists x y,
       tanimoto_confidence sample_env [[1%Q]] [[Some 2%Q]]
         ["C"%string; "CC"%string] ["CO"%string] = Return (TanimotoXY x y)
       /\ Forall (fl_between 0 10) x /\ length x = 1%nat.
Proof.
  destruct (tanimoto_confidence_range sample_env) as [Hpair Hx].
  assert (Hbp : bit_pair [0; 1; 1; 1] [1; 0; 1; 0]) by by_evaluation.
  assert (Hall : forall t s, t ∈ ["CO"%string] ->
            s ∈ ["C"%string; "CC"%string] ->
            bit_pair
              (morgan_fingerprint sample_env (canonical_smiles sample_env t))
              (morgan_fingerprint sample_env s)).
  { intros t s Ht Hs. apply list_elem_of_singleton in Ht as ->.
    apply elem_of_cons in Hs as [->|Hs];
      [|apply list_elem_of_singleton in Hs as ->]; by_evaluation. }
  split; [exact Hbp|]. split; [exact (Hpair _ _ Hbp)|].
  split; [exact Hall|].
  eexists _, _. split; [vm_compute; reflexivity|].
  eapply (Hx [[1%Q]] [[Some 2%Q]] ["C"%string; "CC"%string] ["CO"%string]);
    [exact Hall | vm_compute; reflexivity].
Defined.

(** ** Loading and splitting *)

Lemma random_split_honours (data : list nat) (sizes : Q * Q * Q) :
  valid_fractions sizes ->
  let n := inject_Z (len data) in
  let parts := random_split data sizes in
  Permutation data (fst (fst parts) ++ snd (fst parts) ++ snd parts)
  /\ len (fst (fst parts)) = Qfloor (fst (fst sizes) * n)
  /\ len (fst (fst parts)) + len (snd (fst parts))
     = Qfloor ((fst (fst sizes) + snd (fst sizes)) * n).
Proof.
  destruct sizes as [[f1 f2] f3]. intros Hv n parts.
  destruct Hv as (H1 & H2 & H12). cbn [fst snd] in *.
  assert (Hn : (0 <= n)%Q).
  { subst n. change (inject_Z 0 <= inject_Z (len data))%Q.
    rewrite <- Zle_Qle. unfold len. lia. }
  set (a := Qfloor (f1 * n)). set (b := Qfloor ((f1 + f2) * n)).
  assert (Ha0 : 0 <= a).
  { change 0 with (Qfloor 0). apply Qfloor_resp_le. by apply Qmult_le_0_compat. }
  assert (Hab : a <= b).
  { apply Qfloor_resp_le. apply Qmult_le_compat_r; [Lqa.lra | exact Hn]. }
  assert (Hbn : b <= len data).
  { rewrite <- (Qfloor_Z (len data)). apply Qfloor_resp_le. fold n.
    apply Qle_trans with (1 * n)%Q;
      [apply Qmult_le_compat_r; [exact H12 | exact Hn]|].
    rewrite Qmult_1_l. apply Qle_refl. }
  subst parts. unfold random_split. cbn [fst snd]. fold n a b.
  assert (Hrev : len (rev data) = len data).
  { unfold len. by rewrite length_rev. }
  split; [|split].
  - rewrite app_assoc, take_take_drop.
    replace (Z.to_nat a + (Z.to_nat b - Z.to_nat a))%nat with (Z.to_nat b)
      by lia.
    rewrite take_drop. apply Permutation_rev.
  - unfold len in *. rewrite length_take. lia.
  - unfold len in *. rewrite !length_take, length_drop. lia.
Qed.

Lemma sample_env_splits_partition : splits_partition sample_env.
Proof. intros h data ty sizes sd Hv. by apply random_split_honours. Qed.

Lemma sample_env_honours_fractions : honours_fractions sample_env.
Proof. intros h data sizes sd Hv. by apply random_split_honours. Qed.

Lemma fixed_fractions_valid : valid_fractions ((8 # 10)%Q, (2 # 10)%Q, 0%Q).
Proof. unfold valid_fractions. cbn [fst snd]. repeat split; Lqa.lra. Qed.

Section Splitting.
Context (E : Env).
Hypothesis Hpart : splits_partition E.
Hypothesis Hsplit : honours_fractions E.

(** With the fractions (0.8, 0.2, 0.0) the third portion of a random split
    is empty. *)
Lemma fixed_split_third_empty h data sd :
  snd (split_data E h data "random" ((8 # 10)%Q, (2 # 10)%Q, 0%Q) sd) = [].
Proof using Hpart Hsplit.
  pose proof (Hpart h data "random" _ sd fixed_fractions_valid) as Hp.
  destruct (Hsplit h data _ sd fixed_fractions_valid) as (_ & Hlen).
  cbn [fst snd] in Hlen, Hp.
  assert (Hone : Qfloor (((8 # 10) + (2 # 10)) * inject_Z (len data))
                 = len data).
  { rewrite <- (Qfloor_Z (len data)) at 2. apply Qfloor_comp. ring. }
  rewrite Hone in Hlen. apply Permutation_length in Hp.
  rewrite !length_app in Hp. unfold len in Hlen.
  apply length_zero_iff_nil. lia.
Qed.

(** C3 (the code, where the claim fails): when only a validation path is
    given, the test set run_training evaluates on is the portion a random
    split was asked to give the fraction 0.0, so it is empty whatever the
    input dataset holds. *)
Theorem val_only_test_set_empty (args : Args) :
  split_type args = "random"%string ->
  path_of (separate_val_path args) <> None ->
  path_of (separate_test_path args) = None ->
  sp_test (load_and_split E args) = []
  /\ sp_data (load_and_split E args)
     = seq 0 (length (read_csv E (data_path args))).
Proof using Hpart Hsplit.
  intros Hty Hval Htest. unfold load_and_split, get_data.
  rewrite Htest, Hty.
  destruct (path_of (separate_val_path args)) as [pv|]; [|done].
  cbn [app length].
  match goal with
  | |- context [split_data E ?h ?d _ ?f ?s] =>
      pose proof (fixed_split_third_empty h d s) as Hempty;
      destruct (split_data E h d "random" f s) as [[tr va] te]
  end.
  cbn [snd] in Hempty. subst te. cbn [sp_test sp_data]. done.
Qed.
End Splitting.

(** Five molecules, a validation file and no test file. *)
Lemma val_only_test_set_empty_witness :
  let args := with_paths (Some "val.csv"%string) None sample_args in
  splits_partition sample_env
  /\ honours_fractions sample_env
  /\ split_type args = "random"%string
  /\ path_of (separate_val_path args) <> None
  /\ path_of (separate_test_path args) = None
  /\ sp_test (load_and_split sample_env args) = []
  /\ sp_data (load_and_split sample_env args) = seq 0 5.
Proof.
  intros args.
  split; [exact sample_env_splits_partition|].
  split; [exact sample_env_honours_fractions|]. split; [reflexivity|].
  split; [vm_compute; discriminate|]. split; [reflexivity|].
  apply (val_only_test_set_empty sample_env sample_env_splits_partition
           sample_env_honours_fractions args);
    [reflexivity | vm_compute; discriminate | reflexivity].
Defined.

(** ** Target scaling and the datapoints it touches *)

(** A datapoint outside the dataset is left as it was. *)
Lemma set_targets_other (ds : list nat) (r : nat) :
  r ∉ ds -> forall h ts, set_targets h ds ts !!! r = h !!! r.
Proof.
  induction ds as [|r' ds IH]; intros Hr h [|t ts]; cbn [set_targets];
    try done.
  apply not_elem_of_cons in Hr as [Hne Hr].
  rewrite (IH Hr). by apply list_lookup_total_alter_ne.
Qed.

(** [set_targets] never changes a SMILES string. *)
Lemma set_targets_smiles (ds : list nat) (r : nat) :
  forall h ts, smiles (set_targets h ds ts !!! r) = smiles (h !!! r).
Proof.
  induction ds as [|r' ds IH]; intros h [|t ts]; cbn [set_targets]; try done.
  rewrite IH. destruct (decide (r' = r)) as [->|Hne].
  - destruct (decide (r < length h)%nat) as [Hlt|Hge].
    + by rewrite list_lookup_total_alter_eq.
    + rewrite !list_lookup_total_alt. rewrite list_lookup_alter_eq.
      by rewrite (lookup_ge_None_2 h r) by lia.
  - by rewrite list_lookup_total_alter_ne.
Qed.

(** The datapoints of the dataset receive the new rows, in order. *)
Lemma set_targets_in (ds : list nat) :
  forall h ts, NoDup ds -> length ds = length ts ->
  (forall r, r ∈ ds -> (r < length h)%nat) ->
  targets_of (set_targets h ds ts) ds = ts.
Proof.
  unfold targets_of, deref.
  induction ds as [|r ds IH]; intros h [|t ts] Hnd Hlen Hval; try done.
  apply NoDup_cons in Hnd as [Hr Hnd]. injection Hlen as Hlen.
  cbn [set_targets map]. f_equal.
  - rewrite (set_targets_other ds r Hr).
    rewrite list_lookup_total_alter_eq by (apply Hval; left). done.
  - apply IH; [done | done |]. intros r' Hr'. rewrite length_alter.
    apply Hval. by right.
Qed.

Lemma transform_length (sc : StandardScaler) X :
  length (transform sc X) = length X.
Proof. unfold transform. by rewrite length_map. Qed.

Section Scaling.
Context (E : Env).
Hypothesis Hpart : splits_partition E.

(** The portions of a split are duplicate-free pieces of the data. *)
Lemma split_data_disjoint h (n : nat) ty sizes sd :
  valid_fractions sizes ->
  let parts := split_data E h (seq 0 n) ty sizes sd in
  NoDup (fst (fst parts))
  /\ (forall r, r ∈ fst (fst parts) ->
        (r < n)%nat /\ (r ∉ snd (fst parts)) /\ (r ∉ snd parts))
  /\ (forall r, r ∈ (snd (fst parts) ++ snd parts) -> (r < n)%nat).
Proof using Hpart.
  intros Hv parts. pose proof (Hpart h (seq 0 n) ty sizes sd Hv) as Hp.
  fold parts in Hp.
  assert (Hnd : NoDup (fst (fst parts) ++ snd (fst parts) ++ snd parts)).
  { rewrite <- Hp. apply NoDup_seq. }
  apply NoDup_app in Hnd as (Hnd1 & Hdisj & _).
  split; [exact Hnd1|]. split.
  - intros r Hr. split; [|split].
    + assert (Hin : r ∈ seq 0 n).
      { rewrite Hp. apply elem_of_app. by left. }
      apply elem_of_seq in Hin. lia.
    + intros Hva. apply (Hdisj r Hr). apply elem_of_app. by left.
    + intros Hte. apply (Hdisj r Hr). apply elem_of_app. by right.
  - intros r Hr. assert (Hin : r ∈ seq 0 n).
    { rewrite Hp. apply elem_of_app. by right. }
    apply elem_of_seq in Hin. lia.
Qed.

(** The training set is a duplicate-free set of live datapoints, none of
    which belongs to the validation or the test set. *)
Lemma load_and_split_separates (args : Args) :
  valid_fractions (split_sizes args) ->
  let sp := load_and_split E args in
  NoDup (sp_train sp)
  /\ (forall r, r ∈ sp_train sp ->
        (r < length (sp_heap sp))%nat /\ (r ∉ sp_val sp) /\ (r ∉ sp_test sp)).
Proof using Hpart.
  intros Hv. unfold load_and_split, get_data. cbn [app length].
  set (n := length (read_csv E (data_path args))).
  destruct (path_of (separate_test_path args)) as [pt|];
    destruct (path_of (separate_val_path args)) as [pv|];
    lazymatch goal with
    | |- context [split_data E ?h ?d ?t ?f ?s] =>
        let Hf := fresh "Hf" in
        assert (Hf : valid_fractions f) by
          (exact Hv || exact fixed_fractions_valid);
        destruct (split_data_disjoint h n t f s Hf) as (Hnd & Htr & Hrest);
        destruct (split_data E h (seq 0 n) t f s) as [[tr va] te]
    | |- _ => idtac
    end; cbn [fst snd sp_train sp_val sp_test sp_heap length] in *.
  - split; [apply NoDup_seq|]. intros r Hr. apply elem_of_seq in Hr.
    cbn [length] in Hr. rewrite !length_app. fold n. split; [lia|].
    split; intros Hin; apply elem_of_seq in Hin;
      rewrite ?length_app in Hin; fold n in Hin; lia.
  - split; [exact Hnd|]. intros r Hr. destruct (Htr r Hr) as (Hlt & Hva & _).
    rewrite length_app. fold n. split; [lia|]. split; [exact Hva|].
    intros Hin. apply elem_of_seq in Hin. lia.
  - split; [exact Hnd|]. intros r Hr. destruct (Htr r Hr) as (Hlt & _ & Hte).
    rewrite length_app. fold n. split; [lia|]. split; [|exact Hte].
    intros Hin. apply elem_of_seq in Hin. lia.
  - split; [exact Hnd|]. intros r Hr. destruct (Htr r Hr) as (Hlt & Hva & Hte).
    fold n. split; [lia|]. by split.
Qed.
End Scaling.

Section ScalingFrame.
Context (E : Env).
Hypothesis Hpart : splits_partition E.

(** C6: in a regression run the scaler is fitted on the training targets
    alone and exactly the training targets are replaced by their
    standardised values; the datapoints of the validation and test sets are
    left as they were; in any other run there is no scaler and nothing is
    changed. *)
Theorem scaling_changes_training_targets_only (args : Args) :
  valid_fractions (split_sizes args) ->
  let sp := load_and_split E args in
  let h := sp_heap sp in
  let sc := scale_targets E args h (sp_train sp) in
  match dataset_type args with
  | Regression =>
      sc_scaler sc = Some (fit E (targets_of h (sp_train sp)))
      /\ targets_of (sc_heap sc) (sp_train sp)
         = transform (fit E (targets_of h (sp_train sp)))
                     (targets_of h (sp_train sp))
      /\ smiles_of (sc_heap sc) (sp_train sp) = smiles_of h (sp_train sp)
      /\ deref (sc_heap sc) (sp_val sp) = deref h (sp_val sp)
      /\ deref (sc_heap sc) (sp_test sp) = deref h (sp_test sp)
  | _ => sc_scaler sc = None /\ sc_heap sc = h
  end.
Proof using Hpart.
  intros Hv sp h sc.
  destruct (load_and_split_separates E Hpart args Hv) as (Hnd & Htr).
  fold sp in Hnd, Htr. fold h in Htr.
  subst sc. unfold scale_targets.
  destruct (dataset_type args); [|by split|by split].
  cbn [sc_scaler sc_heap]. split; [done|]. split; [|split; [|split]].
  - apply set_targets_in; [exact Hnd | | intros r Hr; by apply Htr].
    rewrite transform_length. unfold targets_of, deref.
    by rewrite !length_map.
  - unfold smiles_of, deref. rewrite !map_map. apply map_ext. intros r.
    apply set_targets_smiles.
  - unfold deref. apply map_ext_in. intros r Hr.
    apply list_elem_of_In in Hr. apply set_targets_other.
    intros Hin. destruct (Htr r Hin) as (_ & Hva & Hte). done.
  - unfold deref. apply map_ext_in. intros r Hr.
    apply list_elem_of_In in Hr. apply set_targets_other.
    intros Hin. destruct (Htr r Hin) as (_ & Hva & Hte). done.
Qed.
End ScalingFrame.

(** The sample regression run: the three training targets are rescaled,
    the validation and test molecules keep theirs. *)
Lemma scaling_changes_training_targets_only_witness :
  let sp := load_and_split sample_env sample_args in
  let sc := scale_targets sample_env sample_args (sp_heap sp) (sp_train sp) in
  splits_partition sample_env
  /\ valid_fractions (split_sizes sample_args)
  /\ sc_scaler sc = Some {| means := [1%Q]; stds := [2%Q] |}
  /\ targets_of (sc_heap sc) (sp_train sp)
     = transform {| means := [1%Q]; stds := [2%Q] |}
                 (targets_of (sp_heap sp) (sp_train sp))
  /\ smiles_of (sc_heap sc) (sp_train sp) = smiles_of (sp_heap sp) (sp_train sp)
  /\ deref (sc_heap sc) (sp_val sp) = deref (sp_heap sp) (sp_val sp)
  /\ deref (sc_heap sc) (sp_test sp) = deref (sp_heap sp) (sp_test sp).
Proof.
  intros sp sc.
  assert (Hv : valid_fractions (split_sizes sample_args)).
  { unfold valid_fractions. vm_compute. repeat split; discriminate. }
  split; [exact sample_env_splits_partition|]. split; [exact Hv|].
  exact (scaling_changes_training_targets_only sample_env
           sample_env_splits_partition sample_args Hv).
Defined.

(** ** Comparing scores *)

Lemma Qltb_lt (x y : Q) : Qltb x y = true <-> (x < y)%Q.
Proof.
  unfold Qltb. rewrite negb_true_iff, <- not_true_iff_false, Qle_bool_iff.
  split; [apply Qnot_le_lt | apply Qlt_not_le].
Qed.

Lemma fl_ltb_irrefl (a : fl) : fl_ltb a a = false.
Proof.
  destruct a as [x| | |]; simpl; try done.
  apply not_true_iff_false. rewrite Qltb_lt. apply Qlt_irrefl.
Qed.

Lemma fl_ltb_trans (a b c : fl) :
  fl_ltb a b = true -> fl_ltb b c = true -> fl_ltb a c = true.
Proof.
  destruct a as [x| | |], b as [y| | |], c as [z| | |]; simpl; try done.
  rewrite !Qltb_lt. apply Qlt_trans.
Qed.

(** Below [b] means below any number [c] or with [c] below [b]. *)
Lemma fl_ltb_cotrans (a b c : fl) :
  fl_ltb a b = true -> c <> NaN ->
  fl_ltb a c = true \/ fl_ltb c b = true.
Proof.
  destruct a as [x| | |], b as [y| | |], c as [z| | |]; simpl; try done;
    auto.
  rewrite !Qltb_lt. intros Hxy _.
  destruct (Qlt_le_dec x z) as [Hxz|Hzx]; [by left|right].
  eapply Qle_lt_trans; eassumption.
Qed.

Lemma better_irrefl minimize a : better minimize a a = false.
Proof. destruct minimize; apply fl_ltb_irrefl. Qed.

Lemma better_trans minimize a b c :
  better minimize a b = true -> better minimize b c = true ->
  better minimize a c = true.
Proof.
  destruct minimize; simpl; intros Hab Hbc;
    [exact (fl_ltb_trans _ _ _ Hab Hbc) | exact (fl_ltb_trans _ _ _ Hbc Hab)].
Qed.

Lemma better_cotrans minimize a b c :
  better minimize a b = true -> c <> NaN ->
  better minimize a c = true \/ better minimize c b = true.
Proof.
  destruct minimize; simpl; intros Hab Hc.
  - by apply fl_ltb_cotrans.
  - destruct (fl_ltb_cotrans _ _ c Hab Hc); auto.
Qed.

Lemma improved_better (args : Args) (s best : fl) :
  improved args s best = better (minimize_score args) s best.
Proof.
  unfold improved, better. destruct (minimize_score args); simpl.
  - by rewrite orb_false_r.
  - done.
Qed.

(** ** Early stopping *)

Section EarlyStopping.
Context (E : Env).
Variables (args : Args) (h : list Datapoint) (val_data : list nat).
Variables (scaler : option StandardScaler) (model_idx : nat).

Lemma epoch_loop_app (l1 l2 : list nat) (st : epoch_state E) :
  epoch_loop E args h val_data scaler model_idx (l1 ++ l2) st
  = (st' ← epoch_loop E args h val_data scaler model_idx l1 st;
     epoch_loop E args h val_data scaler model_idx l2 st').
Proof.
  revert st. induction l1 as [|e l1 IH]; intros st; [done|].
  cbn [app epoch_loop].
  destruct (epoch_step E args h val_data scaler model_idx e st) as [st'|err];
    cbn [mbind outcome_bind]; [apply IH | done].
Qed.

(** One more epoch: the loop over [k + 1] epochs returns exactly when the
    loop over [k] epochs does and the next step does. *)
Lemma epoch_loop_S (k : nat) (st0 st' : epoch_state E) :
  epoch_loop E args h val_data scaler model_idx (seq 0 (S k)) st0 = Return st'
  <-> exists st,
        epoch_loop E args h val_data scaler model_idx (seq 0 k) st0 = Return st
        /\ epoch_step E args h val_data scaler model_idx k st = Return st'.
Proof.
  rewrite seq_S, epoch_loop_app. cbn [Nat.add epoch_loop].
  destruct (epoch_loop E args h val_data scaler model_idx (seq 0 k) st0)
    as [st|err]; cbn [mbind outcome_bind].
  - destruct (epoch_step E args h val_data scaler model_idx k st) as [s|err]
      eqn:Hstep; cbn [mbind outcome_bind]; split.
    + intros [= <-]. by exists st.
    + intros (st1 & [= <-] & Hs). congruence.
    + done.
    + intros (st1 & [= <-] & Hs). congruence.
  - split; [done | by intros (? & ? & ?)].
Qed.

(** What an epoch does to the early-stopping variables. *)
Lemma epoch_step_tracks (epoch : nat) (st st' : epoch_state E) :
  epoch_step E args h val_data scaler model_idx epoch st = Return st' ->
  let s := avg_val_score E (es_model E st') scaler (deref h val_data) in
  let saved := better (minimize_score args) s (es_best_score E st) in
  es_best_score E st' = (if saved then s else es_best_score E st)
  /\ es_best_epoch E st' = (if saved then epoch else es_best_epoch E st)
  /\ es_store E st' = (if saved then <[model_idx := es_model E st']>
                                      (es_store E st)
                       else es_store E st).
Proof.
  unfold epoch_step. destruct (train _ _ _ _ _ _ _ _) as [r|err];
    [|discriminate]. cbn [mbind outcome_bind]. intros [= <-].
  cbn [es_model es_best_score es_best_epoch es_store].
  by rewrite improved_better.
Qed.
End EarlyStopping.

Section Selection.
Context (E : Env).
Variables (args : Args) (h : list Datapoint) (val_data : list nat).
Variables (scaler : option StandardScaler) (model_idx : nat).

Let record := epoch_record E args h val_data scaler model_idx.

(** In either case of [selects_best], no epoch so far beats the best score. *)
Lemma selects_best_unbeaten {Mdl} minimize k (rcd : nat -> option (Mdl * fl))
    m0 ck best best_epoch :
  selects_best minimize k rcd m0 ck best best_epoch ->
  forall e m s, (e < k)%nat -> rcd e = Some (m, s) ->
    better minimize s best = false.
Proof.
  intros [(_ & -> & _ & Hnone)|(_ & _ & _ & Hnone & _)]; exact Hnone.
Qed.

(** The invariant of the epoch loop: the checkpoint file of the member
    always exists and holds what [selects_best] describes. *)
Lemma epoch_loop_selects (st0 : epoch_state E) (m0 : Model E) :
  es_store E st0 !! model_idx = Some m0 ->
  es_best_score E st0 = (if minimize_score args then PInf else NInf) ->
  es_best_epoch E st0 = 0%nat ->
  forall (k : nat) (st : epoch_state E),
    epoch_loop E args h val_data scaler model_idx (seq 0 k) st0 = Return st ->
    exists ck,
      es_store E st !! model_idx = Some ck
      /\ selects_best (minimize_score args) k (record st0) m0 ck
           (es_best_score E st) (es_best_epoch E st).
Proof using Type*.
  intros Hstore Hbest Hepoch. induction k as [|k IH]; intros st Hloop.
  - injection Hloop as <-. exists m0. split; [exact Hstore|]. left.
    repeat split; try done. intros e m s He. lia.
  - pose proof Hloop as Hrec.
    apply epoch_loop_S in Hloop as (stk & Hk & Hstep).
    destruct (IH stk Hk) as (ck & Hck & Hsel).
    pose proof (selects_best_unbeaten _ _ _ _ _ _ _ Hsel) as Hunbeaten.
    destruct (epoch_step_tracks E args h val_data scaler model_idx k stk st
                Hstep) as (Hs & He & Hst).
    set (s := avg_val_score E (es_model E st) scaler (deref h val_data)) in *.
    assert (Hreck : record st0 k = Some (es_model E st, s)).
    { unfold record, epoch_record. by rewrite Hrec. }
    destruct (better (minimize_score args) s (es_best_score E stk))
      eqn:Hsaved; rewrite Hs, He, Hst.
    + exists (es_model E st). split; [apply lookup_insert_eq|]. right.
      split; [lia|]. split; [exact Hreck|]. split; [|split].
      * destruct Hsel as [(_ & Hb & _)|(_ & _ & Hb & _)].
        -- by rewrite <- Hb.
        -- exact (better_trans _ _ _ _ Hsaved Hb).
      * intros e m s' Hlt Hre.
        destruct (decide (e = k)) as [->|Hne].
        -- rewrite Hreck in Hre. injection Hre as <- <-.
           apply better_irrefl.
        -- destruct (better (minimize_score args) s' s) eqn:Hs'; [|done].
           rewrite <- (Hunbeaten e m s' ltac:(lia) Hre).
           symmetry. exact (better_trans _ _ _ _ Hs' Hsaved).
      * intros e m s' Hlt Hre Hnan.
        destruct (better_cotrans _ _ _ s' Hsaved Hnan) as [Hb|Hb]; [done|].
        rewrite (Hunbeaten e m s' Hlt Hre) in Hb. discriminate.
    + exists ck. split; [exact Hck|].
      assert (Hnew : forall e m s', (e < S k)%nat ->
                record st0 e = Some (m, s') ->
                better (minimize_score args) s' (es_best_score E stk) = false).
      { intros e m s' Hlt Hre. destruct (decide (e = k)) as [->|Hne].
        - rewrite Hreck in Hre. by injection Hre as <- <-.
        - apply (Hunbeaten e m s'); [lia | done]. }
      destruct Hsel as [(Hm & Hb & Hbe & _)|(Hlt & Hr & Hb & _ & Hearlier)].
      * left. repeat split; try done. rewrite <- Hb. exact Hnew.
      * right. split; [lia|]. by repeat split.
Qed.
End Selection.

(** ** Epoch loops complete under a usable configuration *)

Section EpochCompletion.
Context (E : Env).
Variables (args : Args) (h : list Datapoint) (val_data : list nat).
Variables (scaler : option StandardScaler).

Lemma epoch_loop_returns (model_idx : nat) :
  class_balance args = false -> 1 <= batch_size args ->
  log_frequency args <> 0 ->
  forall (todo : list nat) (st : epoch_state E),
    exists st', epoch_loop E args h val_data scaler model_idx todo st
                = Return st'.
Proof.
  intros Hcb Hb Hlf todo. induction todo as [|e todo IH]; intros st.
  - by exists st.
  - cbn [epoch_loop]. unfold epoch_step.
    destruct (train_returns (data_shuffle E)
                (fun m batch => sgd_step E m (deref h batch))
                (fun r => targets (h !!! r)) args
                (es_model E st, es_optim E st) (es_train_data E st)
                (es_rng E st) (es_n_iter E st) Hcb Hb Hlf) as (r & Hr & _).
    rewrite Hr. cbn [mbind outcome_bind]. apply IH.
Qed.

Lemma epoch_loop_configured (model_idx : nat) (st : epoch_state E) :
  epochs_configured args ->
  exists st', epoch_loop E args h val_data scaler model_idx
                (seq 0 (epochs args)) st = Return st'.
Proof.
  intros [Hz|(Hcb & Hb & Hlf)].
  - rewrite Hz. by exists st.
  - by apply epoch_loop_returns.
Qed.
End EpochCompletion.

(** ** One ensemble member *)

Section Member.
Context (E : Env).
Variables (args : Args) (h : list Datapoint) (val_data test_data : list nat).
Variables (scaler : option StandardScaler).

Lemma run_member_inv (model_idx : nat) (st st' : run_state E) :
  run_member E args h val_data test_data scaler model_idx st = Return st' ->
  exists rng1 m0 ep ck,
    init_member E args model_idx (rs_rng E st) = Return (rng1, m0)
    /\ epoch_loop E args h val_data scaler model_idx (seq 0 (epochs args))
         (member_start E args model_idx m0 rng1 (rs_train_data E st)
            (rs_store E st)) = Return ep
    /\ es_store E ep !! model_idx = Some ck
    /\ member_effect E args h test_data scaler model_idx ck ep st st'.
Proof.
  unfold run_member. intros Hrun.
  destruct (init_member E args model_idx (rs_rng E st)) as [[rng1 m0]|err];
    [|discriminate]. cbn [mbind outcome_bind] in Hrun.
  destruct (epoch_loop _ _ _ _ _ _ _ _) as [ep|err] eqn:Hep; [|discriminate].
  cbn [mbind outcome_bind] in Hrun. unfold load_checkpoint in Hrun.
  destruct (es_store E ep !! model_idx) as [ck|] eqn:Hck; [|discriminate].
  cbn [mbind outcome_bind] in Hrun.
  exists rng1, m0, ep, ck. repeat split; try done;
    destruct (conf_is args "gaussian") eqn:Hg;
    unfold read_var in Hrun;
    repeat match type of Hrun with
    | context [rs_sum_last_hidden E st] =>
        destruct (rs_sum_last_hidden E st); [|discriminate Hrun]
    | context [rs_sum_last_hidden_test E st] =>
        destruct (rs_sum_last_hidden_test E st); [|discriminate Hrun]
    end;
    cbn [mbind outcome_bind] in Hrun; injection Hrun as <-; try done;
    cbn [rs_sum_last_hidden rs_sum_last_hidden_test]; by eexists.
Qed.

Lemma run_member_returns (model_idx : nat) (st : run_state E) rng1 m0 ep :
  init_member E args model_idx (rs_rng E st) = Return (rng1, m0) ->
  epoch_loop E args h val_data scaler model_idx (seq 0 (epochs args))
    (member_start E args model_idx m0 rng1 (rs_train_data E st)
       (rs_store E st)) = Return ep ->
  accumulators_bound E args st ->
  exists st', run_member E args h val_data test_data scaler model_idx st
              = Return st'.
Proof.
  intros Hinit Hep Hacc. unfold run_member. rewrite Hinit.
  cbn [mbind outcome_bind]. rewrite Hep. cbn [mbind outcome_bind].
  destruct (epoch_loop_selects E args h val_data scaler model_idx
              (member_start E args model_idx m0 rng1 (rs_train_data E st)
                 (rs_store E st)) m0
              (lookup_insert_eq _ _ _) eq_refl eq_refl _ _ Hep)
    as (ck & Hck & _).
  unfold load_checkpoint. rewrite Hck. cbn [mbind outcome_bind].
  destruct (conf_is args "gaussian") eqn:Hg.
  - destruct (Hacc Hg) as [[a Ha] [b Hb]]. rewrite Ha, Hb.
    cbn [read_var mbind outcome_bind]. by eexists.
  - cbn [mbind outcome_bind]. by eexists.
Qed.
End Member.

Section MemberCheckpoint.
Context (E : Env).
Variables (args : Args) (h : list Datapoint) (val_data test_data : list nat).
Variables (scaler : option StandardScaler) (model_idx : nat).

(** C2: a member saves its untrained model before the epoch loop, so the
    checkpoint file exists even with 0 epochs; whenever its epoch loop
    completes, the reload succeeds, the reloaded model is the one saved at
    the epoch whose average validation score was the best seen so far
    (strictly below, or strictly above, every earlier score; the untrained
    model if no epoch beat the initial infinity), and the member's test
    predictions are the predictions of that model.  The loop completes
    under every configuration of [epochs_configured]. *)
Theorem member_evaluated_on_best_checkpoint (st : run_state E)
    (rng1 : Rng E) (m0 : Model E) :
  init_member E args model_idx (rs_rng E st) = Return (rng1, m0) ->
  accumulators_bound E args st ->
  let st0 := member_start E args model_idx m0 rng1 (rs_train_data E st)
               (rs_store E st) in
  es_store E st0 !! model_idx = Some m0
  /\ (epochs args = 0%nat ->
      epoch_loop E args h val_data scaler model_idx (seq 0 (epochs args)) st0
      = Return st0)
  /\ (epochs_configured args ->
      exists ep,
        epoch_loop E args h val_data scaler model_idx (seq 0 (epochs args)) st0
        = Return ep)
  /\ forall ep,
      epoch_loop E args h val_data scaler model_idx (seq 0 (epochs args)) st0
      = Return ep ->
      exists ck st',
        load_checkpoint E (es_store E ep) model_idx = Return ck
        /\ selects_best (minimize_score args) (epochs args)
             (epoch_record E args h val_data scaler model_idx st0) m0 ck
             (es_best_score E ep) (es_best_epoch E ep)
        /\ (epochs args = 0%nat -> ck = m0)
        /\ run_member E args h val_data test_data scaler model_idx st
           = Return st'
        /\ member_effect E args h test_data scaler model_idx ck ep st st'.
Proof.
  intros Hinit Hacc st0.
  assert (Hsaved : es_store E st0 !! model_idx = Some m0)
    by apply lookup_insert_eq.
  split; [exact Hsaved|]. split; [by intros ->|].
  split; [apply epoch_loop_configured|].
  intros ep Hep.
  destruct (epoch_loop_selects E args h val_data scaler model_idx st0 m0
              Hsaved eq_refl eq_refl _ _ Hep) as (ck & Hck & Hsel).
  destruct (run_member_returns E args h val_data test_data scaler model_idx
              st rng1 m0 ep Hinit Hep Hacc) as (st' & Hrun).
  destruct (run_member_inv E args h val_data test_data scaler model_idx
              st st' Hrun) as (rng1' & m0' & ep' & ck' & Hi & He & Hc & Heff).
  rewrite Hinit in Hi. injection Hi as <- <-.
  fold st0 in He. rewrite Hep in He. injection He as <-.
  rewrite Hck in Hc. injection Hc as <-.
  exists ck, st'. split; [unfold load_checkpoint; by rewrite Hck|].
  split; [exact Hsel|]. split; [|by split].
  intros Hz. rewrite Hz in Hsel.
  destruct Hsel as [(Hm & _)|(Hlt & _)]; [exact Hm | lia].
Qed.
End MemberCheckpoint.

(** The first member of the sample run: three epochs, the best one last. *)
Lemma member_evaluated_on_best_checkpoint_witness :
  let sp := load_and_split sample_env sample_args in
  let sc := scale_targets sample_env sample_args (sp_heap sp) (sp_train sp) in
  let st := init_run sample_env sample_args (sc_heap sc) (sp_train sp)
              (sp_val sp) (sp_test sp) 0%nat in
  let st0 := member_start sample_env sample_args 0 0%nat 1%nat
               (rs_train_data sample_env st) (rs_store sample_env st) in
  init_member sample_env sample_args 0 (rs_rng sample_env st)
  = Return (1%nat, 0%nat)
  /\ accumulators_bound sample_env sample_args st
  /\ exists ep,
       epoch_loop sample_env sample_args (sc_heap sc) (sp_val sp)
         (sc_scaler sc) 0 (seq 0 (epochs sample_args)) st0 = Return ep
       /\ es_best_epoch sample_env ep = 2%nat
       /\ exists ck st',
            load_checkpoint sample_env (es_store sample_env ep) 0 = Return ck
            /\ selects_best (minimize_score sample_args) (epochs sample_args)
                 (epoch_record sample_env sample_args (sc_heap sc) (sp_val sp)
                    (sc_scaler sc) 0 st0) 0%nat ck
                 (es_best_score sample_env ep) (es_best_epoch sample_env ep)
            /\ (epochs sample_args = 0%nat -> ck = 0%nat)
            /\ run_member sample_env sample_args (sc_heap sc) (sp_val sp)
                 (sp_test sp) (sc_scaler sc) 0 st = Return st'
            /\ member_effect sample_env sample_args (sc_heap sc) (sp_test sp)
                 (sc_scaler sc) 0 ck ep st st'.
Proof.
  intros sp sc st st0.
  assert (Hinit : init_member sample_env sample_args 0 (rs_rng sample_env st)
                  = Return (1%nat, 0%nat)) by reflexivity.
  assert (Hacc : accumulators_bound sample_env sample_args st).
  { intros Hg. vm_compute in Hg. discriminate Hg. }
  split; [exact Hinit|]. split; [exact Hacc|].
  destruct (epoch_loop sample_env sample_args (sc_heap sc) (sp_val sp)
              (sc_scaler sc) 0 (seq 0 (epochs sample_args)) st0)
    as [ep|err] eqn:Hep; [|vm_compute in Hep; discriminate Hep].
  exists ep. split; [reflexivity|].
  split; [vm_compute in Hep; injection Hep as <-; reflexivity|].
  destruct (member_evaluated_on_best_checkpoint sample_env sample_args
              (sc_heap sc) (sp_val sp) (sp_test sp) (sc_scaler sc) 0 st
              1%nat 0%nat Hinit Hacc) as (_ & _ & _ & Hmain).
  exact (Hmain ep Hep).
Defined.

(** ** The ensemble loop *)

Lemma mat_add_nil_r (a : list (list Q)) : mat_add a [] = [].
Proof. unfold mat_add. by destruct a. Qed.

Section EnsembleLoop.
Context (E : Env).
Variables (args : Args) (h : list Datapoint) (val_data test_data : list nat).
Variables (scaler : option StandardScaler).
Hypothesis Hshape : predict_shape E (num_tasks args).

Lemma init_run_inv (train_data : list nat) (rng : Rng E) :
  ensemble_inv E args h test_data scaler 0
    (init_run E args h train_data val_data test_data rng).
Proof.
  unfold ensemble_inv, init_run, member_preds, accumulators_bound.
  cbn [rs_loaded rs_all_test_preds rs_sum_test_preds rs_sum_last_hidden
       rs_sum_last_hidden_test map app fold_left length].
  unfold smiles_of, deref. rewrite !length_map, Nat.sub_0_r.
  repeat split; try done; destruct (conf_is args "gaussian"); try done;
    by eexists.
Qed.

(** One member keeps the invariant. *)
Lemma run_member_keeps_inv (k : nat) (st st' : run_state E) :
  (k < ensemble_size args)%nat ->
  ensemble_inv E args h test_data scaler k st ->
  run_member E args h val_data test_data scaler k st = Return st' ->
  ensemble_inv E args h test_data scaler (S k) st'.
Proof using Hshape.
  intros Hk (Hlen & Hall & Hsum & Hnone & Hacc) Hrun.
  destruct (run_member_inv E args h val_data test_data scaler k st st' Hrun)
    as (rng1 & m0 & ep & ck & _ & _ & _
        & Hl & _ & Hs & Ha & _ & _ & _ & Hsame & Hsome).
  set (P := predict E ck scaler (deref h test_data)) in *.
  destruct (Hshape ck scaler (deref h test_data)) as (HPlen & _).
  fold P in HPlen. unfold deref in HPlen. rewrite length_map in HPlen.
  set (blank := zeros (length test_data) (num_tasks args)) in *.
  assert (Hmp : member_preds E h test_data scaler st'
                = member_preds E h test_data scaler st ++ [P]).
  { unfold member_preds. by rewrite Hl, map_app. }
  assert (Hmlen : length (member_preds E h test_data scaler st) = k).
  { unfold member_preds. by rewrite length_map. }
  unfold ensemble_inv. fold blank. rewrite Hmp.
  split; [rewrite Hl, length_app; simpl; lia|].
  split; [|split; [|split]].
  - rewrite Ha, Hall.
    replace (ensemble_size args - k)%nat
      with (S (ensemble_size args - S k)) by lia.
    cbn [replicate]. rewrite <- app_assoc. cbn [app].
    destruct (length P =? 0)%nat eqn:HP0; cbn [negb].
    + apply Nat.eqb_eq in HP0. apply length_zero_iff_nil in HP0 as HPnil.
      rewrite HPnil. do 2 f_equal. subst blank.
      rewrite <- HPlen, HP0. done.
    + rewrite insert_app_r_alt by lia. rewrite Hmlen, Nat.sub_diag. done.
  - rewrite Hs, Hsum, fold_left_app. cbn [fold_left].
    destruct (length P =? 0)%nat eqn:HP0; cbn [negb]; [|done].
    apply Nat.eqb_eq in HP0. apply length_zero_iff_nil in HP0. rewrite HP0.
    rewrite mat_add_nil_r. rewrite <- Hsum.
    apply length_zero_iff_nil. rewrite Hsum.
    clear - HPlen HP0 Hshape. rewrite HP0 in HPlen. simpl in HPlen.
    generalize (member_preds E h test_data scaler st).
    intros l. subst blank. rewrite <- HPlen.
    induction l as [|a l IH]; [done|]. cbn [fold_left]. exact IH.
  - intros Hg. destruct (Hsame Hg) as [-> ->]. by apply Hnone.
  - exact Hsome.
Qed.

Lemma ensemble_loop_inv (m : nat) :
  forall (k : nat) (st st' : run_state E),
    (k + m <= ensemble_size args)%nat ->
    ensemble_inv E args h test_data scaler k st ->
    ensemble_loop E args h val_data test_data scaler (seq k m) st
    = Return st' ->
    ensemble_inv E args h test_data scaler (k + m) st'.
Proof using Hshape.
  induction m as [|m IH]; intros k st st' Hle Hinv Hloop.
  - injection Hloop as <-. by rewrite Nat.add_0_r.
  - cbn [seq ensemble_loop] in Hloop.
    destruct (run_member E args h val_data test_data scaler k st)
      as [st1|err] eqn:Hrun; [|discriminate].
    cbn [mbind outcome_bind] in Hloop.
    replace (k + S m)%nat with (S k + m)%nat by lia.
    apply (IH (S k) st1 st'); [lia | | exact Hloop].
    apply (run_member_keeps_inv k st st1); [lia | exact Hinv | exact Hrun].
Qed.
End EnsembleLoop.

(** ** Entries of sums and quotients of arrays *)

Lemma entry_lookup (a : list (list Q)) (i j : nat) (row : list Q) (x : Q) :
  a !! i = Some row -> row !! j = Some x -> entry a i j = x.
Proof.
  intros Hi Hj. unfold entry.
  rewrite (nth_lookup_Some _ _ _ _ Hi). by rewrite (nth_lookup_Some _ _ _ _ Hj).
Qed.

Lemma has_shape_lookup (r c : nat) (a : list (list Q)) (i j : nat) :
  has_shape r c a -> (i < r)%nat -> (j < c)%nat ->
  exists row x, a !! i = Some row /\ row !! j = Some x /\ length row = c.
Proof.
  intros (Hr & Hc) Hi Hj.
  destruct (lookup_lt_is_Some_2 a i ltac:(lia)) as [row Hrow].
  assert (Hlen : length row = c).
  { rewrite Forall_forall in Hc. apply Hc. by eapply list_elem_of_lookup_2. }
  destruct (lookup_lt_is_Some_2 row j ltac:(lia)) as [x Hx].
  by exists row, x.
Qed.

Lemma zeros_shape (r c : nat) : has_shape r c (zeros r c).
Proof.
  unfold has_shape, zeros. split; [apply length_replicate|].
  apply Forall_replicate. apply length_replicate.
Qed.

Lemma entry_zeros (r c i j : nat) : entry (zeros r c) i j = 0%Q.
Proof.
  unfold entry, zeros.
  destruct (decide (i < r)%nat) as [Hi|Hi].
  - rewrite (nth_lookup_Some _ _ _ (replicate c 0%Q));
      [|by apply lookup_replicate_2].
    destruct (decide (j < c)%nat) as [Hj|Hj].
    + by rewrite (nth_lookup_Some _ _ _ 0%Q); [|by apply lookup_replicate_2].
    + apply nth_overflow. rewrite length_replicate. lia.
  - rewrite (nth_overflow (replicate _ _)) by (rewrite length_replicate; lia).
    by destruct j.
Qed.

Lemma mat_add_shape (r c : nat) (a b : list (list Q)) :
  has_shape r c a -> has_shape r c b -> has_shape r c (mat_add a b).
Proof.
  intros (Ha & Hac) (Hb & Hbc). unfold has_shape, mat_add. split.
  - rewrite length_zip_with. lia.
  - clear Ha Hb. revert b Hbc.
    induction Hac as [|ra a Hra _ IH]; intros [|rb b] Hbc; cbn [zip_with];
      try constructor.
    + inversion_clear Hbc as [|? ? Hrb _]. rewrite length_zip_with. lia.
    + inversion_clear Hbc. by apply IH.
Qed.

Lemma entry_mat_add (r c : nat) (a b : list (list Q)) (i j : nat) :
  has_shape r c a -> has_shape r c b -> (i < r)%nat -> (j < c)%nat ->
  entry (mat_add a b) i j = (entry a i j + entry b i j)%Q.
Proof.
  intros Ha Hb Hi Hj.
  destruct (has_shape_lookup r c a i j Ha Hi Hj) as (ra & x & Hra & Hx & _).
  destruct (has_shape_lookup r c b i j Hb Hi Hj) as (rb & y & Hrb & Hy & _).
  rewrite (entry_lookup a i j ra x Hra Hx), (entry_lookup b i j rb y Hrb Hy).
  apply (entry_lookup _ i j (zip_with Qplus ra rb)).
  - unfold mat_add. rewrite lookup_zip_with, Hra, Hrb. done.
  - rewrite lookup_zip_with, Hx, Hy. done.
Qed.

Lemma entry_mat_div (r c : nat) (a : list (list Q)) (q : Q) (i j : nat) :
  has_shape r c a -> (i < r)%nat -> (j < c)%nat ->
  entry (mat_div a q) i j = (entry a i j / q)%Q.
Proof.
  intros Ha Hi Hj.
  destruct (has_shape_lookup r c a i j Ha Hi Hj) as (ra & x & Hra & Hx & _).
  rewrite (entry_lookup a i j ra x Hra Hx).
  apply (entry_lookup _ i j (map (fun x => x / q)%Q ra)).
  - unfold mat_div. rewrite list_lookup_fmap, Hra. done.
  - rewrite list_lookup_fmap, Hx. done.
Qed.

(** The running sum holds, entry by entry, the sum of what was added. *)
Lemma entry_running_sum (r c : nat) (Ps : list (list (list Q))) (i j : nat) :
  Forall (has_shape r c) Ps -> (i < r)%nat -> (j < c)%nat ->
  forall acc, has_shape r c acc ->
    (entry (fold_left mat_add Ps acc) i j
     == entry acc i j + Qsum (map (fun P => entry P i j) Ps))%Q
    /\ has_shape r c (fold_left mat_add Ps acc).
Proof.
  intros HPs Hi Hj. induction HPs as [|P Ps HP _ IH]; intros acc Hacc.
  - cbn [fold_left map Qsum foldr]. split; [ring | exact Hacc].
  - cbn [fold_left map Qsum foldr].
    destruct (IH (mat_add acc P) (mat_add_shape r c acc P Hacc HP))
      as (Heq & Hsh).
    split; [|exact Hsh]. rewrite Heq.
    rewrite (entry_mat_add r c acc P i j Hacc HP Hi Hj).
    fold (Qsum (map (fun P => entry P i j) Ps)). ring.
Qed.

Lemma running_sum_shape (r c : nat) (Ps : list (list (list Q))) :
  Forall (has_shape r c) Ps ->
  forall acc, has_shape r c acc -> has_shape r c (fold_left mat_add Ps acc).
Proof.
  induction 1 as [|P Ps HP _ IH]; intros acc Hacc; cbn [fold_left];
    [exact Hacc|].
  apply IH. by apply mat_add_shape.
Qed.

(** ** The whole run *)

Section Run.
Context (E : Env).
Variable args : Args.
Hypothesis Hshape : predict_shape E (num_tasks args).

Let sp := load_and_split E args.
Let sc := scale_targets E args (sp_heap sp) (sp_train sp).
Let n := inject_Z (Z.of_nat (ensemble_size args)).

(** After the last member, the averaged predictions are, entry by entry,
    the mean of the members' predictions, which fill [all_test_preds]. *)
Lemma ensemble_mean (st : run_state E) :
  ensemble_inv E args (sc_heap sc) (sp_test sp) (sc_scaler sc)
    (ensemble_size args) st ->
  rs_all_test_preds E st
  = member_preds E (sc_heap sc) (sp_test sp) (sc_scaler sc) st
  /\ length (rs_all_test_preds E st) = ensemble_size args
  /\ has_shape (length (sp_test sp)) (num_tasks args) (rs_sum_test_preds E st)
  /\ forall i j, (i < length (sp_test sp))%nat -> (j < num_tasks args)%nat ->
       (entry (mat_div (rs_sum_test_preds E st) n) i j
        == Qsum (map (fun P => entry P i j) (rs_all_test_preds E st)) / n)%Q.
Proof using Hshape.
  intros (Hlen & Hall & Hsum & _).
  rewrite Nat.sub_diag in Hall. cbn [replicate] in Hall.
  rewrite app_nil_r in Hall.
  assert (Hshapes : Forall (has_shape (length (sp_test sp)) (num_tasks args))
                      (member_preds E (sc_heap sc) (sp_test sp) (sc_scaler sc)
                         st)).
  { unfold member_preds. apply Forall_forall. intros P HP.
    apply list_elem_of_fmap in HP as (ck & -> & _).
    destruct (Hshape ck (sc_scaler sc) (deref (sc_heap sc) (sp_test sp)))
      as (Hrows & Hcols).
    split; [|exact Hcols]. unfold deref in Hrows.
    by rewrite length_map in Hrows. }
  split; [exact Hall|]. split.
  { rewrite Hall. unfold member_preds. by rewrite length_map. }
  split.
  { rewrite Hsum. apply running_sum_shape; [exact Hshapes|].
    apply zeros_shape. }
  intros i j Hi Hj.
  destruct (entry_running_sum _ _ _ i j Hshapes Hi Hj _
              (zeros_shape (length (sp_test sp)) (num_tasks args)))
    as (Heq & Hsh).
  rewrite Hsum, (entry_mat_div _ _ _ n i j Hsh Hi Hj), Heq, entry_zeros, Hall.
  by rewrite Qplus_0_l.
Qed.

(** What a completed run consists of. *)
Lemma run_training_report_inv (rng : Rng E) (rep : run_report E) :
  run_training_report E args rng = Return rep ->
  ensemble_loop E args (sc_heap sc) (sp_val sp) (sp_test sp) (sc_scaler sc)
    (seq 0 (ensemble_size args))
    (init_run E args (sc_heap sc) (sp_train sp) (sp_val sp) (sp_test sp) rng)
  = Return (rep_state E rep)
  /\ rep_avg_test_preds E rep = mat_div (rs_sum_test_preds E (rep_state E rep)) n
  /\ rep_ensemble_scores E rep
     = evaluate_predictions E (rep_avg_test_preds E rep)
         (targets_of (sc_heap sc) (sp_test sp))
  /\ diagnostics E args (sc_heap sc) (sp_val sp) (sp_test sp) sc
       (rep_state E rep) (rep_avg_test_preds E rep)
     = Return (rep_confidence E rep)
  /\ ensemble_inv E args (sc_heap sc) (sp_test sp) (sc_scaler sc)
       (ensemble_size args) (rep_state E rep).
Proof using Hshape.
  unfold run_training_report. fold sp. fold sc. fold n.
  destruct (ensemble_loop _ _ _ _ _ _ _ _) as [st|err] eqn:Hloop;
    [|discriminate]. cbn [mbind outcome_bind].
  destruct (ensemble_size args =? 0)%nat; [discriminate|].
  cbn [mbind outcome_bind].
  destruct (diagnostics _ _ _ _ _ _ _ _) as [xy|err] eqn:Hdiag;
    [|discriminate]. cbn [mbind outcome_bind]. intros [= <-].
  cbn [rep_state rep_avg_test_preds rep_ensemble_scores rep_confidence].
  split; [done|]. split; [done|]. split; [done|]. split; [done|].
  apply (ensemble_loop_inv E args (sc_heap sc) (sp_val sp) (sp_test sp)
           (sc_scaler sc) Hshape (ensemble_size args) 0 _ st (le_n _)
           (init_run_inv E args (sc_heap sc) (sp_val sp) (sp_test sp)
              (sc_scaler sc) (sp_train sp) rng) Hloop).
Qed.

End Run.

Lemma sample_env_predict_shape (c : Args) :
  num_tasks c = 1%nat -> predict_shape sample_env (num_tasks c).
Proof.
  intros Hc m s ds. cbn [predict sample_env]. split; [apply length_map|].
  apply Forall_forall. intros row Hrow.
  apply list_elem_of_fmap in Hrow as (d & -> & _). by rewrite Hc.
Qed.



(** ** Confidence diagnostics *)

Section Diagnostics.
Context (E : Env).
Variable args : Args.

(** Without the gaussian method the accumulators are never assigned. *)
Lemma ensemble_loop_unbound h val_data test_data scaler (todo : list nat) :
  conf_is args "gaussian" = false ->
  forall (st st' : run_state E),
    rs_sum_last_hidden E st = None ->
    ensemble_loop E args h val_data test_data scaler todo st = Return st' ->
    rs_sum_last_hidden E st' = None.
Proof.
  intros Hg. induction todo as [|k todo IH]; intros st st' Hnone Hloop.
  - by injection Hloop as <-.
  - cbn [ensemble_loop] in Hloop.
    destruct (run_member E args h val_data test_data scaler k st)
      as [st1|err] eqn:Hrun; [|discriminate].
    cbn [mbind outcome_bind] in Hloop. apply (IH st1 st'); [|exact Hloop].
    destruct (run_member_inv E args h val_data test_data scaler k st st1 Hrun)
      as (? & ? & ? & ? & _ & _ & _ & Heff).
    unfold member_effect in Heff.
    destruct Heff as (_ & _ & _ & _ & _ & _ & _ & Hsame & _).
    destruct (Hsame Hg) as [-> _]. exact Hnone.
Qed.

(** C5 (the code, where the claim fails): in a classification run with a
    confidence method other than 'gaussian', [sum_last_hidden] was never
    assigned when the diagnostics read it, and the run ends in a
    [NameError] once the ensemble has been trained and evaluated. *)
Theorem classification_confidence_reads_unbound (rng : Rng E)
    (st : run_state E) :
  let sp := load_and_split E args in
  let sc := scale_targets E args (sp_heap sp) (sp_train sp) in
  dataset_type args = Classification ->
  truthy (confidence args) = true ->
  conf_is args "gaussian" = false ->
  (1 <= ensemble_size args)%nat ->
  ensemble_loop E args (sc_heap sc) (sp_val sp) (sp_test sp) (sc_scaler sc)
    (seq 0 (ensemble_size args))
    (init_run E args (sc_heap sc) (sp_train sp) (sp_val sp) (sp_test sp) rng)
  = Return st ->
  rs_sum_last_hidden E st = None
  /\ run_training E args rng = Raise (NameError "sum_last_hidden").
Proof.
  intros sp sc Hcls Hconf Hg Hn Hloop.
  assert (Hnone : rs_sum_last_hidden E st = None).
  { eapply ensemble_loop_unbound; [exact Hg | | exact Hloop].
    unfold init_run. cbn [rs_sum_last_hidden]. by rewrite Hg. }
  split; [exact Hnone|].
  unfold run_training, run_training_report. fold sp. fold sc.
  rewrite Hloop. cbn [mbind outcome_bind].
  destruct (Nat.eqb_spec (ensemble_size args) 0) as [|_]; [lia|].
  cbn [mbind outcome_bind]. unfold diagnostics.
  rewrite Hconf, Hcls, Hnone. reflexivity.
Qed.
End Diagnostics.

(** The sample run as a classification run with the 'ensemble' method. *)
Lemma classification_confidence_reads_unbound_witness :
  let args := with_confidence (Some "ensemble"%string) Classification
                sample_args in
  let sp := load_and_split sample_env args in
  let sc := scale_targets sample_env args (sp_heap sp) (sp_train sp) in
  dataset_type args = Classification
  /\ truthy (confidence args) = true
  /\ conf_is args "gaussian" = false
  /\ (1 <= ensemble_size args)%nat
  /\ exists st,
       ensemble_loop sample_env args (sc_heap sc) (sp_val sp) (sp_test sp)
         (sc_scaler sc) (seq 0 (ensemble_size args))
         (init_run sample_env args (sc_heap sc) (sp_train sp) (sp_val sp)
            (sp_test sp) 0%nat) = Return st
       /\ rs_sum_last_hidden sample_env st = None
       /\ run_training sample_env args 0%nat
          = Raise (NameError "sum_last_hidden").
Proof.
  intros args sp sc.
  assert (Hn : (1 <= ensemble_size args)%nat) by (vm_compute; lia).
  split; [reflexivity|]. split; [reflexivity|]. split; [reflexivity|].
  split; [exact Hn|].
  destruct (ensemble_loop sample_env args (sc_heap sc) (sp_val sp) (sp_test sp)
              (sc_scaler sc) (seq 0 (ensemble_size args))
              (init_run sample_env args (sc_heap sc) (sp_train sp) (sp_val sp)
                 (sp_test sp) 0%nat)) as [st|err] eqn:Hloop;
    [|vm_compute in Hloop; discriminate Hloop].
  exists st. split; [reflexivity|].
  exact (classification_confidence_reads_unbound sample_env args 0%nat st
           eq_refl eq_refl eq_refl Hn Hloop).
Defined.

Lemma mat_div_shape (r c : nat) (a : list (list Q)) (q : Q) :
  has_shape r c a -> has_shape r c (mat_div a q).
Proof.
  intros (Hr & Hc). unfold has_shape, mat_div. split; [by rewrite length_map|].
  apply Forall_forall. intros row Hrow.
  apply list_elem_of_fmap in Hrow as (row' & -> & Hin).
  rewrite length_map. rewrite Forall_forall in Hc. by apply Hc.
Qed.

(** An entry of [np.abs(avg_test_preds - test_targets)]. *)
Lemma abs_error_entry (avg : list (list Q)) (tt : list (list (option Q)))
    (y : list (list Q)) :
  abs_error avg tt = Return y ->
  forall i j row trow p ot,
    avg !! i = Some row -> tt !! i = Some trow ->
    row !! j = Some p -> trow !! j = Some ot ->
    exists t, ot = Some t /\ entry y i j = Qabs (p - t).
Proof.
  unfold abs_error. intros Hy i j row trow p ot Hrow Htrow Hp Hot.
  apply mapM_Return in Hy.
  assert (Hz : zip avg tt !! i = Some (row, trow)).
  { rewrite lookup_zip_with, Hrow, Htrow. done. }
  destruct (Forall2_lookup_l _ _ _ _ _ Hy Hz) as (yrow & Hyrow & Hrun).
  cbn [fst snd] in Hrun. apply mapM_Return in Hrun.
  assert (Hz' : zip row trow !! j = Some (p, ot)).
  { rewrite lookup_zip_with, Hp, Hot. done. }
  destruct (Forall2_lookup_l _ _ _ _ _ Hrun Hz') as (v & Hv & Hf).
  cbn [fst snd] in Hf. destruct ot as [t|]; [|discriminate Hf].
  injection Hf as <-. exists t. split; [done|].
  by apply (entry_lookup y i j yrow).
Qed.

(** An entry of [np.var(all_test_preds, axis=2) * -1]. *)
Lemma neg_ensemble_variance_entry (all : list (list (list Q)))
    (n_test n_tasks i j : nat) :
  (i < n_test)%nat -> (j < n_tasks)%nat ->
  entry (neg_ensemble_variance all n_test n_tasks) i j
  = (Qvar (map (fun P => entry P i j) all) * - (1))%Q.
Proof.
  intros Hi Hj. unfold neg_ensemble_variance.
  eapply entry_lookup.
  - rewrite list_lookup_fmap, lookup_seq_lt by done. reflexivity.
  - rewrite list_lookup_fmap, lookup_seq_lt by done. reflexivity.
Qed.

Section ConfidenceMethod.
Context (E : Env).
Variable args : Args.

(** C4 (the code, where the claim fails): in a regression run whose
    [args.confidence] is set, but to none of 'gaussian', 'tanimoto' and
    'ensemble', none of the three methods runs.  No branch of lines 343-391
    assigns [x], and once the ensemble has been trained and evaluated the
    call of line 393 reads it: the run ends in a [NameError]. *)
Theorem regression_confidence_no_method (rng : Rng E) (c : string)
    (st : run_state E) :
  let sp := load_and_split E args in
  let sc := scale_targets E args (sp_heap sp) (sp_train sp) in
  dataset_type args = Regression ->
  confidence args = Some c ->
  truthy (confidence args) = true ->
  c ∉ ["gaussian"%string; "tanimoto"%string; "ensemble"%string] ->
  (1 <= ensemble_size args)%nat ->
  ensemble_loop E args (sc_heap sc) (sp_val sp) (sp_test sp) (sc_scaler sc)
    (seq 0 (ensemble_size args))
    (init_run E args (sc_heap sc) (sp_train sp) (sp_val sp) (sp_test sp) rng)
  = Return st ->
  diagnostics E args (sc_heap sc) (sp_val sp) (sp_test sp) sc st
    (mat_div (rs_sum_test_preds E st)
       (inject_Z (Z.of_nat (ensemble_size args))))
  = Raise (NameError "x")
  /\ run_training E args rng = Raise (NameError "x").
Proof.
  intros sp sc Hreg Hc Hset Hnot Hn Hloop.
  assert (Hg : String.eqb c "gaussian" = false).
  { apply String.eqb_neq. intros ->. apply Hnot. repeat constructor. }
  assert (Ht : String.eqb c "tanimoto" = false).
  { apply String.eqb_neq. intros ->. apply Hnot. repeat constructor. }
  assert (He : String.eqb c "ensemble" = false).
  { apply String.eqb_neq. intros ->. apply Hnot. repeat constructor. }
  assert (Hdiag : diagnostics E args (sc_heap sc) (sp_val sp) (sp_test sp) sc
                    st (mat_div (rs_sum_test_preds E st)
                          (inject_Z (Z.of_nat (ensemble_size args))))
                  = Raise (NameError "x")).
  { unfold diagnostics, conf_is. by rewrite Hset, Hc, Hreg, Hg, Ht, He. }
  split; [exact Hdiag|].
  unfold run_training, run_training_report. fold sp. fold sc.
  rewrite Hloop. cbn [mbind outcome_bind].
  destruct (Nat.eqb_spec (ensemble_size args) 0) as [|_]; [lia|].
  cbn [mbind outcome_bind]. by rewrite Hdiag.
Qed.
End ConfidenceMethod.

(** The sample run as a regression run with the confidence 'dropout'. *)
Lemma regression_confidence_no_method_witness :
  let args := with_confidence (Some "dropout"%string) Regression sample_args in
  let sp := load_and_split sample_env args in
  let sc := scale_targets sample_env args (sp_heap sp) (sp_train sp) in
  dataset_type args = Regression
  /\ confidence args = Some "dropout"%string
  /\ truthy (confidence args) = true
  /\ ("dropout"%string
      ∉ ["gaussian"%string; "tanimoto"%string; "ensemble"%string])
  /\ (1 <= ensemble_size args)%nat
  /\ exists st,
       ensemble_loop sample_env args (sc_heap sc) (sp_val sp) (sp_test sp)
         (sc_scaler sc) (seq 0 (ensemble_size args))
         (init_run sample_env args (sc_heap sc) (sp_train sp) (sp_val sp)
            (sp_test sp) 0%nat) = Return st
       /\ run_training sample_env args 0%nat = Raise (NameError "x").
Proof.
  intros args sp sc.
  assert (Hnot : "dropout"%string
                 ∉ ["gaussian"%string; "tanimoto"%string; "ensemble"%string]).
  { intros Hin.
    repeat (apply elem_of_cons in Hin as [Hin|Hin]; [discriminate Hin|]).
    inversion Hin. }
  assert (Hn : (1 <= ensemble_size args)%nat) by (vm_compute; lia).
  split; [reflexivity|]. split; [reflexivity|]. split; [reflexivity|].
  split; [exact Hnot|]. split; [exact Hn|].
  destruct (ensemble_loop sample_env args (sc_heap sc) (sp_val sp) (sp_test sp)
              (sc_scaler sc) (seq 0 (ensemble_size args))
              (init_run sample_env args (sc_heap sc) (sp_train sp) (sp_val sp)
                 (sp_test sp) 0%nat)) as [st|err] eqn:Hloop;
    [|vm_compute in Hloop; discriminate Hloop].
  exists st. split; [reflexivity|].
  exact (proj2 (regression_confidence_no_method sample_env args 0%nat
                  "dropout" st eq_refl eq_refl eq_refl Hnot Hn Hloop)).
Defined.

(** * Further properties *)

(** ** pred_r2.py *)

Section PearsonMore.
Variable np_sum : list float -> float.

(** The product of two binary64 numbers does not depend on their order. *)
Lemma float_mul_comm (a b : float) : (a * b = b * a)%float.
Proof.
  apply Prim2SF_inj. rewrite !mul_spec. unfold SF64mul, SFmul.
  destruct (Prim2SF a) as [sa|sa| |sa ma ea],
           (Prim2SF b) as [sb|sb| |sb mb eb];
    try reflexivity; rewrite ?(xorb_comm sa sb); try reflexivity.
  by rewrite Pos.mul_comm, Z.add_comm.
Qed.

Lemma zip_with_mul_comm (x : list float) :
  forall y, zip_with PrimFloat.mul x y = zip_with PrimFloat.mul y x.
Proof.
  induction x as [|a x IH]; intros [|b y]; cbn [zip_with]; try done.
  by rewrite IH, float_mul_comm.
Qed.

(** X1: [cal_pccs] is symmetric in its two arguments when they have one
    length. *)
Theorem cal_pccs_symmetric (x y : list float) :
  length x = length y -> cal_pccs np_sum x y = cal_pccs np_sum y x.
Proof.
  intros Hlen. unfold cal_pccs, np_mul.
  rewrite !Nat.eqb_refl, <- Hlen, Nat.eqb_refl.
  cbn [mbind outcome_bind]. do 2 f_equal.
  - by rewrite (zip_with_mul_comm y x), (float_mul_comm (np_sum y)).
  - f_equal. apply float_mul_comm.
Qed.

(** X5: two vectors of different lengths, neither of one element, cannot be
    multiplied: [cal_pccs] raises [ValueError]. *)
Theorem cal_pccs_length_mismatch (x y : list float) :
  length x <> length y -> length x <> 1%nat -> length y <> 1%nat ->
  cal_pccs np_sum x y = Raise ValueError.
Proof.
  intros Hne Hx Hy. unfold cal_pccs, np_mul.
  apply Nat.eqb_neq in Hne. rewrite Hne.
  destruct x as [|a [|a' x]]; destruct y as [|b [|b' y]]; simpl in *;
    try done.
Qed.
End PearsonMore.

Lemma cal_pccs_symmetric_witness :
  length [1; 2; 4]%float = length [3; 1; 2]%float
  /\ cal_pccs sum_in_order [1; 2; 4]%float [3; 1; 2]%float
     = cal_pccs sum_in_order [3; 1; 2]%float [1; 2; 4]%float.
Proof.
  split; [reflexivity|].
  apply (cal_pccs_symmetric sum_in_order [1; 2; 4]%float [3; 1; 2]%float).
  reflexivity.
Defined.

Lemma cal_pccs_length_mismatch_witness :
  length [1; 2]%float <> length [1; 2; 3]%float
  /\ length [1; 2]%float <> 1%nat
  /\ length [1; 2; 3]%float <> 1%nat
  /\ cal_pccs sum_in_order [1; 2]%float [1; 2; 3]%float = Raise ValueError.
Proof.
  split; [simpl; lia|]. split; [simpl; lia|]. split; [simpl; lia|].
  apply (cal_pccs_length_mismatch sum_in_order [1; 2]%float [1; 2; 3]%float);
    simpl; lia.
Defined.

(** ** pred_r2.py: cal_rank *)

Lemma Qsum_squares_zero_diff (x : list Q) :
  (Qsum (map (fun v => v * v) (zip_with Qminus x x)) == 0)%Q.
Proof.
  induction x as [|a x IH]; [reflexivity|].
  cbn [zip_with map Qsum foldr].
  fold (Qsum (map (fun v => v * v)%Q (zip_with Qminus x x))).
  rewrite IH. ring.
Qed.

Lemma rank_denominator_positive (n : Z) : 2 <= n -> 0 < n * (n ^ 2 - 1).
Proof. intros Hn. nia. Qed.

(** X6: two identical rankings of at least two items, all of them finite
    numbers, have rank correlation 1. *)
Theorem cal_rank_identical (x : list Q) :
  (2 <= length x)%nat ->
  exists q, cal_rank x x = Return (Fin q) /\ (q == 1)%Q.
Proof.
  intros Hn. unfold cal_rank, np_sub. rewrite Nat.eqb_refl.
  cbn [mbind outcome_bind].
  pose proof (rank_denominator_positive (len x) ltac:(unfold len; lia)) as Hf.
  destruct (Z.eqb_spec (len x * (len x ^ 2 - 1)) 0) as [Hz|_]; [lia|].
  eexists. split; [reflexivity|].
  rewrite Qsum_squares_zero_diff. unfold Qdiv. ring.
Qed.

Lemma cal_rank_identical_witness :
  (2 <= length [1%Q; 3%Q; 2%Q])%nat
  /\ exists q, cal_rank [1%Q; 3%Q; 2%Q] [1%Q; 3%Q; 2%Q] = Return (Fin q)
               /\ (q == 1)%Q.
Proof.
  split; [simpl; lia|]. apply (cal_rank_identical [1%Q; 3%Q; 2%Q]).
  simpl; lia.
Defined.

(** X7: with fewer than two items the formula divides by zero and the
    result is NaN or an infinity, never a number. *)
Theorem cal_rank_degenerate (x y : list Q) (r : fl) :
  (length x <= 1)%nat ->
  cal_rank x y = Return r ->
  forall q, r <> Fin q.
Proof.
  intros Hn. unfold cal_rank.
  assert (Hf : len x * (len x ^ 2 - 1) = 0).
  { unfold len. destruct x as [|a [|b x]]; simpl in *; lia. }
  rewrite Hf. destruct (np_sub x y) as [d|e]; [|discriminate].
  cbn [mbind outcome_bind Z.eqb]. intros [= <-] q.
  destruct (Qeq_bool _ 0); [discriminate|].
  by destruct (Qltb 0 _).
Qed.

Lemma cal_rank_degenerate_witness :
  (length [3%Q] <= 1)%nat
  /\ cal_rank [3%Q] [5%Q] = Return NInf
  /\ forall q, NInf <> Fin q.
Proof.
  split; [simpl; lia|]. split; [reflexivity|].
  apply (cal_rank_degenerate [3%Q] [5%Q] NInf); [simpl; lia | reflexivity].
Defined.

(** ** train.py: degenerate batch sizes and the logging schedule *)

(** A slice that starts inside the list extends the prefix before it. *)
Lemma py_slice_prefix {A} (l : list A) (i j : Z) :
  0 <= i <= len l ->
  i + len (py_slice l i j) <= len l
  /\ take (Z.to_nat (i + len (py_slice l i j))) l
     = take (Z.to_nat i) l ++ py_slice l i j.
Proof.
  intros Hi. unfold py_slice, clamp_index.
  destruct (Z.ltb_spec i 0) as [|_]; [lia|].
  rewrite (Z.min_l i) by lia.
  set (hi := if j <? 0 then Z.max (j + len l) 0 else Z.min j (len l)).
  assert (Hhi : 0 <= hi <= len l).
  { subst hi. unfold len in *. destruct (Z.ltb_spec j 0); lia. }
  assert (Hlen : len (take (Z.to_nat (hi - i)) (drop (Z.to_nat i) l))
                 = Z.max (hi - i) 0).
  { unfold len in *. rewrite length_take, length_drop. lia. }
  rewrite Hlen. split; [lia|].
  rewrite take_take_drop. f_equal. lia.
Qed.

Lemma py_slice_nil {A} (i j : Z) : py_slice (@nil A) i j = [].
Proof. unfold py_slice. by rewrite drop_nil, take_nil. Qed.

Lemma py_slice_same {A} (l : list A) (i : Z) : py_slice l i i = [].
Proof. unfold py_slice. by rewrite Z.sub_diag. Qed.

(** A non-empty slice from a non-negative index starts inside the list. *)
Lemma py_slice_nonempty {A} (l : list A) (i j : Z) :
  0 <= i -> len (py_slice l i j) <> 0 ->
  i < len l /\ 1 <= len (py_slice l i j)
  /\ i + len (py_slice l i j) <= len l.
Proof.
  intros Hi Hne.
  assert (Hlt : i < len l).
  { destruct (Z.lt_ge_cases i (len l)) as [|Hge]; [done|]. exfalso.
    apply Hne. unfold py_slice, clamp_index.
    destruct (Z.ltb_spec i 0) as [|_]; [lia|].
    rewrite (Z.min_r i) by lia. unfold len.
    rewrite Nat2Z.id, drop_all, take_nil. done. }
  destruct (py_slice_prefix l i j ltac:(lia)) as [Hle _].
  unfold len in *. lia.
Qed.

Section TrainEdges.
Context {D M Rng : Type}.
Variable shuffle : Rng -> list D -> Rng * list D.
Variable step : M -> list D -> M.
Variable d_targets : D -> list (option Q).

(** X8: a batch size of 0 is never trained with: the run of [train] ends in
    an exception, and without class balancing it is the [ZeroDivisionError]
    of line 76. *)
Theorem train_batch_size_zero (args : Args) (model : M) (data : list D)
    (rng : Rng) (n_iter : Z) :
  batch_size args = 0 ->
  (exists e,
     train shuffle step d_targets model data rng args n_iter = Raise e)
  /\ (class_balance args = false ->
      train shuffle step d_targets model data rng args n_iter
      = Raise ZeroDivisionError).
Proof.
  intros Hb. unfold train. destruct (shuffle rng data) as [rng' shuffled].
  rewrite Hb. split.
  - destruct (class_balance args).
    + destruct (class_balanced d_targets 0 shuffled) as [d'|e];
        cbn [mbind outcome_bind py_floordiv Z.eqb]; by eexists.
    + cbn [mbind outcome_bind py_floordiv Z.eqb]. by eexists.
  - intros ->. reflexivity.
Qed.

(** X9: with a negative batch size, or fewer examples than one batch,
    [train] returns at once: no batch is trained on, nothing is logged,
    the model and [n_iter] come back unchanged, whatever the logging
    period. *)
Theorem train_nothing_to_train (args : Args) (model : M) (data : list D)
    (rng : Rng) (n_iter : Z) :
  class_balance args = false ->
  batch_size args < 0 \/ len (snd (shuffle rng data)) < batch_size args ->
  train shuffle step d_targets model data rng args n_iter
  = Return {| tr_model := model; tr_n_iter := n_iter;
              tr_data := snd (shuffle rng data);
              tr_rng := fst (shuffle rng data);
              tr_batches := []; tr_logged := [] |}.
Proof.
  intros Hcb Hsmall. unfold train.
  destruct (shuffle rng data) as [rng' shuffled]. cbn [fst snd] in *.
  rewrite Hcb. cbn [mbind outcome_bind]. unfold py_floordiv.
  assert (Hlen : 0 <= len shuffled) by (unfold len; lia).
  destruct (Z.eqb_spec (batch_size args) 0) as [Hz|Hnz]; [lia|].
  cbn [mbind outcome_bind]. unfold py_range.
  destruct (Z.eqb_spec (batch_size args) 0) as [|_]; [done|].
  assert (Hnone : range_len 0 (len shuffled / batch_size args
                               * batch_size args) (batch_size args) = 0).
  { unfold range_len. destruct Hsmall as [Hneg|Hshort].
    - destruct (Z.ltb_spec 0 (batch_size args)) as [|_]; [lia|].
      pose proof (Z.mod_neg_bound (len shuffled) (batch_size args) Hneg).
      pose proof (Z.div_mod (len shuffled) (batch_size args) Hnz).
      destruct (Z.ltb_spec (len shuffled / batch_size args * batch_size args)
                  0) as [|_]; [lia | done].
    - rewrite Z.div_small by lia.
      destruct (Z.ltb_spec 0 (batch_size args)) as [_|]; [|lia].
      done. }
  rewrite Hnone. reflexivity.
Qed.

(** Which values of [n_iter] the loop logs at. *)
Lemma train_loop_schedule (args : Args) (data : list D) :
  0 < batch_size args -> log_frequency args <> 0 ->
  forall (m k0 : nat) (st : train_state),
    Z.of_nat (k0 + m) * batch_size args <= len data ->
    exists st' : train_state,
      train_loop step args data
        (map (fun k => 0 + Z.of_nat k * batch_size args) (seq k0 m)) st
      = Return st'
      /\ ts_logged st'
         = ts_logged st
           ++ List.filter
                (fun v => (v / batch_size args) mod log_frequency args =? 0)
                (map (fun j : nat =>
                        ts_n_iter st + Z.of_nat j * batch_size args)
                     (seq 1 m)).
Proof.
  intros Hb Hlf. induction m as [|m IH]; intros k0 st Hle.
  - exists st. split; [done|]. cbn. by rewrite app_nil_r.
  - cbn [seq map train_loop].
    set (i := 0 + Z.of_nat k0 * batch_size args).
    destruct (Z.ltb_spec (len data) (i + batch_size args)) as [Hlt|_];
      [subst i; nia|].
    assert (Hlen : len (py_slice data i (i + batch_size args))
                   = batch_size args).
    { apply py_slice_length; subst i; nia. }
    unfold py_floordiv, py_mod.
    destruct (Z.eqb_spec (batch_size args) 0) as [|_]; [lia|].
    destruct (Z.eqb_spec (log_frequency args) 0) as [|_]; [done|].
    cbn [mbind outcome_bind]. rewrite Hlen.
    match goal with
    | |- context [train_loop _ _ _ _ ?s] =>
        destruct (IH (S k0) s) as (st' & Hrun & Hlog)
    end; [lia|].
    exists st'. split; [exact Hrun|]. rewrite Hlog.
    cbn [ts_logged ts_n_iter].
    change (seq 1 (S m)) with (1%nat :: seq 2 m).
    rewrite <- (seq_shift m 1). cbn [map]. rewrite map_map.
    cbn [List.filter].
    replace (ts_n_iter st + Z.of_nat 1 * batch_size args)
      with (ts_n_iter st + batch_size args) by lia.
    assert (Hext : map (fun j : nat =>
                          ts_n_iter st + batch_size args
                          + Z.of_nat j * batch_size args) (seq 1 m)
                   = map (fun j : nat =>
                            ts_n_iter st + Z.of_nat (S j) * batch_size args)
                         (seq 1 m)).
    { apply map_ext. intros j. lia. }
    rewrite <- Hext.
    destruct ((ts_n_iter st + batch_size args) / batch_size args
              mod log_frequency args =? 0).
    + by rewrite <- app_assoc.
    + done.
Qed.

(** X10: the schedule of the log lines.  After the [j]-th batch of an epoch
    [n_iter] has grown by [j * b], and a line is written exactly at those
    batches where [n_iter // b] is a multiple of [args.log_frequency]. *)
Theorem train_logging_schedule (args : Args) (model : M) (data : list D)
    (rng : Rng) (n_iter : Z) :
  class_balance args = false ->
  1 <= batch_size args ->
  log_frequency args <> 0 ->
  let b := batch_size args in
  let m := Z.to_nat (len (snd (shuffle rng data)) / b) in
  exists r,
    train shuffle step d_targets model data rng args n_iter = Return r
    /\ tr_logged r
       = List.filter (fun v => (v / b) mod log_frequency args =? 0)
           (map (fun j : nat => n_iter + Z.of_nat j * b) (seq 1 m)).
Proof.
  intros Hcb Hb Hlf b m. unfold train. subst m.
  destruct (shuffle rng data) as [rng' shuffled]. cbn [fst snd].
  rewrite Hcb. cbn [mbind outcome_bind]. unfold py_floordiv.
  destruct (Z.eqb_spec (batch_size args) 0) as [|_]; [lia|].
  cbn [mbind outcome_bind].
  destruct (whole_batches_arith (len shuffled) b) as (Hq & Hle & Hmod);
    [lia | unfold len; lia |].
  rewrite py_range_whole by (fold b; lia).
  cbn [mbind outcome_bind].
  destruct (train_loop_schedule args shuffled ltac:(lia) Hlf
              (Z.to_nat (len shuffled / b)) 0%nat
              {| ts_model := model; ts_n_iter := n_iter;
                 ts_batches := []; ts_logged := [] |}) as (st' & Hrun & Hlog).
  { fold b. lia. }
  fold b in Hrun |- *. rewrite Hrun. cbn [mbind outcome_bind].
  eexists. split; [reflexivity|]. cbn [tr_logged]. rewrite Hlog. done.
Qed.
End TrainEdges.

Lemma train_batch_size_zero_witness :
  let args := with_batches 0 10 sample_args in
  let shuffle := fun (r : unit) (l : list nat) => (r, rev l) in
  let step := fun (m : nat) (batch : list nat) => (m + length batch)%nat in
  let no_targets := fun _ : nat => @nil (option Q) in
  batch_size args = 0
  /\ train shuffle step no_targets 0%nat [1; 2; 3]%nat () args 0
     = Raise ZeroDivisionError.
Proof.
  intros args shuffle step no_targets. split; [reflexivity|].
  apply (train_batch_size_zero shuffle step no_targets args 0%nat
           [1; 2; 3]%nat () 0); reflexivity.
Defined.

Lemma train_nothing_to_train_witness :
  let args := with_batches 4 0 sample_args in
  let shuffle := fun (r : unit) (l : list nat) => (r, rev l) in
  let step := fun (m : nat) (batch : list nat) => (m + length batch)%nat in
  let no_targets := fun _ : nat => @nil (option Q) in
  class_balance args = false
  /\ len (snd (shuffle () [1; 2; 3]%nat)) < batch_size args
  /\ train shuffle step no_targets 0%nat [1; 2; 3]%nat () args 7
     = Return {| tr_model := 0%nat; tr_n_iter := 7;
                 tr_data := [3; 2; 1]%nat; tr_rng := ();
                 tr_batches := []; tr_logged := [] |}.
Proof.
  intros args shuffle step no_targets.
  split; [reflexivity|]. split; [vm_compute; reflexivity|].
  apply (train_nothing_to_train shuffle step no_targets args 0%nat
           [1; 2; 3]%nat () 7); [reflexivity|].
  right. vm_compute. reflexivity.
Defined.

(** Seven examples in batches of two, a line every second batch. *)
Lemma train_logging_schedule_witness :
  let args := with_batches 2 2 sample_args in
  let shuffle := fun (r : unit) (l : list nat) => (r, rev l) in
  let step := fun (m : nat) (batch : list nat) => (m + length batch)%nat in
  let no_targets := fun _ : nat => @nil (option Q) in
  class_balance args = false
  /\ 1 <= batch_size args
  /\ log_frequency args <> 0
  /\ exists r,
       train shuffle step no_targets 0%nat [1; 2; 3; 4; 5; 6; 7]%nat () args 0
       = Return r
       /\ tr_logged r = [4].
Proof.
  intros args shuffle step no_targets.
  split; [reflexivity|]. split; [vm_compute; discriminate|].
  split; [vm_compute; discriminate|].
  destruct (train_logging_schedule shuffle step no_targets args 0%nat
              [1; 2; 3; 4; 5; 6; 7]%nat () 0) as (r & Hr & Hlog);
    [reflexivity | vm_compute; discriminate | vm_compute; discriminate |].
  exists r. split; [exact Hr|]. rewrite Hlog. vm_compute. reflexivity.
Defined.

(** ** train.py: class balancing (lines 49-74) *)

Lemma filter_by_none {A} (p : A -> outcome bool) (l : list A) :
  Forall (fun a => p a = Return false) l -> filter_by p l = Return [].
Proof.
  induction 1 as [|a l Ha _ IH]; [done|].
  cbn [filter_by]. by rewrite Ha, IH.
Qed.

Lemma filter_by_returns {A} (p : A -> outcome bool) (l : list A) :
  Forall (fun a => exists b, p a = Return b) l ->
  exists out, filter_by p l = Return out.
Proof.
  induction 1 as [|a l [b Ha] _ [out IH]]; [by exists []|].
  cbn [filter_by]. rewrite Ha, IH. by eexists.
Qed.

Section BalanceLoop.
Context {D : Type}.
Variables (pos neg : list D) (iter_size pos_size : Z).

(** What the loop adds does not depend on what was collected before. *)
Lemma balance_loop_acc (fuel : nat) : forall pi ni (nd : list D),
  balance_loop fuel pos neg iter_size pos_size pi ni nd
  = nd ++ balance_loop fuel pos neg iter_size pos_size pi ni [].
Proof.
  induction fuel as [|fuel IH]; intros pi ni nd; cbn [balance_loop].
  - by rewrite app_nil_r.
  - destruct (_ || _); [by rewrite app_nil_r|].
    rewrite IH. rewrite (IH _ _ ([] ++ _)). cbn [app].
    by rewrite <- !app_assoc.
Qed.

(** Every pass that does not break moves [neg_index] forward, so the loop
    has ended before the fuel is used up. *)
Lemma balance_loop_fuel : forall (fuel1 fuel2 : nat) pi ni (nd : list D),
  0 <= ni ->
  (Z.to_nat (len neg - ni) < fuel1)%nat ->
  (Z.to_nat (len neg - ni) < fuel2)%nat ->
  balance_loop fuel1 pos neg iter_size pos_size pi ni nd
  = balance_loop fuel2 pos neg iter_size pos_size pi ni nd.
Proof.
  induction fuel1 as [|f1 IH]; intros fuel2 pi ni nd Hni H1 H2; [lia|].
  destruct fuel2 as [|f2]; [lia|]. cbn [balance_loop].
  destruct (len (py_slice pos pi (pi + pos_size)) =? 0); [done|].
  cbn [orb].
  destruct (Z.eqb_spec
              (len (py_slice neg ni
                      (ni + iter_size - len (py_slice pos pi (pi + pos_size)))))
              0) as [|Hn]; [done|].
  destruct (py_slice_nonempty _ _ _ Hni Hn) as (Hlt & Hone & Hle).
  apply IH; lia.
Qed.

(** The loop only ever takes the next positives and the next negatives. *)
Lemma balance_loop_prefixes : forall (fuel : nat) pi ni (nd : list D),
  0 <= pi <= len pos -> 0 <= ni <= len neg ->
  Permutation nd (take (Z.to_nat pi) pos ++ take (Z.to_nat ni) neg) ->
  exists p q : nat,
    Permutation (balance_loop fuel pos neg iter_size pos_size pi ni nd)
                (take p pos ++ take q neg).
Proof.
  induction fuel as [|fuel IH]; intros pi ni nd Hpi Hni Hperm;
    cbn [balance_loop].
  - by eexists _, _.
  - destruct (_ || _); [by eexists _, _|].
    match goal with
    | |- context [py_slice neg ni ?j] =>
        destruct (py_slice_prefix neg ni j Hni) as (Hnle & Hntake);
        set (nn := py_slice neg ni j) in *
    end.
    match goal with
    | |- context [if ?c then ?a else ?b] =>
        assert (Hnp : exists j, (if c then a else b) = py_slice pos pi j)
          by (destruct c; by eexists);
        set (np := if c then a else b) in *
    end.
    destruct Hnp as (j & Hnp).
    destruct (py_slice_prefix pos pi j Hpi) as (Hple & Hptake).
    rewrite <- Hnp in Hple, Hptake.
    apply IH.
    + unfold len in *. lia.
    + unfold len in *. lia.
    + rewrite Hptake, Hntake, Hperm, <- !app_assoc.
      apply Permutation_app_head. rewrite !app_assoc.
      apply Permutation_app_tail, Permutation_app_comm.
Qed.

(** With [ps] positives and [ns] negatives to a batch, the loop produces a
    full block for as long as both lists last. *)
Lemma balance_loop_blocks (ns : Z) :
  1 <= pos_size -> 1 <= ns -> pos_size + ns = iter_size ->
  forall (m j fuel : nat) (nd : list D),
    Z.of_nat (j + m) * pos_size <= len pos ->
    Z.of_nat (j + m) * ns <= len neg ->
    (m <= fuel)%nat ->
    exists rest,
      balance_loop fuel pos neg iter_size pos_size
        (Z.of_nat j * pos_size) (Z.of_nat j * ns) nd
      = nd ++ concat (map (fun k : nat =>
                             py_slice pos (Z.of_nat k * pos_size)
                               (Z.of_nat k * pos_size + pos_size)
                             ++ py_slice neg (Z.of_nat k * ns)
                                  (Z.of_nat k * ns + ns))
                          (seq j m)) ++ rest.
Proof.
  intros Hps Hns Hsum. induction m as [|m IH]; intros j fuel nd Hp Hn Hfuel.
  - eexists. cbn [seq map concat app]. apply balance_loop_acc.
  - destruct fuel as [|fuel]; [lia|]. cbn [balance_loop].
    assert (Hlp : len (py_slice pos (Z.of_nat j * pos_size)
                         (Z.of_nat j * pos_size + pos_size)) = pos_size).
    { apply py_slice_length; nia. }
    rewrite Hlp.
    replace (Z.of_nat j * ns + iter_size - pos_size)
      with (Z.of_nat j * ns + ns) by lia.
    assert (Hln : len (py_slice neg (Z.of_nat j * ns) (Z.of_nat j * ns + ns))
                  = ns).
    { apply py_slice_length; nia. }
    rewrite Hln.
    destruct (Z.eqb_spec pos_size 0) as [|_]; [lia|].
    destruct (Z.eqb_spec ns 0) as [|_]; [lia|]. cbn [orb].
    destruct (Z.ltb_spec (pos_size + ns) iter_size) as [|_]; [lia|].
    rewrite Hlp.
    replace (Z.of_nat j * pos_size + pos_size)
      with (Z.of_nat (S j) * pos_size) by lia.
    replace (Z.of_nat j * ns + ns) with (Z.of_nat (S j) * ns) by lia.
    destruct (IH (S j) fuel
                (nd ++ py_slice pos (Z.of_nat j * pos_size)
                         (Z.of_nat (S j) * pos_size)
                    ++ py_slice neg (Z.of_nat j * ns) (Z.of_nat (S j) * ns)))
      as (rest & Hrest); [lia.. |].
    exists rest. rewrite Hrest. cbn [seq map concat].
    replace (Z.of_nat j * pos_size + pos_size)
      with (Z.of_nat (S j) * pos_size) by lia.
    replace (Z.of_nat j * ns + ns) with (Z.of_nat (S j) * ns) by lia.
    by rewrite <- !app_assoc.
Qed.
End BalanceLoop.

(** X11: the [while True] loop of the class balancing always ends: it
    breaks within [len(neg) + 1] passes, whatever the batch size, so more
    passes than that change nothing. *)
Theorem balance_loop_terminates {D} (pos neg : list D)
    (iter_size pos_size : Z) (fuel : nat) :
  (length neg < fuel)%nat ->
  balance_loop fuel pos neg iter_size pos_size 0 0 []
  = balance_loop (S (length neg)) pos neg iter_size pos_size 0 0 [].
Proof.
  intros Hfuel. apply balance_loop_fuel; unfold len; lia.
Qed.

Lemma balance_loop_terminates_witness :
  (length [2; 4; 6]%nat < 10)%nat
  /\ balance_loop 10 [1; 3]%nat [2; 4; 6]%nat 2 1 0 0 []
     = balance_loop 4 [1; 3]%nat [2; 4; 6]%nat 2 1 0 0 [].
Proof.
  split; [simpl; lia|].
  apply (balance_loop_terminates [1; 3]%nat [2; 4; 6]%nat 2 1 10).
  simpl; lia.
Defined.

Section ClassBalance.
Context {D M Rng : Type}.
Variable shuffle : Rng -> list D -> Rng * list D.
Variable step : M -> list D -> M.
Variable d_targets : D -> list (option Q).

Lemma first_target_is_returns (v : Q) (data : list D) :
  Forall (fun d => d_targets d <> []) data ->
  Forall (fun d => exists b, first_target_is d_targets v d = Return b) data.
Proof.
  intros Hall. eapply Forall_impl; [exact Hall|]. intros d Hd.
  cbv beta in Hd. unfold first_target_is.
  destruct (d_targets d) as [|[t|] ts]; [congruence | by eexists..].
Qed.

(** X12: the balanced data never repeats an example and never reorders a
    class: it holds, up to the interleaving, the first [p] positives and the
    first [q] negatives of the shuffled data, the rest being left out. *)
Theorem class_balanced_prefixes (iter_size : Z) (data : list D) :
  (exists d0 rest, data = d0 :: rest /\ length (d_targets d0) = 1%nat) ->
  Forall (fun d => d_targets d <> []) data ->
  exists out pos neg (p q : nat),
    class_balanced d_targets iter_size data = Return out
    /\ filter_by (first_target_is d_targets 1) data = Return pos
    /\ filter_by (first_target_is d_targets 0) data = Return neg
    /\ Permutation out (take p pos ++ take q neg).
Proof.
  intros (d0 & rest & -> & Hone) Hall.
  destruct (filter_by_returns _ _ (first_target_is_returns 1 _ Hall))
    as (pos & Hpos).
  destruct (filter_by_returns _ _ (first_target_is_returns 0 _ Hall))
    as (neg & Hneg).
  destruct (balance_loop_prefixes pos neg iter_size (iter_size / 2)
              (S (length neg)) 0 0 []) as (p & q & Hperm);
    [unfold len; lia | unfold len; lia | done |].
  eexists _, pos, neg, p, q. unfold class_balanced.
  rewrite Hone, Hpos, Hneg. cbn [Nat.eqb mbind outcome_bind].
  split; [reflexivity|]. split; [done|]. split; [done|]. exact Hperm.
Qed.

(** X13: class balancing needs both classes and room for both in a batch.
    With a batch size of 1, or with no positive example, or with no negative
    example, the balanced data are empty and [train] returns without having
    trained on anything. *)
Theorem class_balance_needs_both_classes (args : Args) (model : M)
    (data : list D) (rng : Rng) (n_iter : Z) :
  class_balance args = true ->
  batch_size args <> 0 ->
  let shuffled := snd (shuffle rng data) in
  (exists d0 rest, shuffled = d0 :: rest /\ length (d_targets d0) = 1%nat) ->
  Forall (fun d => d_targets d <> []) shuffled ->
  batch_size args = 1
  \/ Forall (fun d => first_target_is d_targets 1 d = Return false) shuffled
  \/ Forall (fun d => first_target_is d_targets 0 d = Return false) shuffled ->
  class_balanced d_targets (batch_size args) shuffled = Return []
  /\ train shuffle step d_targets model data rng args n_iter
     = Return {| tr_model := model; tr_n_iter := n_iter;
                 tr_data := shuffled; tr_rng := fst (shuffle rng data);
                 tr_batches := []; tr_logged := [] |}.
Proof.
  intros Hcb Hnz shuffled Hfirst Hall Hcase. subst shuffled.
  unfold train. destruct (shuffle rng data) as [rng' shuffled].
  cbn [fst snd] in *. rewrite Hcb.
  assert (Hbal : class_balanced d_targets (batch_size args) shuffled
                 = Return []).
  { destruct Hfirst as (d0 & rest & -> & Hone).
    destruct (filter_by_returns _ _ (first_target_is_returns 1 _ Hall))
      as (pos & Hpos).
    destruct (filter_by_returns _ _ (first_target_is_returns 0 _ Hall))
      as (neg & Hneg).
    unfold class_balanced. rewrite Hone, Hpos, Hneg.
    cbn [Nat.eqb mbind outcome_bind balance_loop]. f_equal.
    destruct Hcase as [Hb|[Hnopos|Hnoneg]].
    - rewrite Hb. change (1 / 2) with 0.
      change (0 + 0) with 0. by rewrite py_slice_same.
    - rewrite (filter_by_none _ _ Hnopos) in Hpos. injection Hpos as <-.
      by rewrite py_slice_nil.
    - rewrite (filter_by_none _ _ Hnoneg) in Hneg. injection Hneg as <-.
      rewrite py_slice_nil. cbn [len length Z.of_nat Z.eqb].
      by rewrite orb_true_r. }
  split; [exact Hbal|]. rewrite Hbal. cbn [mbind outcome_bind].
  unfold py_floordiv.
  destruct (Z.eqb_spec (batch_size args) 0) as [|_]; [done|].
  cbn [mbind outcome_bind len length Z.of_nat]. rewrite Z.div_0_l by done.
  unfold py_range.
  destruct (Z.eqb_spec (batch_size args) 0) as [|_]; [done|].
  unfold range_len. cbn [Z.mul Z.ltb Z.compare].
  destruct (0 <? batch_size args); reflexivity.
Qed.

(** X14: what the balancing is for.  With a batch size [b >= 2], as long as
    [m] batches' worth of both classes are there, the balanced data begin
    with [m] blocks of [b] examples, each made of the next [b // 2]
    positives followed by the next [b - b // 2] negatives. *)
Theorem class_balanced_blocks (b : Z) (data pos neg : list D) (m : nat) :
  let ps := b / 2 in
  let ns := b - b / 2 in
  2 <= b ->
  (exists d0 rest, data = d0 :: rest /\ length (d_targets d0) = 1%nat) ->
  filter_by (first_target_is d_targets 1) data = Return pos ->
  filter_by (first_target_is d_targets 0) data = Return neg ->
  Z.of_nat m * ps <= len pos ->
  Z.of_nat m * ns <= len neg ->
  (exists rest,
     class_balanced d_targets b data
     = Return (concat (map (fun k : nat =>
                              py_slice pos (Z.of_nat k * ps)
                                (Z.of_nat k * ps + ps)
                              ++ py_slice neg (Z.of_nat k * ns)
                                   (Z.of_nat k * ns + ns))
                           (seq 0 m)) ++ rest))
  /\ forall k : nat, (k < m)%nat ->
       len (py_slice pos (Z.of_nat k * ps) (Z.of_nat k * ps + ps)) = ps
       /\ len (py_slice neg (Z.of_nat k * ns) (Z.of_nat k * ns + ns)) = ns.
Proof.
  intros ps ns Hb (d0 & rest0 & -> & Hone) Hpos Hneg Hmp Hmn.
  assert (Hps : 1 <= ps).
  { subst ps. apply Z.div_le_lower_bound; lia. }
  assert (Hns : 1 <= ns).
  { subst ns. pose proof (Z.mul_div_le b 2 ltac:(lia)). lia. }
  split.
  - destruct (balance_loop_blocks pos neg b ps ns Hps Hns ltac:(lia)
                m 0 (S (length neg)) []) as (rest & Hrest).
    + exact Hmp.
    + exact Hmn.
    + unfold len in Hmn. nia.
    + exists rest. unfold class_balanced.
      rewrite Hone, Hpos, Hneg. cbn [Nat.eqb mbind outcome_bind].
      f_equal. exact Hrest.
  - intros k Hk. split; apply py_slice_length; nia.
Qed.

(** X15: with class balancing, [train] cuts its batches out of the balanced
    data: it trains on the whole batches at their front and counts those
    examples, while the dataset itself keeps the shuffled order. *)
Theorem train_class_balanced (args : Args) (model : M) (data out : list D)
    (rng : Rng) (n_iter : Z) :
  class_balance args = true ->
  1 <= batch_size args ->
  log_frequency args <> 0 ->
  class_balanced d_targets (batch_size args) (snd (shuffle rng data))
  = Return out ->
  let b := batch_size args in
  exists r,
    train shuffle step d_targets model data rng args n_iter = Return r
    /\ tr_data r = snd (shuffle rng data)
    /\ concat (tr_batches r) = take (Z.to_nat (len out / b * b)) out
    /\ Forall (fun batch => len batch = b) (tr_batches r)
    /\ tr_model r = fold_left step (tr_batches r) model
    /\ tr_n_iter r = n_iter + len out / b * b.
Proof.
  intros Hcb Hb Hlf Hbal b. unfold train.
  destruct (shuffle rng data) as [rng' shuffled]. cbn [fst snd] in *.
  rewrite Hcb, Hbal. cbn [mbind outcome_bind]. unfold py_floordiv.
  destruct (Z.eqb_spec (batch_size args) 0) as [|_]; [lia|].
  cbn [mbind outcome_bind].
  destruct (whole_batches_arith (len out) b) as (Hq & Hle & Hmod);
    [lia | unfold len; lia |].
  rewrite py_range_whole by (fold b; lia).
  cbn [mbind outcome_bind].
  destruct (train_loop_whole step args out ltac:(lia) Hlf
              (Z.to_nat (len out / b)) 0%nat
              {| ts_model := model; ts_n_iter := n_iter;
                 ts_batches := []; ts_logged := [] |}) as [lg Hlg].
  { fold b. lia. }
  fold b in Hlg |- *. rewrite Hlg. cbn [mbind outcome_bind].
  eexists. split; [reflexivity|].
  cbn [tr_data tr_batches tr_model tr_n_iter ts_model ts_n_iter
       ts_batches app].
  repeat split.
  - rewrite concat_slices by lia. f_equal. lia.
  - apply Forall_forall. intros batch Hin.
    apply list_elem_of_In, in_map_iff in Hin as (k & <- & Hk).
    apply in_seq in Hk. apply py_slice_length; nia.
  - f_equal. lia.
Qed.
End ClassBalance.

(** Six examples, the odd ones positive, in batches of two. *)
Lemma class_balanced_prefixes_witness :
  (exists d0 rest, [1; 2; 3; 4; 5; 6]%nat = d0 :: rest
                   /\ length (parity_targets d0) = 1%nat)
  /\ Forall (fun d => parity_targets d <> []) [1; 2; 3; 4; 5; 6]%nat
  /\ exists out pos neg (p q : nat),
       class_balanced parity_targets 2 [1; 2; 3; 4; 5; 6]%nat = Return out
       /\ filter_by (first_target_is parity_targets 1) [1; 2; 3; 4; 5; 6]%nat
          = Return pos
       /\ filter_by (first_target_is parity_targets 0) [1; 2; 3; 4; 5; 6]%nat
          = Return neg
       /\ Permutation out (take p pos ++ take q neg).
Proof.
  assert (H1 : exists d0 rest, [1; 2; 3; 4; 5; 6]%nat = d0 :: rest
                               /\ length (parity_targets d0) = 1%nat)
    by (by eexists _, _).
  assert (H2 : Forall (fun d => parity_targets d <> [])
                 [1; 2; 3; 4; 5; 6]%nat)
    by (repeat constructor; discriminate).
  split; [exact H1|]. split; [exact H2|].
  exact (class_balanced_prefixes parity_targets 2 [1; 2; 3; 4; 5; 6]%nat
           H1 H2).
Defined.

(** Only negatives: nothing is trained on. *)
Lemma class_balance_needs_both_classes_witness :
  let args := with_class_balance true sample_args in
  let shuffle := fun (r : unit) (l : list nat) => (r, rev l) in
  let step := fun (m : nat) (batch : list nat) => (m + length batch)%nat in
  class_balance args = true
  /\ batch_size args <> 0
  /\ (exists d0 rest, snd (shuffle () [2; 4; 6]%nat) = d0 :: rest
                      /\ length (parity_targets d0) = 1%nat)
  /\ Forall (fun d => parity_targets d <> []) (snd (shuffle () [2; 4; 6]%nat))
  /\ Forall (fun d => first_target_is parity_targets 1 d = Return false)
       (snd (shuffle () [2; 4; 6]%nat))
  /\ train shuffle step parity_targets 0%nat [2; 4; 6]%nat () args 5
     = Return {| tr_model := 0%nat; tr_n_iter := 5;
                 tr_data := [6; 4; 2]%nat; tr_rng := ();
                 tr_batches := []; tr_logged := [] |}.
Proof.
  intros args shuffle step.
  assert (H0 : batch_size args <> 0) by (vm_compute; discriminate).
  assert (H1 : exists d0 rest, snd (shuffle () [2; 4; 6]%nat) = d0 :: rest
                               /\ length (parity_targets d0) = 1%nat)
    by (by eexists _, _).
  assert (H2 : Forall (fun d => parity_targets d <> [])
                 (snd (shuffle () [2; 4; 6]%nat)))
    by (repeat constructor; discriminate).
  assert (H3 : Forall (fun d => first_target_is parity_targets 1 d
                                = Return false)
                 (snd (shuffle () [2; 4; 6]%nat)))
    by (repeat constructor).
  split; [reflexivity|]. split; [exact H0|]. split; [exact H1|].
  split; [exact H2|]. split; [exact H3|].
  apply (class_balance_needs_both_classes shuffle step parity_targets args
           0%nat [2; 4; 6]%nat () 5 eq_refl H0 H1 H2
           (or_intror (or_introl H3))).
Defined.

Lemma class_balanced_blocks_witness :
  2 <= 2
  /\ (exists d0 rest, [1; 2; 3; 4; 5; 6; 8]%nat = d0 :: rest
                      /\ length (parity_targets d0) = 1%nat)
  /\ filter_by (first_target_is parity_targets 1) [1; 2; 3; 4; 5; 6; 8]%nat
     = Return [1; 3; 5]%nat
  /\ filter_by (first_target_is parity_targets 0) [1; 2; 3; 4; 5; 6; 8]%nat
     = Return [2; 4; 6; 8]%nat
  /\ Z.of_nat 3 * (2 / 2) <= len [1; 3; 5]%nat
  /\ Z.of_nat 3 * (2 - 2 / 2) <= len [2; 4; 6; 8]%nat
  /\ exists rest,
       class_balanced parity_targets 2 [1; 2; 3; 4; 5; 6; 8]%nat
       = Return ([1; 2; 3; 4; 5; 6]%nat ++ rest).
Proof.
  assert (H1 : exists d0 rest, [1; 2; 3; 4; 5; 6; 8]%nat = d0 :: rest
                               /\ length (parity_targets d0) = 1%nat)
    by (by eexists _, _).
  assert (Hp : Z.of_nat 3 * (2 / 2) <= len [1; 3; 5]%nat)
    by (vm_compute; discriminate).
  assert (Hn : Z.of_nat 3 * (2 - 2 / 2) <= len [2; 4; 6; 8]%nat)
    by (vm_compute; discriminate).
  split; [lia|]. split; [exact H1|]. split; [reflexivity|].
  split; [reflexivity|]. split; [exact Hp|]. split; [exact Hn|].
  destruct (class_balanced_blocks parity_targets 2
              [1; 2; 3; 4; 5; 6; 8]%nat [1; 3; 5]%nat [2; 4; 6; 8]%nat 3
              ltac:(lia) H1 eq_refl eq_refl Hp Hn) as [(rest & Hrest) _].
  exists rest. exact Hrest.
Defined.

Lemma train_class_balanced_witness :
  let args := with_class_balance true sample_args in
  let shuffle := fun (r : unit) (l : list nat) => (r, l) in
  let step := fun (m : nat) (batch : list nat) => (m + length batch)%nat in
  class_balance args = true
  /\ 1 <= batch_size args
  /\ log_frequency args <> 0
  /\ class_balanced parity_targets (batch_size args)
       (snd (shuffle () [1; 2; 4; 6; 8]%nat)) = Return [1; 2]%nat
  /\ exists r,
       train shuffle step parity_targets 0%nat [1; 2; 4; 6; 8]%nat () args 0
       = Return r
       /\ tr_data r = [1; 2; 4; 6; 8]%nat
       /\ concat (tr_batches r) = [1; 2]%nat
       /\ tr_n_iter r = 2.
Proof.
  intros args shuffle step.
  assert (Hb : 1 <= batch_size args) by (vm_compute; discriminate).
  assert (Hlf : log_frequency args <> 0) by (vm_compute; discriminate).
  assert (Hbal : class_balanced parity_targets (batch_size args)
                   (snd (shuffle () [1; 2; 4; 6; 8]%nat)) = Return [1; 2]%nat)
    by reflexivity.
  split; [reflexivity|]. split; [exact Hb|]. split; [exact Hlf|].
  split; [exact Hbal|].
  destruct (train_class_balanced shuffle step parity_targets args 0%nat
              [1; 2; 4; 6; 8]%nat [1; 2]%nat () 0 eq_refl Hb Hlf Hbal)
    as (r & Hr & Hdata & Hcat & _ & _ & Hiter).
  exists r. split; [exact Hr|]. split; [exact Hdata|].
  split; [exact Hcat|]. exact Hiter.
Defined.

(** ** run_training.py: what the loops keep *)

(** Whatever else happens, [train] leaves the dataset in the order its
    shuffle gave it. *)
Lemma train_inv {D M Rng} (shuffle : Rng -> list D -> Rng * list D)
    (step : M -> list D -> M) (d_targets : D -> list (option Q))
    (model : M) (data : list D) (rng : Rng) (args : Args) (n_iter : Z)
    (r : train_result) :
  train shuffle step d_targets model data rng args n_iter = Return r ->
  tr_data r = snd (shuffle rng data) /\ tr_rng r = fst (shuffle rng data).
Proof.
  unfold train. destruct (shuffle rng data) as [rng' shuffled].
  destruct (if class_balance args then _ else _) as [d'|]; [|discriminate].
  cbn [mbind outcome_bind].
  destruct (py_floordiv _ _); [|discriminate]. cbn [mbind outcome_bind].
  destruct (py_range _ _ _); [|discriminate]. cbn [mbind outcome_bind].
  destruct (train_loop _ _ _ _ _); [|discriminate]. cbn [mbind outcome_bind].
  by intros [= <-].
Qed.

Section LoopFrames.
Context (E : Env).
Variables (args : Args) (h : list Datapoint) (val_data test_data : list nat).
Variables (scaler : option StandardScaler).

Lemma epoch_step_frame (model_idx epoch : nat) (st st' : epoch_state E) :
  epoch_step E args h val_data scaler model_idx epoch st = Return st' ->
  es_train_data E st'
  = snd (data_shuffle E (es_rng E st) (es_train_data E st))
  /\ forall j, j <> model_idx -> es_store E st' !! j = es_store E st !! j.
Proof.
  intros Hstep.
  destruct (epoch_step_tracks E args h val_data scaler model_idx epoch st st'
              Hstep) as (_ & _ & Hstore).
  split.
  - unfold epoch_step in Hstep.
    destruct (train _ _ _ _ _ _ _ _) as [r|err] eqn:Hr; [|discriminate].
    cbn [mbind outcome_bind] in Hstep. injection Hstep as <-.
    cbn [es_train_data]. by apply train_inv in Hr as [-> _].
  - intros j Hj. rewrite Hstore. destruct (better _ _ _); [|done].
    by rewrite lookup_insert_ne.
Qed.

(** An epoch loop writes no checkpoint file but its member's. *)
Lemma epoch_loop_store_frame (model_idx j : nat) :
  j <> model_idx ->
  forall (todo : list nat) (st st' : epoch_state E),
    epoch_loop E args h val_data scaler model_idx todo st = Return st' ->
    es_store E st' !! j = es_store E st !! j.
Proof.
  intros Hj todo. induction todo as [|e todo IH]; intros st st' Hloop.
  - by injection Hloop as <-.
  - cbn [epoch_loop] in Hloop.
    destruct (epoch_step E args h val_data scaler model_idx e st)
      as [st1|err] eqn:Hstep; [|discriminate].
    cbn [mbind outcome_bind] in Hloop. rewrite (IH st1 st' Hloop).
    by apply (epoch_step_frame _ _ _ _ Hstep).
Qed.

(** An epoch loop only reorders the training set. *)
Lemma epoch_loop_frame (model_idx : nat) :
  shuffle_permutes E ->
  forall (todo : list nat) (st st' : epoch_state E),
    epoch_loop E args h val_data scaler model_idx todo st = Return st' ->
    Permutation (es_train_data E st) (es_train_data E st').
Proof.
  intros Hsh todo. induction todo as [|e todo IH]; intros st st' Hloop.
  - by injection Hloop as <-.
  - cbn [epoch_loop] in Hloop.
    destruct (epoch_step E args h val_data scaler model_idx e st)
      as [st1|err] eqn:Hstep; [|discriminate].
    cbn [mbind outcome_bind] in Hloop.
    destruct (epoch_step_frame _ _ _ _ Hstep) as (Hdata & _).
    rewrite <- (IH st1 st' Hloop), Hdata. apply Hsh.
Qed.

(** Each epoch adds the examples of its whole batches to [n_iter]. *)
Lemma epoch_loop_n_iter (model_idx : nat) :
  shuffle_permutes E ->
  class_balance args = false -> 1 <= batch_size args ->
  log_frequency args <> 0 ->
  forall (todo : list nat) (st st' : epoch_state E),
    epoch_loop E args h val_data scaler model_idx todo st = Return st' ->
    es_n_iter E st'
    = es_n_iter E st
      + len todo * (len (es_train_data E st) / batch_size args
                    * batch_size args).
Proof.
  intros Hsh Hcb Hb Hlf todo.
  induction todo as [|e todo IH]; intros st st' Hloop.
  - injection Hloop as <-. unfold len. simpl. lia.
  - cbn [epoch_loop] in Hloop.
    destruct (epoch_step E args h val_data scaler model_idx e st)
      as [st1|err] eqn:Hstep; [|discriminate].
    cbn [mbind outcome_bind] in Hloop.
    destruct (epoch_step_frame _ _ _ _ Hstep) as (Hdata & _).
    rewrite (IH st1 st' Hloop).
    assert (Hlen : len (es_train_data E st1) = len (es_train_data E st)).
    { unfold len. rewrite Hdata.
      by rewrite <- (Permutation_length (Hsh (es_rng E st)
                                           (es_train_data E st))). }
    rewrite Hlen.
    assert (Hn : es_n_iter E st1
                 = es_n_iter E st + len (es_train_data E st) / batch_size args
                                    * batch_size args).
    { unfold epoch_step in Hstep.
      destruct (train_returns (data_shuffle E)
                  (fun m batch => sgd_step E m (deref h batch))
                  (fun r => targets (h !!! r)) args
                  (es_model E st, es_optim E st) (es_train_data E st)
                  (es_rng E st) (es_n_iter E st) Hcb Hb Hlf)
        as (r & Hr & _ & _ & _ & _ & _ & _ & Hiter).
      rewrite Hr in Hstep. cbn [mbind outcome_bind] in Hstep.
      injection Hstep as <-. cbn [es_n_iter]. rewrite Hiter.
      unfold len.
      by rewrite <- (Permutation_length (Hsh (es_rng E st)
                                           (es_train_data E st))). }
    rewrite Hn. unfold len. cbn [length]. lia.
Qed.

Lemma ensemble_loop_app (l1 l2 : list nat) (st : run_state E) :
  ensemble_loop E args h val_data test_data scaler (l1 ++ l2) st
  = (st' ← ensemble_loop E args h val_data test_data scaler l1 st;
     ensemble_loop E args h val_data test_data scaler l2 st').
Proof.
  revert st. induction l1 as [|k l1 IH]; intros st; [done|].
  cbn [app ensemble_loop].
  destruct (run_member E args h val_data test_data scaler k st) as [st'|err];
    cbn [mbind outcome_bind]; [apply IH | done].
Qed.

(** The training set is the same set of datapoints for every member, and
    each member counts its own iterations from 0. *)
Lemma ensemble_loop_members (train0 : list nat) :
  shuffle_permutes E ->
  forall (todo : list nat) (st st' : run_state E),
    ensemble_loop E args h val_data test_data scaler todo st = Return st' ->
    Permutation train0 (rs_train_data E st) ->
    Forall (fun ep => Permutation train0 (es_train_data E ep))
      (rs_members E st) ->
    Permutation train0 (rs_train_data E st')
    /\ Forall (fun ep => Permutation train0 (es_train_data E ep))
         (rs_members E st')
    /\ length (rs_members E st') = (length (rs_members E st) + length todo)%nat.
Proof.
  intros Hsh todo. induction todo as [|k todo IH]; intros st st' Hloop Hp Hall.
  - injection Hloop as <-. split; [done|]. split; [done|]. simpl. lia.
  - cbn [ensemble_loop] in Hloop.
    destruct (run_member E args h val_data test_data scaler k st)
      as [st1|err] eqn:Hrun; [|discriminate].
    cbn [mbind outcome_bind] in Hloop.
    destruct (run_member_inv E args h val_data test_data scaler k st st1 Hrun)
      as (rng1 & m0 & ep & ck & _ & Hep & _ & Heff).
    destruct Heff as (_ & Hmem & _ & _ & _ & Hdata & _).
    pose proof (epoch_loop_frame k Hsh _ _ _ Hep) as Hperm.
    cbn [member_start es_train_data] in Hperm.
    assert (Hp1 : Permutation train0 (es_train_data E ep))
      by (by rewrite <- Hperm).
    destruct (IH st1 st' Hloop) as (H1 & H2 & H3).
    + by rewrite Hdata.
    + rewrite Hmem. apply Forall_app. split; [done|]. by constructor.
    + split; [done|]. split; [done|]. rewrite H3, Hmem, length_app.
      simpl. lia.
Qed.

Lemma ensemble_loop_iterations (train0 : list nat) :
  shuffle_permutes E ->
  class_balance args = false -> 1 <= batch_size args ->
  log_frequency args <> 0 ->
  let per_epoch := len train0 / batch_size args * batch_size args in
  forall (todo : list nat) (st st' : run_state E),
    ensemble_loop E args h val_data test_data scaler todo st = Return st' ->
    Permutation train0 (rs_train_data E st) ->
    Forall (fun ep => es_n_iter E ep = Z.of_nat (epochs args) * per_epoch)
      (rs_members E st) ->
    Forall (fun ep => es_n_iter E ep = Z.of_nat (epochs args) * per_epoch)
      (rs_members E st').
Proof.
  intros Hsh Hcb Hb Hlf per_epoch todo.
  induction todo as [|k todo IH]; intros st st' Hloop Hp Hall.
  - by injection Hloop as <-.
  - cbn [ensemble_loop] in Hloop.
    destruct (run_member E args h val_data test_data scaler k st)
      as [st1|err] eqn:Hrun; [|discriminate].
    cbn [mbind outcome_bind] in Hloop.
    destruct (run_member_inv E args h val_data test_data scaler k st st1 Hrun)
      as (rng1 & m0 & ep & ck & _ & Hep & _ & Heff).
    destruct Heff as (_ & Hmem & _ & _ & _ & Hdata & _).
    pose proof (epoch_loop_frame k Hsh _ _ _ Hep) as Hperm.
    pose proof (epoch_loop_n_iter k Hsh Hcb Hb Hlf _ _ _ Hep) as Hn.
    cbn [member_start es_train_data es_n_iter] in Hperm, Hn.
    apply (IH st1 st' Hloop).
    + by rewrite Hdata, <- Hperm.
    + rewrite Hmem. apply Forall_app. split; [done|]. constructor; [|done].
      rewrite Hn. unfold len. rewrite length_seq.
      subst per_epoch. unfold len. by rewrite (Permutation_length Hp).
Qed.

(** The checkpoint files and the models that were evaluated. *)
Lemma ensemble_loop_store (m : nat) :
  forall (k : nat) (st st' : run_state E),
    ensemble_loop E args h val_data test_data scaler (seq k m) st
    = Return st' ->
    length (rs_loaded E st) = k ->
    (forall j, rs_store E st !! j = rs_loaded E st !! j) ->
    length (rs_loaded E st') = (k + m)%nat
    /\ forall j, rs_store E st' !! j = rs_loaded E st' !! j.
Proof.
  induction m as [|m IH]; intros k st st' Hloop Hlen Hstore.
  - injection Hloop as <-. split; [lia | done].
  - cbn [seq ensemble_loop] in Hloop.
    destruct (run_member E args h val_data test_data scaler k st)
      as [st1|err] eqn:Hrun; [|discriminate].
    cbn [mbind outcome_bind] in Hloop.
    destruct (run_member_inv E args h val_data test_data scaler k st st1 Hrun)
      as (rng1 & m0 & ep & ck & _ & Hep & Hck & Heff).
    destruct Heff as (Hloaded & _ & _ & _ & Hst & _).
    destruct (IH (S k) st1 st' Hloop) as (Hlen' & Hstore').
    + rewrite Hloaded, length_app. simpl. lia.
    + intros j. rewrite Hst, Hloaded.
      destruct (decide (j = k)) as [->|Hne].
      * rewrite Hck. rewrite lookup_app_r by lia.
        by rewrite Hlen, Nat.sub_diag.
      * assert (Hframe : es_store E ep !! j = rs_store E st !! j).
        { rewrite (epoch_loop_store_frame k j Hne _ _ _ Hep).
          cbn [member_start es_store]. by rewrite lookup_insert_ne. }
        rewrite Hframe, Hstore.
        destruct (decide (j < k)%nat) as [Hlt|Hge].
        -- by rewrite lookup_app_l by lia.
        -- rewrite !lookup_ge_None_2; [done | | lia].
           rewrite length_app. simpl. lia.
    + split; [lia | exact Hstore'].
Qed.
End LoopFrames.

Lemma sample_env_shuffle_permutes : shuffle_permutes sample_env.
Proof. intros rng l. apply Permutation_rev. Qed.

Section RunFacts.
Context (E : Env).
Variable args : Args.

Let sp := load_and_split E args.
Let sc := scale_targets E args (sp_heap sp) (sp_train sp).
Let start (rng : Rng E) :=
  init_run E args (sc_heap sc) (sp_train sp) (sp_val sp) (sp_test sp) rng.

(** The parts of a completed run. *)
Lemma run_report_loop (rng : Rng E) (rep : run_report E) :
  run_training_report E args rng = Return rep ->
  ensemble_loop E args (sc_heap sc) (sp_val sp) (sp_test sp) (sc_scaler sc)
    (seq 0 (ensemble_size args)) (start rng)
  = Return (rep_state E rep)
  /\ ensemble_size args <> 0%nat
  /\ diagnostics E args (sc_heap sc) (sp_val sp) (sp_test sp) sc
       (rep_state E rep)
       (mat_div (rs_sum_test_preds E (rep_state E rep))
          (inject_Z (Z.of_nat (ensemble_size args))))
     = Return (rep_confidence E rep).
Proof.
  unfold run_training_report. fold sp. fold sc. fold (start rng).
  destruct (ensemble_loop _ _ _ _ _ _ _ _) as [st|err] eqn:Hloop;
    [|discriminate].
  cbn [mbind outcome_bind].
  destruct (Nat.eqb_spec (ensemble_size args) 0) as [|Hn]; [discriminate|].
  cbn [mbind outcome_bind].
  destruct (diagnostics _ _ _ _ _ _ _ _) as [xy|err] eqn:Hdiag;
    [|discriminate].
  cbn [mbind outcome_bind]. intros [= <-]. cbn [rep_state rep_confidence].
  by rewrite Hdiag.
Qed.

(** X16: training never changes which datapoints the training set holds.
    Every epoch of every member shuffles the one dataset in place; in a
    completed run each member ends with a reordering of the training split,
    and so does the run. *)
Theorem training_set_only_reordered (rng : Rng E) (rep : run_report E) :
  shuffle_permutes E ->
  run_training_report E args rng = Return rep ->
  Permutation (sp_train sp) (rs_train_data E (rep_state E rep))
  /\ length (rs_members E (rep_state E rep)) = ensemble_size args
  /\ Forall (fun ep => Permutation (sp_train sp) (es_train_data E ep))
       (rs_members E (rep_state E rep)).
Proof.
  intros Hsh Hrep. destruct (run_report_loop rng rep Hrep) as (Hloop & _).
  destruct (ensemble_loop_members E args _ _ _ _ (sp_train sp) Hsh _ _ _ Hloop)
    as (H1 & H2 & H3); [done | constructor |].
  split; [exact H1|]. split; [|exact H2].
  rewrite H3, length_seq. done.
Qed.

(** X17: each member counts its iterations from 0.  In a completed run
    without class balancing, a member that trained for [epochs] epochs on
    [n] training examples in batches of [b] ends with
    [n_iter = epochs * (n // b) * b]. *)
Theorem members_count_whole_batches (rng : Rng E) (rep : run_report E) :
  shuffle_permutes E ->
  class_balance args = false ->
  1 <= batch_size args ->
  log_frequency args <> 0 ->
  run_training_report E args rng = Return rep ->
  Forall (fun ep =>
            es_n_iter E ep
            = Z.of_nat (epochs args)
              * (len (sp_train sp) / batch_size args * batch_size args))
    (rs_members E (rep_state E rep)).
Proof.
  intros Hsh Hcb Hb Hlf Hrep.
  destruct (run_report_loop rng rep Hrep) as (Hloop & _).
  apply (ensemble_loop_iterations E args _ _ _ _ (sp_train sp) Hsh Hcb Hb Hlf
           _ _ _ Hloop); [done | constructor].
Qed.

(** X18: the checkpoint files a completed run leaves behind are exactly
    the models its members were evaluated with: file [k] holds the model
    member [k] reloaded, no later member overwrote it, and there is no
    other file. *)
Theorem checkpoints_hold_evaluated_models (rng : Rng E)
    (rep : run_report E) :
  run_training_report E args rng = Return rep ->
  length (rs_loaded E (rep_state E rep)) = ensemble_size args
  /\ forall k, rs_store E (rep_state E rep) !! k
               = rs_loaded E (rep_state E rep) !! k.
Proof.
  intros Hrep. destruct (run_report_loop rng rep Hrep) as (Hloop & _).
  apply (ensemble_loop_store E args _ _ _ _ _ 0 _ _ Hloop); [done|].
  intros j. cbn [start init_run rs_store rs_loaded]. by rewrite lookup_empty.
Qed.

(** X19: a list of checkpoints shorter than the ensemble stops the run.
    When [args.checkpoint_paths] lists [k] paths, with [1 <= k] and [k]
    below the ensemble size, and the first [k] members have been trained
    and evaluated, member [k] raises the [IndexError] of line 192. *)
Theorem run_training_missing_checkpoint_path (rng : Rng E)
    (paths : list string) (st : run_state E) :
  checkpoint_paths args = Some paths ->
  (1 <= length paths)%nat ->
  (length paths < ensemble_size args)%nat ->
  ensemble_loop E args (sc_heap sc) (sp_val sp) (sp_test sp) (sc_scaler sc)
    (seq 0 (length paths)) (start rng) = Return st ->
  run_training E args rng = Raise IndexError.
Proof.
  intros Hcp Hk Hlt Hloop.
  unfold run_training, run_training_report. fold sp. fold sc.
  fold (start rng).
  replace (ensemble_size args)
    with (length paths + S (ensemble_size args - S (length paths)))%nat
    at 1 by lia.
  rewrite seq_app, ensemble_loop_app, Hloop.
  cbn [mbind outcome_bind seq ensemble_loop Nat.add].
  unfold run_member, init_member. rewrite Hcp.
  by rewrite (lookup_ge_None_2 paths (length paths)) by lia.
Qed.

(** X22: which runs draw diagnostics.  A completed run has a pair [(x, y)]
    for the plots exactly when [args.confidence] is set and the dataset is
    a regression or a classification one; a multiclass run ignores the
    option. *)
Theorem confidence_diagnostics_scope (rng : Rng E) (rep : run_report E) :
  run_training_report E args rng = Return rep ->
  rep_confidence E rep = None
  <-> truthy (confidence args) = false \/ dataset_type args = Multiclass.
Proof.
  intros Hrep. destruct (run_report_loop rng rep Hrep) as (_ & _ & Hdiag).
  unfold diagnostics in Hdiag.
  destruct (truthy (confidence args)) eqn:Htr.
  - destruct (dataset_type args) eqn:Hty.
    + assert (Hsome : is_Some (rep_confidence E rep)).
      { repeat match type of Hdiag with
               | (if ?c then _ else _) = _ => destruct c
               | context [read_var ?n ?v] =>
                   destruct (read_var n v); [|discriminate Hdiag];
                   cbn [mbind outcome_bind] in Hdiag
               | context [sc_scaler sc] =>
                   destruct (sc_scaler sc); [|discriminate Hdiag];
                   cbn [mbind outcome_bind] in Hdiag
               | context [tanimoto_confidence ?a ?b ?c ?d ?e] =>
                   destruct (tanimoto_confidence a b c d e);
                   [|discriminate Hdiag]; cbn [mbind outcome_bind] in Hdiag
               | context [abs_error ?a ?b] =>
                   destruct (abs_error a b); [|discriminate Hdiag];
                   cbn [mbind outcome_bind] in Hdiag
               | context [gaussian_confidence E ?a ?b ?c ?d ?e] =>
                   destruct (gaussian_confidence E a b c d e);
                   [|discriminate Hdiag]; cbn [mbind outcome_bind] in Hdiag
               end; try discriminate Hdiag; injection Hdiag as <-;
          by eexists. }
      destruct Hsome as [xy Hxy]. rewrite Hxy.
      split; [discriminate | intros [|]; discriminate].
    + assert (Hsome : is_Some (rep_confidence E rep)).
      { repeat match type of Hdiag with
               | context [read_var ?n ?v] =>
                   destruct (read_var n v); [|discriminate Hdiag];
                   cbn [mbind outcome_bind] in Hdiag
               | context [gaussian_confidence E ?a ?b ?c ?d ?e] =>
                   destruct (gaussian_confidence E a b c d e);
                   [|discriminate Hdiag]; cbn [mbind outcome_bind] in Hdiag
               end; injection Hdiag as <-; by eexists. }
      destruct Hsome as [xy Hxy]. rewrite Hxy.
      split; [discriminate | intros [|]; discriminate].
    + injection Hdiag as <-. split; [by right | done].
  - injection Hdiag as <-. split; [by left | done].
Qed.
End RunFacts.

Section EnsembleConfidence.
Context (E : Env).
Variable args : Args.
Hypothesis Hshape : predict_shape E (num_tasks args).

(** X31: the 'ensemble' method.  In a completed regression run with
    [args.confidence = 'ensemble'], and with [predict] returning one row
    per molecule and one column per task, the pair [(x, y)] of line 391
    holds, for each test point and task, the negated variance of the
    members' predictions in [x] and, in [y], the absolute difference
    between the mean of these predictions and the target, which is
    present. *)
Theorem ensemble_confidence_values (rng : Rng E) (rep : run_report E) :
  let sp := load_and_split E args in
  let sc := scale_targets E args (sp_heap sp) (sp_train sp) in
  let n := inject_Z (Z.of_nat (ensemble_size args)) in
  dataset_type args = Regression ->
  confidence args = Some "ensemble"%string ->
  run_training_report E args rng = Return rep ->
  let preds := member_preds E (sc_heap sc) (sp_test sp) (sc_scaler sc)
                 (rep_state E rep) in
  exists x y,
    rep_confidence E rep = Some (EnsembleXY x y)
    /\ forall i j,
         (i < length (sp_test sp))%nat -> (j < num_tasks args)%nat ->
         (entry x i j == - Qvar (map (fun P => entry P i j) preds))%Q
         /\ (entry (rep_avg_test_preds E rep) i j
             == Qsum (map (fun P => entry P i j) preds) / n)%Q
         /\ forall trow ot,
              targets_of (sc_heap sc) (sp_test sp) !! i = Some trow ->
              trow !! j = Some ot ->
              exists t, ot = Some t
                /\ entry y i j
                   = Qabs (entry (rep_avg_test_preds E rep) i j - t).
Proof using Hshape.
  intros sp sc n Hreg Hc Hrep preds.
  destruct (run_training_report_inv E args Hshape rng rep Hrep)
    as (_ & Havg & _ & Hdiag & Hinv).
  fold sp in Havg, Hdiag, Hinv. fold sc in Havg, Hdiag, Hinv.
  destruct (ensemble_mean E args Hshape _ Hinv)
    as (Hall & _ & Hsumshape & Hentries).
  fold sp in Hall, Hsumshape, Hentries.
  fold sc in Hall, Hsumshape, Hentries.
  fold preds in Hall. fold n in Hentries, Havg.
  unfold diagnostics, truthy, conf_is in Hdiag. rewrite Hc, Hreg in Hdiag.
  cbn [path_of String.eqb Ascii.eqb Bool.eqb] in Hdiag.
  destruct (abs_error _ _) as [y|err] eqn:Hy; [|discriminate Hdiag].
  cbn [mbind outcome_bind] in Hdiag. injection Hdiag as <-.
  eexists _, y. split; [reflexivity|]. intros i j Hi Hj.
  split; [|split].
  - unfold smiles_of, deref. rewrite !length_map.
    rewrite (neg_ensemble_variance_entry _ _ _ i j Hi Hj), Hall. ring.
  - rewrite Havg, (Hentries i j Hi Hj), Hall. reflexivity.
  - intros trow ot Htrow Hot.
    assert (Hsh : has_shape (length (sp_test sp)) (num_tasks args)
                    (rep_avg_test_preds E rep)).
    { rewrite Havg. by apply mat_div_shape. }
    destruct (has_shape_lookup _ _ _ i j Hsh Hi Hj)
      as (row & p & Hrow & Hp & _).
    rewrite (entry_lookup _ i j row p Hrow Hp).
    exact (abs_error_entry _ _ _ Hy i j row trow p ot Hrow Htrow Hp Hot).
Qed.
End EnsembleConfidence.

(** The sample run as a regression run with the 'ensemble' method. *)
Lemma ensemble_confidence_values_witness :
  let args := with_confidence (Some "ensemble"%string) Regression
                sample_args in
  let sp := load_and_split sample_env args in
  let sc := scale_targets sample_env args (sp_heap sp) (sp_train sp) in
  predict_shape sample_env (num_tasks args)
  /\ dataset_type args = Regression
  /\ confidence args = Some "ensemble"%string
  /\ exists rep x y,
       run_training_report sample_env args 0%nat = Return rep
       /\ rep_confidence sample_env rep = Some (EnsembleXY x y)
       /\ (entry x 0 0
           == - Qvar (map (fun P => entry P 0 0)
                        (member_preds sample_env (sc_heap sc) (sp_test sp)
                           (sc_scaler sc) (rep_state sample_env rep))))%Q.
Proof.
  intros args sp sc.
  assert (Hshape : predict_shape sample_env (num_tasks args))
    by (apply sample_env_predict_shape; reflexivity).
  split; [exact Hshape|]. split; [reflexivity|]. split; [reflexivity|].
  destruct (run_training_report sample_env args 0%nat) as [rep|err] eqn:Hrep;
    [|vm_compute in Hrep; discriminate Hrep].
  destruct (ensemble_confidence_values sample_env args Hshape 0%nat rep
              eq_refl eq_refl Hrep) as (x & y & Hxy & Hent).
  exists rep, x, y. split; [reflexivity|]. split; [exact Hxy|].
  apply (Hent 0%nat 0%nat); vm_compute; lia.
Defined.

Section NanScores.
Context (E : Env).
Variables (args : Args) (h : list Datapoint) (val_data test_data : list nat).
Variables (scaler : option StandardScaler) (model_idx : nat).

(** X23: NaN never counts as an improvement.  When the average validation
    score is NaN at every epoch (as [np.nanmean] gives on an empty
    validation set), line 260 never saves a checkpoint, and the member is
    evaluated with the model it started from, however many epochs it was
    trained for. *)
Theorem nan_scores_keep_untrained_model (st st' : run_state E)
    (rng1 : Rng E) (m0 : Model E) :
  (forall m, avg_val_score E m scaler (deref h val_data) = NaN) ->
  init_member E args model_idx (rs_rng E st) = Return (rng1, m0) ->
  run_member E args h val_data test_data scaler model_idx st = Return st' ->
  rs_loaded E st' = rs_loaded E st ++ [m0]
  /\ rs_store E st' !! model_idx = Some m0
  /\ exists ep,
       rs_members E st' = rs_members E st ++ [ep]
       /\ es_best_epoch E ep = 0%nat
       /\ es_best_score E ep = (if minimize_score args then PInf else NInf).
Proof.
  intros Hnan Hinit Hrun.
  destruct (run_member_inv E args h val_data test_data scaler model_idx st st'
              Hrun) as (rng1' & m0' & ep & ck & Hi & Hep & Hck & Heff).
  rewrite Hinit in Hi. injection Hi as <- <-.
  destruct (epoch_loop_selects E args h val_data scaler model_idx
              (member_start E args model_idx m0 rng1 (rs_train_data E st)
                 (rs_store E st)) m0
              (lookup_insert_eq _ _ _) eq_refl eq_refl _ _ Hep)
    as (ck' & Hck' & Hsel).
  rewrite Hck in Hck'. injection Hck' as <-.
  destruct Heff as (Hloaded & Hmem & _ & _ & Hstore & _).
  destruct Hsel as [(-> & Hbest & Hbe & _)|(_ & Hrec & Hb & _)].
  - split; [exact Hloaded|]. split; [by rewrite Hstore|].
    exists ep. by repeat split.
  - exfalso. unfold epoch_record in Hrec.
    match type of Hrec with
    | context [epoch_loop ?a ?b ?c ?d ?e ?f ?g ?i] =>
        destruct (epoch_loop a b c d e f g i) as [s|err];
        [|discriminate Hrec]
    end.
    injection Hrec as _ Hscore. rewrite Hnan in Hscore. rewrite <- Hscore in Hb.
    unfold better in Hb. by destruct (minimize_score args).
Qed.
End NanScores.

(** The first member of the sample run when no validation score is a
    number: three epochs of training, and the untrained model is kept. *)
Lemma nan_scores_keep_untrained_model_witness :
  let sp := load_and_split nan_score_env sample_args in
  let sc := scale_targets nan_score_env sample_args (sp_heap sp)
              (sp_train sp) in
  let st := init_run nan_score_env sample_args (sc_heap sc) (sp_train sp)
              (sp_val sp) (sp_test sp) 0%nat in
  (forall m, avg_val_score nan_score_env m (sc_scaler sc)
               (deref (sc_heap sc) (sp_val sp)) = NaN)
  /\ init_member nan_score_env sample_args 0 (rs_rng nan_score_env st)
     = Return (1%nat, 0%nat)
  /\ exists st',
       run_member nan_score_env sample_args (sc_heap sc) (sp_val sp)
         (sp_test sp) (sc_scaler sc) 0 st = Return st'
       /\ rs_loaded nan_score_env st' = [0%nat]
       /\ es_n_iter nan_score_env <$> rs_members nan_score_env st' = [6].
Proof.
  intros sp sc st.
  assert (Hnan : forall m, avg_val_score nan_score_env m (sc_scaler sc)
                             (deref (sc_heap sc) (sp_val sp)) = NaN)
    by reflexivity.
  assert (Hinit : init_member nan_score_env sample_args 0
                    (rs_rng nan_score_env st) = Return (1%nat, 0%nat))
    by reflexivity.
  split; [exact Hnan|]. split; [exact Hinit|].
  destruct (run_member nan_score_env sample_args (sc_heap sc) (sp_val sp)
              (sp_test sp) (sc_scaler sc) 0 st) as [st'|err] eqn:Hrun;
    [|vm_compute in Hrun; discriminate Hrun].
  exists st'. split; [reflexivity|].
  destruct (nan_scores_keep_untrained_model nan_score_env sample_args
              (sc_heap sc) (sp_val sp) (sp_test sp) (sc_scaler sc) 0 st st'
              1%nat 0%nat Hnan Hinit Hrun) as (Hloaded & _).
  split; [exact Hloaded|].
  vm_compute in Hrun. injection Hrun as <-. reflexivity.
Defined.

Lemma training_set_only_reordered_witness :
  shuffle_permutes sample_env
  /\ exists rep,
       run_training_report sample_env sample_args 0%nat = Return rep
       /\ Permutation (sp_train (load_and_split sample_env sample_args))
            (rs_train_data sample_env (rep_state sample_env rep))
       /\ length (rs_members sample_env (rep_state sample_env rep)) = 2%nat.
Proof.
  split; [exact sample_env_shuffle_permutes|].
  destruct (run_training_report sample_env sample_args 0%nat) as [rep|err]
    eqn:Hrep; [|vm_compute in Hrep; discriminate Hrep].
  exists rep. split; [reflexivity|].
  destruct (training_set_only_reordered sample_env sample_args 0%nat rep
              sample_env_shuffle_permutes Hrep) as (Hperm & Hlen & _).
  split; [exact Hperm | exact Hlen].
Defined.

(** Three training examples in batches of two, three epochs: 6. *)
Lemma members_count_whole_batches_witness :
  shuffle_permutes sample_env
  /\ class_balance sample_args = false
  /\ 1 <= batch_size sample_args
  /\ log_frequency sample_args <> 0
  /\ exists rep,
       run_training_report sample_env sample_args 0%nat = Return rep
       /\ Forall (fun ep => es_n_iter sample_env ep = 3 * (3 / 2 * 2))
            (rs_members sample_env (rep_state sample_env rep)).
Proof.
  assert (Hb : 1 <= batch_size sample_args) by (vm_compute; discriminate).
  assert (Hlf : log_frequency sample_args <> 0) by (vm_compute; discriminate).
  split; [exact sample_env_shuffle_permutes|]. split; [reflexivity|].
  split; [exact Hb|]. split; [exact Hlf|].
  destruct (run_training_report sample_env sample_args 0%nat) as [rep|err]
    eqn:Hrep; [|vm_compute in Hrep; discriminate Hrep].
  exists rep. split; [reflexivity|].
  exact (members_count_whole_batches sample_env sample_args 0%nat rep
           sample_env_shuffle_permutes eq_refl Hb Hlf Hrep).
Defined.

Lemma checkpoints_hold_evaluated_models_witness :
  exists rep,
    run_training_report sample_env sample_args 0%nat = Return rep
    /\ length (rs_loaded sample_env (rep_state sample_env rep)) = 2%nat
    /\ forall k, rs_store sample_env (rep_state sample_env rep) !! k
                 = rs_loaded sample_env (rep_state sample_env rep) !! k.
Proof.
  destruct (run_training_report sample_env sample_args 0%nat) as [rep|err]
    eqn:Hrep; [|vm_compute in Hrep; discriminate Hrep].
  exists rep. split; [reflexivity|].
  exact (checkpoints_hold_evaluated_models sample_env sample_args 0%nat rep
           Hrep).
Defined.

(** Two members, one checkpoint path. *)
Lemma run_training_missing_checkpoint_path_witness :
  let args := with_ensemble 2 (Some ["model_0.pt"%string]) sample_args in
  let sp := load_and_split sample_env args in
  let sc := scale_targets sample_env args (sp_heap sp) (sp_train sp) in
  checkpoint_paths args = Some ["model_0.pt"%string]
  /\ (1 <= length ["model_0.pt"%string])%nat
  /\ (length ["model_0.pt"%string] < ensemble_size args)%nat
  /\ exists st,
       ensemble_loop sample_env args (sc_heap sc) (sp_val sp) (sp_test sp)
         (sc_scaler sc) (seq 0 (length ["model_0.pt"%string]))
         (init_run sample_env args (sc_heap sc) (sp_train sp) (sp_val sp)
            (sp_test sp) 0%nat) = Return st
       /\ run_training sample_env args 0%nat = Raise IndexError.
Proof.
  intros args sp sc.
  assert (Hlt : (length ["model_0.pt"%string] < ensemble_size args)%nat)
    by (vm_compute; lia).
  split; [reflexivity|]. split; [simpl; lia|]. split; [exact Hlt|].
  destruct (ensemble_loop sample_env args (sc_heap sc) (sp_val sp) (sp_test sp)
              (sc_scaler sc) (seq 0 (length ["model_0.pt"%string]))
              (init_run sample_env args (sc_heap sc) (sp_train sp) (sp_val sp)
                 (sp_test sp) 0%nat)) as [st|err] eqn:Hloop;
    [|vm_compute in Hloop; discriminate Hloop].
  exists st. split; [reflexivity|].
  exact (run_training_missing_checkpoint_path sample_env args 0%nat
           ["model_0.pt"%string] st eq_refl ltac:(simpl; lia) Hlt Hloop).
Defined.

Lemma confidence_diagnostics_scope_witness :
  exists rep,
    run_training_report sample_env sample_args 0%nat = Return rep
    /\ (rep_confidence sample_env rep = None
        <-> truthy (confidence sample_args) = false
            \/ dataset_type sample_args = Multiclass).
Proof.
  destruct (run_training_report sample_env sample_args 0%nat) as [rep|err]
    eqn:Hrep; [|vm_compute in Hrep; discriminate Hrep].
  exists rep. split; [reflexivity|].
  exact (confidence_diagnostics_scope sample_env sample_args 0%nat rep Hrep).
Defined.

(** ** run_training.py: the diagnostics, point by point *)

Lemma mapM_Raise {A B} (f : A -> outcome B) (l : list A) (e : pyerr) :
  mapM f l = Raise e -> exists a, a ∈ l /\ f a = Raise e.
Proof.
  induction l as [|a l IH]; intros Hl; [discriminate Hl|].
  cbn [mapM] in Hl. destruct (f a) as [b|e'] eqn:Hfa.
  - cbn [mbind outcome_bind] in Hl.
    destruct (mapM f l) as [k|e'] eqn:Hk; [discriminate Hl|].
    injection Hl as ->. destruct (IH eq_refl) as (a' & Ha' & Hf).
    exists a'. split; [by right | done].
  - injection Hl as ->. exists a. split; [left | done].
Qed.

Lemma Forall2_elem_l {A B} (R : A -> B -> Prop) (l : list A) (k : list B) :
  Forall2 R l k -> forall a, a ∈ l -> exists b, b ∈ k /\ R a b.
Proof.
  induction 1 as [|a b l k Hab _ IH]; intros a' Ha'; [by inversion Ha'|].
  apply elem_of_cons in Ha' as [->|Ha'].
  - exists b. split; [left | done].
  - destruct (IH a' Ha') as (b' & Hb' & HR). exists b'. split; [by right | done].
Qed.

(** [max] keeps an element that no other one exceeds. *)
Lemma max_by_key_max {A} (l : list (fl * A)) (p : fl * A) :
  max_by_key l = Return p ->
  forall q, q ∈ l -> fl_ltb (fst p) (fst q) = false.
Proof.
  destruct l as [|p0 rest]; [discriminate|]. cbn [max_by_key].
  intros [= <-].
  assert (Hgen : forall (seen : list (fl * A)) (best : fl * A),
            (forall q, q ∈ seen -> fl_ltb (fst best) (fst q) = false) ->
            forall q, q ∈ seen ++ rest ->
              fl_ltb (fst (fold_left
                             (fun best q => if fl_ltb (fst best) (fst q)
                                            then q else best) rest best))
                     (fst q) = false).
  { induction rest as [|r rest IH]; intros seen best Hseen q Hq.
    - rewrite app_nil_r in Hq. by apply Hseen.
    - cbn [fold_left].
      apply (IH (seen ++ [r])); [|by rewrite <- app_assoc].
      intros q' Hq'. apply elem_of_app in Hq' as [Hq'|Hq'].
      + destruct (fl_ltb (fst best) (fst r)) eqn:Hbr; [|by apply Hseen].
        destruct (fl_ltb (fst r) (fst q')) eqn:Hrq; [|done].
        rewrite <- (Hseen q' Hq'). symmetry.
        exact (fl_ltb_trans _ _ _ Hbr Hrq).
      + apply list_elem_of_singleton in Hq' as ->.
        destruct (fl_ltb (fst best) (fst r)) eqn:Hbr; [|done].
        apply fl_ltb_irrefl. }
  intros q Hq. apply (Hgen [p0] p0); [|done].
  intros q' Hq'. apply list_elem_of_singleton in Hq' as ->.
  apply fl_ltb_irrefl.
Qed.

Section Points.
Context (E : Env).

(** X24: the confidence the 'tanimoto' method gives a test molecule is its
    largest similarity to a molecule of the training set: the similarity
    to one of them, exceeded by the similarity to none. *)
Theorem tanimoto_point_maximal avg_test_preds test_targets
    (train_smiles_sfp : list (list Z)) (i : nat) (t : string)
    (pt : fl * list Q) :
  tanimoto_point E avg_test_preds test_targets train_smiles_sfp i t
  = Return pt ->
  let fp := morgan_fingerprint E (canonical_smiles E t) in
  (exists sfp, sfp ∈ train_smiles_sfp /\ tanimoto fp sfp = Return (fst pt))
  /\ forall sfp s, sfp ∈ train_smiles_sfp -> tanimoto fp sfp = Return s ->
       fl_ltb (fst pt) s = false.
Proof.
  intros Hpt fp. split; [by eapply tanimoto_point_similarity|].
  intros sfp s Hin Hs. unfold tanimoto_point in Hpt. fold fp in Hpt.
  destruct (mapM _ train_smiles_sfp) as [morgan_sim|e] eqn:Hsim;
    [|discriminate Hpt].
  cbn [mbind outcome_bind] in Hpt. apply mapM_Return in Hsim.
  destruct (Forall2_elem_l _ _ _ Hsim sfp Hin) as (b & Hb & Hrun).
  rewrite Hs in Hrun. cbn [mbind outcome_bind] in Hrun.
  destruct (abs_error_first _ _ i); [|discriminate Hrun].
  cbn [mbind outcome_bind] in Hrun. injection Hrun as <-.
  exact (max_by_key_max _ _ Hpt _ Hb).
Qed.
End Points.

Lemma tanimoto_point_maximal_witness :
  let sfps := [[1; 0; 1; 0]; [1; 1; 0; 0]] in
  exists pt,
    tanimoto_point sample_env [[1%Q]] [[Some 2%Q]] sfps 0 "CO" = Return pt
    /\ forall sfp s, sfp ∈ sfps ->
         tanimoto (morgan_fingerprint sample_env
                     (canonical_smiles sample_env "CO")) sfp = Return s ->
         fl_ltb (fst pt) s = false.
Proof.
  intros sfps.
  destruct (tanimoto_point sample_env [[1%Q]] [[Some 2%Q]] sfps 0 "CO")
    as [pt|err] eqn:Hpt; [|vm_compute in Hpt; discriminate Hpt].
  exists pt. split; [reflexivity|].
  exact (proj2 (tanimoto_point_maximal sample_env [[1%Q]] [[Some 2%Q]] sfps
                  0 "CO" pt Hpt)).
Defined.

(** X25: the 'ensemble' method cannot cope with a missing target: as soon
    as one test molecule lacks the value of one task, the subtraction of
    line 391 raises a [TypeError], and no other error comes first. *)
Theorem abs_error_missing_target (r c : nat) (avg : list (list Q))
    (tt : list (list (option Q))) (i j : nat) (trow : list (option Q)) :
  has_shape r c avg ->
  length tt = r ->
  Forall (fun row => length row = c) tt ->
  tt !! i = Some trow ->
  trow !! j = Some None ->
  abs_error avg tt = Raise TypeError.
Proof.
  intros Hshape Hrows Hcols Htrow Hnone.
  assert (Hi : (i < r)%nat).
  { rewrite <- Hrows. by apply lookup_lt_Some in Htrow. }
  assert (Hj : (j < c)%nat).
  { rewrite Forall_forall in Hcols.
    rewrite <- (Hcols trow) by (by eapply list_elem_of_lookup_2).
    by apply lookup_lt_Some in Hnone. }
  destruct (has_shape_lookup _ _ _ i j Hshape Hi Hj)
    as (row & p & Hrow & Hp & _).
  destruct (abs_error avg tt) as [y|e] eqn:Hy.
  - destruct (abs_error_entry _ _ _ Hy i j row trow p None Hrow Htrow Hp Hnone)
      as (t & Ht & _). discriminate Ht.
  - f_equal. unfold abs_error in Hy.
    apply mapM_Raise in Hy as (rt & _ & Hrt).
    apply mapM_Raise in Hrt as (pt & _ & Hpt).
    destruct (snd pt); [discriminate Hpt|]. by injection Hpt as <-.
Qed.

(** Two test molecules, two tasks, one value missing. *)
Lemma abs_error_missing_target_witness :
  let avg := [[1%Q; 2%Q]; [3%Q; 4%Q]] in
  let tt := [[Some 1%Q; Some 1%Q]; [Some 1%Q; None]] in
  has_shape 2 2 avg
  /\ length tt = 2%nat
  /\ Forall (fun row => length row = 2%nat) tt
  /\ tt !! 1%nat = Some [Some 1%Q; None]
  /\ [Some 1%Q; @None Q] !! 1%nat = Some None
  /\ abs_error avg tt = Raise TypeError.
Proof.
  intros avg tt.
  assert (Hshape : has_shape 2 2 avg) by (split; [done | by repeat constructor]).
  assert (Hcols : Forall (fun row => length row = 2%nat) tt)
    by (by repeat constructor).
  split; [exact Hshape|]. split; [reflexivity|]. split; [exact Hcols|].
  split; [reflexivity|]. split; [reflexivity|].
  exact (abs_error_missing_target 2 2 avg tt 1 1 [Some 1%Q; None] Hshape
           eq_refl Hcols eq_refl eq_refl).
Defined.

(** ** run_training.py: what the fixed fractions do to the data file *)

Section FixedSplits.
Context (E : Env).
Hypothesis Hpart : splits_partition E.
Hypothesis Hsplit : honours_fractions E.

(** X26: with only a separate test file, the random split into
    (0.8, 0.2, 0.0) loses nothing: the third portion, which line 99
    discards, is empty, so the training and the validation set together
    hold every row of the data file, and the test set is the file given. *)
Theorem test_only_split_keeps_data (args : Args) (p : string) :
  split_type args = "random"%string ->
  path_of (separate_val_path args) = None ->
  path_of (separate_test_path args) = Some p ->
  let sp := load_and_split E args in
  let n := length (read_csv E (data_path args)) in
  sp_data sp = seq 0 n
  /\ Permutation (sp_data sp) (sp_train sp ++ sp_val sp)
  /\ sp_test sp = seq n (length (read_csv E p)).
Proof using Hpart Hsplit.
  intros Hty Hval Htest. unfold load_and_split, get_data.
  rewrite Hval, Htest, Hty. cbn [app length].
  match goal with
  | |- context [split_data E ?h ?d _ ?f ?s] =>
      pose proof (fixed_split_third_empty E Hpart Hsplit h d s) as Hempty;
      pose proof (Hpart h d "random" f s fixed_fractions_valid) as Hp;
      destruct (split_data E h d "random" f s) as [[tr va] te]
  end.
  cbn [fst snd] in Hempty, Hp. subst te. rewrite app_nil_r in Hp.
  cbn [sp_data sp_train sp_val sp_test]. done.
Qed.

(** X27: with only a separate validation file, the same split throws a
    fifth of the data file away: the training set gets floor(0.8 n) rows,
    and the other rows are in no set at all, the portion they went to
    being the one line 96 discards. *)
Theorem val_only_split_drops_data (args : Args) (p : string) :
  split_type args = "random"%string ->
  path_of (separate_val_path args) = Some p ->
  path_of (separate_test_path args) = None ->
  let sp := load_and_split E args in
  let n := len (read_csv E (data_path args)) in
  len (sp_train sp) = Qfloor ((8 # 10) * inject_Z n)
  /\ exists dropped,
       Permutation (sp_data sp) (sp_train sp ++ dropped)
       /\ len dropped = n - Qfloor ((8 # 10) * inject_Z n)
       /\ forall r, r ∈ dropped ->
            (r ∉ sp_train sp) /\ (r ∉ sp_val sp) /\ (r ∉ sp_test sp).
Proof using Hpart Hsplit.
  intros Hty Hval Htest. unfold load_and_split, get_data.
  rewrite Hval, Htest, Hty. cbn [app length].
  set (rows := length (read_csv E (data_path args))).
  match goal with
  | |- context [split_data E ?h ?d _ ?f ?s] =>
      pose proof (fixed_split_third_empty E Hpart Hsplit h d s) as Hempty;
      pose proof (Hpart h d "random" f s fixed_fractions_valid) as Hp;
      destruct (Hsplit h d f s fixed_fractions_valid) as (Hlen & _);
      destruct (split_data E h d "random" f s) as [[tr va] te]
  end.
  cbn [fst snd] in Hempty, Hp, Hlen. subst te. rewrite app_nil_r in Hp.
  cbn [sp_data sp_train sp_val sp_test].
  assert (Hrows : len (seq 0 rows) = len (read_csv E (data_path args))).
  { unfold len. by rewrite length_seq. }
  rewrite Hrows in Hlen. split; [exact Hlen|].
  exists va. split; [exact Hp|]. split.
  - apply Permutation_length in Hp. rewrite length_app, length_seq in Hp.
    unfold len in *. fold rows in Hlen |- *. lia.
  - intros r Hr.
    assert (Hnd : NoDup (tr ++ va)) by (rewrite <- Hp; apply NoDup_seq).
    apply NoDup_app in Hnd as (_ & Hdisj & _).
    assert (Hin : r ∈ seq 0 rows).
    { rewrite Hp. apply elem_of_app. by right. }
    apply elem_of_seq in Hin. split; [|split].
    + intros Htr. by apply (Hdisj r Htr).
    + intros Hv. apply elem_of_seq in Hv. lia.
    + by intros Hte%elem_of_nil.
Qed.
End FixedSplits.

Lemma test_only_split_keeps_data_witness :
  let args := with_paths None (Some "test.csv"%string) sample_args in
  let sp := load_and_split sample_env args in
  splits_partition sample_env
  /\ honours_fractions sample_env
  /\ split_type args = "random"%string
  /\ path_of (separate_val_path args) = None
  /\ path_of (separate_test_path args) = Some "test.csv"%string
  /\ Permutation (sp_data sp) (sp_train sp ++ sp_val sp)
  /\ sp_test sp = [5; 6]%nat.
Proof.
  intros args sp.
  split; [exact sample_env_splits_partition|].
  split; [exact sample_env_honours_fractions|].
  split; [reflexivity|]. split; [reflexivity|]. split; [reflexivity|].
  destruct (test_only_split_keeps_data sample_env sample_env_splits_partition
              sample_env_honours_fractions args "test.csv" eq_refl eq_refl
              eq_refl) as (_ & Hperm & Htest).
  split; [exact Hperm | exact Htest].
Defined.

(** Five rows: four are trained on, one is dropped. *)
Lemma val_only_split_drops_data_witness :
  let args := with_paths (Some "val.csv"%string) None sample_args in
  let sp := load_and_split sample_env args in
  splits_partition sample_env
  /\ honours_fractions sample_env
  /\ split_type args = "random"%string
  /\ path_of (separate_val_path args) = Some "val.csv"%string
  /\ path_of (separate_test_path args) = None
  /\ len (sp_train sp) = 4
  /\ exists dropped,
       Permutation (sp_data sp) (sp_train sp ++ dropped)
       /\ len dropped = 1.
Proof.
  intros args sp.
  split; [exact sample_env_splits_partition|].
  split; [exact sample_env_honours_fractions|].
  split; [reflexivity|]. split; [reflexivity|]. split; [reflexivity|].
  destruct (val_only_split_drops_data sample_env sample_env_splits_partition
              sample_env_honours_fractions args "val.csv" eq_refl eq_refl
              eq_refl) as (Hlen & dropped & Hperm & Hdrop & _).
  split; [exact Hlen|]. exists dropped. split; [exact Hperm | exact Hdrop].
Defined.

(** ** run_training.py: confidence_visualizations *)

Lemma insert_by_key_perm {A} (key : A -> Q) (a : A) (l : list A) :
  Permutation (insert_by_key key a l) (a :: l).
Proof.
  induction l as [|b l IH]; [done|]. cbn [insert_by_key].
  destruct (Qle_bool (key a) (key b)); [done|].
  rewrite IH. apply perm_swap.
Qed.

Lemma sorted_by_key_perm {A} (key : A -> Q) (l : list A) :
  Permutation (sorted_by_key key l) l.
Proof.
  induction l as [|a l IH]; [done|]. unfold sorted_by_key in *.
  cbn [foldr]. rewrite insert_by_key_perm. by constructor.
Qed.

Lemma Qltb_ge (x y : Q) : Qltb x y = false <-> (y <= x)%Q.
Proof.
  unfold Qltb. rewrite negb_false_iff. apply Qle_bool_iff.
Qed.

Lemma py_int_floor (v : Q) : (0 <= v)%Q -> py_int v = Qfloor v.
Proof.
  destruct v as [a b]. unfold Qle, py_int, Qfloor. cbn [Qnum Qden].
  intros Ha. apply Z.quot_div_nonneg; lia.
Qed.

Lemma Qfloor_unique (v : Q) (k : Z) :
  (inject_Z k <= v)%Q -> (v < inject_Z (k + 1))%Q -> Qfloor v = k.
Proof.
  intros Hle Hlt.
  assert (H1 : k <= Qfloor v).
  { rewrite <- (Qfloor_Z k). by apply Qfloor_resp_le. }
  assert (H2 : Qfloor v < k + 1).
  { destruct (Z.lt_ge_cases (Qfloor v) (k + 1)) as [|Hge]; [done|].
    exfalso. apply (Qlt_irrefl v).
    eapply Qlt_le_trans; [exact Hlt|].
    eapply Qle_trans; [|apply Qfloor_le]. by rewrite <- Zle_Qle. }
  lia.
Qed.

Lemma in_bin_spec (k : nat) (v : Q) :
  in_bin k v = true <-> Qfloor v = Z.of_nat k.
Proof.
  unfold in_bin. rewrite andb_true_iff, Qle_bool_iff, Qltb_lt. split.
  - intros [Hle Hlt]. by apply Qfloor_unique.
  - intros <-. split; [apply Qfloor_le | apply Qlt_floor].
Qed.

(** Among ten bins, [int(v)] is an index unless [v] is unplaceable. *)
Lemma py_index_bins (v : Q) :
  ~ (v == 10)%Q ->
  (unplaceable v -> py_index 10 (py_int v) = Raise IndexError)
  /\ (~ unplaceable v ->
      exists k, py_index 10 (py_int v) = Return k /\ (k < 10)%nat).
Proof.
  destruct v as [a b].
  unfold unplaceable, Qlt, Qle, Qeq, py_int, py_index.
  cbn [Qnum Qden Qopp Z.opp]. intros Hne.
  pose proof (Z.quot_rem' a (Z.pos b)) as Hqr.
  pose proof (Z.rem_bound_abs a (Z.pos b) ltac:(lia)) as Habs.
  assert (Hpos : 0 <= a -> 0 <= Z.rem a (Z.pos b))
    by (intros Ha; apply Z.rem_nonneg; lia).
  assert (Hneg : a <= 0 -> Z.rem a (Z.pos b) <= 0)
    by (intros Ha; apply Z.rem_nonpos; lia).
  assert (Hr : - Z.pos b < Z.rem a (Z.pos b) < Z.pos b) by lia.
  clear Habs.
  generalize dependent (Z.rem a (Z.pos b)). intros r Hqr Hpos Hneg Hr.
  generalize dependent (a ÷ Z.pos b). intros q Hqr.
  split.
  - intros [Hbad|Hbad];
      destruct (Z.leb_spec 0 q), (Z.ltb_spec q 10), (Z.leb_spec (- (10)) q),
        (Z.ltb_spec q 0); cbn [andb]; try reflexivity; exfalso; nia.
  - intros Hok.
    destruct (Z.leb_spec 0 q), (Z.ltb_spec q 10), (Z.leb_spec (- (10)) q),
      (Z.ltb_spec q 0); cbn [andb];
      try (eexists; split; [reflexivity | lia]); exfalso; apply Hok; nia.
Qed.

Section Bins.
Context {Y : Type}.

Lemma bin_errors_in_range (pairs : list (Q * Y)) :
  Forall (fun p => (0 <= fst p /\ fst p <= 10)%Q) pairs ->
  forall bins : list (list Y), length bins = 10%nat ->
  exists out,
    bin_errors pairs bins = Return out
    /\ length out = 10%nat
    /\ forall k, (k < 10)%nat ->
         out !! k
         = (fun b => b ++ map snd (List.filter (fun p => in_bin k (fst p))
                                     pairs)) <$> bins !! k.
Proof.
  induction 1 as [|[v e] pairs [Hv0 Hv10] _ IH]; intros bins Hlen.
  - exists bins. split; [done|]. split; [done|]. intros k Hk.
    destruct (bins !! k); cbn; [by rewrite app_nil_r | done].
  - cbn [fst snd] in *. cbn [bin_errors fst snd].
    destruct (Qeq_bool v 10) eqn:Heq.
    + apply Qeq_bool_iff in Heq.
      destruct (IH bins Hlen) as (out & Hout & Hlo & Hbins).
      exists out. split; [exact Hout|]. split; [exact Hlo|].
      intros k Hk. rewrite (Hbins k Hk). cbn [List.filter fst].
      assert (Hno : in_bin k v = false).
      { apply not_true_iff_false. rewrite in_bin_spec. intros Hfl.
        pose proof (Qlt_floor v) as Hlt. rewrite Hfl, Heq in Hlt.
        change 10%Q with (inject_Z 10) in Hlt. rewrite <- Zlt_Qlt in Hlt.
        lia. }
      by rewrite Hno.
    + apply Qeq_bool_neq in Heq.
      assert (Hlt : (v < 10)%Q).
      { apply Qle_lteq in Hv10 as [Hlt|Heq']; [exact Hlt | done]. }
      assert (Hfl : 0 <= Qfloor v <= 9).
      { split.
        - change 0 with (Qfloor 0). by apply Qfloor_resp_le.
        - assert (Qfloor v < 10); [|lia].
          rewrite Zlt_Qlt. eapply Qle_lt_trans; [apply Qfloor_le|].
          exact Hlt. }
      rewrite (py_int_floor v Hv0). unfold py_index, len. rewrite Hlen.
      destruct (Z.leb_spec 0 (Qfloor v)) as [_|]; [|lia].
      destruct (Z.ltb_spec (Qfloor v) (Z.of_nat 10)) as [_|]; [|lia].
      cbn [andb].
      destruct (IH (alter (fun b => b ++ [e]) (Z.to_nat (Qfloor v)) bins))
        as (out & Hout & Hlo & Hbins); [by rewrite length_alter|].
      exists out. split; [exact Hout|]. split; [exact Hlo|].
      intros k Hk. rewrite (Hbins k Hk). cbn [List.filter fst].
      destruct (decide (k = Z.to_nat (Qfloor v))) as [->|Hne].
      * rewrite list_lookup_alter_eq.
        assert (Hyes : in_bin (Z.to_nat (Qfloor v)) v = true).
        { apply in_bin_spec. lia. }
        rewrite Hyes. destruct (bins !! Z.to_nat (Qfloor v)); [|done].
        cbn. by rewrite <- app_assoc.
      * rewrite list_lookup_alter_ne by done.
        assert (Hno : in_bin k v = false).
        { apply not_true_iff_false. rewrite in_bin_spec. lia. }
        by rewrite Hno.
Qed.

Lemma bin_errors_outcome (pairs : list (Q * Y)) :
  forall bins : list (list Y), length bins = 10%nat ->
  (Exists (fun p => unplaceable (fst p)) pairs ->
   bin_errors pairs bins = Raise IndexError)
  /\ (~ Exists (fun p => unplaceable (fst p)) pairs ->
      exists out, bin_errors pairs bins = Return out
                  /\ length out = 10%nat).
Proof.
  induction pairs as [|[v e] pairs IH]; intros bins Hlen.
  - split; [by intros H%Exists_nil | by exists bins].
  - cbn [bin_errors fst snd]. unfold len. rewrite Hlen.
    change (Z.of_nat 10) with 10.
    destruct (Qeq_bool v 10) eqn:Heq.
    + apply Qeq_bool_iff in Heq.
      assert (Hok : ~ unplaceable v).
      { unfold unplaceable. rewrite Heq. intros [H|H]; Lqa.lra. }
      destruct (IH bins Hlen) as (Hbad & Hgood). split.
      * intros [H|H]%Exists_cons; [done | by apply Hbad].
      * intros Hnone. apply Hgood. intros H. apply Hnone. by right.
    + apply Qeq_bool_neq in Heq.
      destruct (py_index_bins v Heq) as (Hraise & Hret).
      assert (Hdec : unplaceable v \/ ~ unplaceable v).
      { unfold unplaceable. destruct (Qlt_le_dec 10 v) as [|H1]; [by auto|].
        destruct (Qlt_le_dec (- (11)) v) as [H2|]; [|by auto].
        right. intros [H|H]; Lqa.lra. }
      destruct Hdec as [Hbad|Hok].
      * rewrite (Hraise Hbad). split; [done|].
        intros Hnone. exfalso. apply Hnone. by left.
      * destruct (Hret Hok) as (k & -> & Hk).
        destruct (IH (alter (fun b => b ++ [e]) k bins)) as (Hb & Hg);
          [by rewrite length_alter|]. split.
        -- intros [H|H]%Exists_cons; [done | by apply Hb].
        -- intros Hnone. apply Hg. intros H. apply Hnone. by right.
Qed.

Lemma Forall_zip_fst (P : Q -> Prop) (x : list Q) (y : list Y) :
  Forall P x -> Forall (fun p => P (fst p)) (zip x y).
Proof.
  intros Hx. revert y. induction Hx as [|v x Hv _ IH]; intros [|e y];
    cbn [zip_with]; try constructor; [done | apply IH].
Qed.

(** X28: the bins of the joined histogram and boxplot.  When every
    confidence lies in [[0, 10]] (as the 'tanimoto' method guarantees), the
    loop of lines 514-518 raises nothing and fills ten bins: the bin
    labelled [k to k+1] holds the errors of the points with
    [k <= x < k + 1], in the order of their confidence, and the points
    with a confidence of exactly 10 are in no bin. *)
Theorem errors_by_confidence_in_range (x : list Q) (y : list Y) :
  Forall (fun v => (0 <= v /\ v <= 10)%Q) x ->
  exists bins,
    errors_by_confidence x y = Return bins
    /\ length bins = 10%nat
    /\ forall k, (k < 10)%nat ->
         bins !! k
         = Some (map snd (List.filter (fun p => in_bin k (fst p))
                            (pairs_by_confidence x y))).
Proof.
  intros Hx. unfold errors_by_confidence.
  destruct (bin_errors_in_range (pairs_by_confidence x y)) with
    (bins := replicate 10 (@nil Y)) as (out & Hout & Hlen & Hbins).
  - unfold pairs_by_confidence. rewrite sorted_by_key_perm.
    exact (Forall_zip_fst (fun v => (0 <= v /\ v <= 10)%Q) x y Hx).
  - by rewrite length_replicate.
  - exists out. split; [exact Hout|]. split; [exact Hlen|].
    intros k Hk. rewrite (Hbins k Hk).
    by rewrite lookup_replicate_2 by done.
Qed.

(** X29: which confidences the joined plots cannot place.  The loop raises
    an [IndexError] exactly when some point has a confidence above 10 or at
    most -11; otherwise it returns ten bins (a negative confidence down to
    -11 being binned from the end). *)
Theorem errors_by_confidence_index_error (x : list Q) (y : list Y) :
  (Exists (fun p => unplaceable (fst p)) (zip x y) ->
   errors_by_confidence x y = Raise IndexError)
  /\ (~ Exists (fun p => unplaceable (fst p)) (zip x y) ->
      exists bins, errors_by_confidence x y = Return bins
                   /\ length bins = 10%nat).
Proof.
  unfold errors_by_confidence, pairs_by_confidence.
  destruct (bin_errors_outcome (sorted_by_key fst (zip x y))
              (replicate 10 []) (length_replicate _ _)) as (Hbad & Hgood).
  assert (Hiff : Exists (fun p => unplaceable (fst p))
                   (sorted_by_key fst (zip x y))
                 <-> Exists (fun p => unplaceable (fst p)) (zip x y)).
  { rewrite !Exists_exists. split; intros (p & Hp & Hu); exists p;
      (split; [|done]);
      [by rewrite <- (sorted_by_key_perm fst (zip x y))
      |by rewrite (sorted_by_key_perm fst (zip x y))]. }
  split.
  - intros H. apply Hbad. by apply Hiff.
  - intros H. apply Hgood. intros H'. apply H. by apply Hiff.
Qed.
End Bins.

(** Five points, one of them with a confidence of exactly 10. *)
Lemma errors_by_confidence_in_range_witness :
  let x := [(5 # 2)%Q; 10%Q; 0%Q; (99 # 10)%Q; (27 # 10)%Q] in
  let y := [1%Q; 2%Q; 3%Q; 4%Q; 5%Q] in
  Forall (fun v => (0 <= v /\ v <= 10)%Q) x
  /\ exists bins,
       errors_by_confidence x y = Return bins
       /\ length bins = 10%nat
       /\ bins !! 2%nat = Some [1%Q; 5%Q].
Proof.
  intros x y.
  assert (Hx : Forall (fun v => (0 <= v /\ v <= 10)%Q) x).
  { repeat constructor; unfold Qle; simpl; lia. }
  split; [exact Hx|].
  destruct (errors_by_confidence_in_range x y Hx) as (bins & Hb & Hlen & Hk).
  exists bins. split; [exact Hb|]. split; [exact Hlen|].
  rewrite (Hk 2%nat ltac:(lia)). reflexivity.
Defined.

Lemma errors_by_confidence_index_error_witness :
  let x := [(5 # 2)%Q; (21 # 2)%Q] in
  let y := [1%Q; 2%Q] in
  Exists (fun p : Q * Q => unplaceable (fst p)) (zip x y)
  /\ errors_by_confidence x y = Raise IndexError.
Proof.
  intros x y.
  assert (Hbad : Exists (fun p : Q * Q => unplaceable (fst p)) (zip x y)).
  { right. left. left. unfold Qlt. simpl. lia. }
  split; [exact Hbad|].
  exact (proj1 (errors_by_confidence_index_error x y) Hbad).
Defined.
